(** * InfiniteTalk on Beam: the job orchestration protocol

    A shallow embedding of [handler_logic.py] (input materialisation,
    workflow parameter injection, execution monitoring), of
    [client_queue.py] (submit / poll / download), of [app.py] (start-up
    and the two endpoints), of [retrieve_task.py] (the rescue script)
    and of [preload_models.py] (filling the volume), and the properties
    of the specification checked against it.

    Python values are JSON values; a [dict] is an association list in
    insertion order with unique keys.  Effects (logging, files, network,
    sleeping) are recorded as a trace of events; what the outside world
    answers comes from a record of oracles carried in the state. *)

From Stdlib Require Import List String Ascii ZArith QArith Qround Qpower Lia Bool.
From Stdlib Require Import Permutation DecimalString.
From Stdlib Require Import Floats.SpecFloat.
Import ListNotations.
Open Scope string_scope.
Open Scope list_scope.
Open Scope Z_scope.

Set Implicit Arguments.
Set Warnings "-register-all".

(* ================================================================== *)
(** ** Python values *)
(* ================================================================== *)

Module Py.

(** What [json.loads] produces, and what a request carries. *)
Inductive json : Type :=
| JNull
| JBool (b : bool)
| JInt (z : Z)
| JFloat (f : spec_float)
| JStr (s : string)
| JArr (l : list json)
| JObj (o : list (string * json)).

(** A Python [dict] with string keys: insertion order, one entry per key. *)
Definition dict := list (string * json).

Definition keys (d : dict) : list string := map fst d.

(** [k in d] *)
Definition dict_mem (k : string) (d : dict) : bool :=
  existsb (fun kv => String.eqb k (fst kv)) d.

(** [d.get(k)], [None] when absent. *)
Fixpoint dict_get (k : string) (d : dict) : option json :=
  match d with
  | [] => None
  | (k', v) :: d' => if String.eqb k k' then Some v else dict_get k d'
  end.

(** [d.get(k, default)] *)
Definition dict_get_default (k : string) (default : json) (d : dict) : json :=
  match dict_get k d with Some v => v | None => default end.

(** [d[k] = v]: an existing key keeps its place, a new key goes last. *)
Fixpoint dict_set (k : string) (v : json) (d : dict) : dict :=
  match d with
  | [] => [(k, v)]
  | (k', v') :: d' =>
      if String.eqb k k' then (k', v) :: d' else (k', v') :: dict_set k v d'
  end.

(** [x == "literal"] for a JSON value [x]: only an equal [str] is equal. *)
Definition eq_str (x : json) (lit : string) : bool :=
  match x with JStr s => String.eqb s lit | _ => false end.

(** [x is None] *)
Definition is_None (x : json) : bool :=
  match x with JNull => true | _ => false end.

(** Truthiness of a JSON value ([if x:] / [not x]). *)
Definition truthy (x : json) : bool :=
  match x with
  | JNull => false
  | JBool b => b
  | JInt z => negb (z =? 0)
  | JFloat f => match f with S754_zero _ => false | _ => true end
  | JStr s => negb (String.eqb s "")
  | JArr l => match l with [] => false | _ => true end
  | JObj o => match o with [] => false | _ => true end
  end.

(** [str(x)] inside an f-string; exact on the scalars that occur as
    identifiers, a placeholder on floats and containers. *)
Definition str (x : json) : string :=
  match x with
  | JStr s => s
  | JNull => "None"
  | JBool true => "True"
  | JBool false => "False"
  | JInt z => DecimalString.NilZero.string_of_int (Z.to_int z)
  | JFloat _ => "<float>"
  | JArr _ => "<list>"
  | JObj _ => "<dict>"
  end.

(** Exceptions.  [SystemExit] is not an [Exception]: [except Exception]
    lets it through. *)
Inductive exn : Type :=
| KeyError (k : string)
| IndexError
| TypeError
| AttributeError
| ValueError
| OverflowError
| JSONDecodeError
| HTTPError (code : Z)
| ConnectionError
| OSError
| TimeoutExpired
| BinasciiError
| WebSocketConnectionClosed
| Exception_ (msg : string)
| SystemExit (code : Z).

Definition is_Exception (e : exn) : bool :=
  match e with SystemExit _ => false | _ => true end.

(** [binascii.Error] and [json.JSONDecodeError] are subclasses of
    [ValueError]. *)
Definition is_ValueError (e : exn) : bool :=
  match e with
  | ValueError | BinasciiError | JSONDecodeError => true
  | _ => false
  end.

(** [str(e)], as it is interpolated into a message. *)
Definition exn_text (e : exn) : string :=
  match e with
  | Exception_ msg => msg
  | KeyError k => k
  | IndexError => "IndexError"
  | TypeError => "TypeError"
  | AttributeError => "AttributeError"
  | ValueError => "ValueError"
  | OverflowError => "OverflowError"
  | JSONDecodeError => "JSONDecodeError"
  | HTTPError _ => "HTTPError"
  | ConnectionError => "ConnectionError"
  | OSError => "OSError"
  | TimeoutExpired => "TimeoutExpired"
  | BinasciiError => "BinasciiError"
  | WebSocketConnectionClosed => "WebSocketConnectionClosed"
  | SystemExit _ => "SystemExit"
  end.

(** [x[k]] for a string key [k]: a lookup on a dict, [KeyError] when the
    key is absent, [TypeError] on everything that is not a dict. *)
Definition getitem (x : json) (k : string) : exn + json :=
  match x with
  | JObj o => match dict_get k o with
              | Some v => inr v
              | None => inl (KeyError k)
              end
  | _ => inl TypeError
  end.

(** The result of running a piece of code: a value, an exception, or no
    result within the fuel given to a [while] loop. *)
Inductive outcome (A : Type) : Type :=
| Ret (a : A)
| Raise (e : exn)
| OutOfFuel.
Arguments Raise {A} e.
Arguments OutOfFuel {A}.

Inductive level := INFO | WARNING | ERROR.

(** Observable effects.  A log or print line is recorded by the literal
    text of its format string (pictographs and interpolated values left
    out). *)
Inductive event : Type :=
| Log (lvl : level) (msg : string)
| Print (msg : string)
| Sleep (seconds : Z)
| Uuid4
| Makedirs (dir : string)
| WriteFile (path : string)
| ReadFile (path : string)
| PathExists (path : string)
| Wget (url : json) (dest : string)
| AudioDuration (path : json)
| LoadWorkflow (path : string)
| WsConnect (url : string)
| WsRecv
| WsClose
| HttpPost (url : string) (body : json)
| HttpGet (url : string).

Definition trace := list event.

(** Calls that leave the machine. *)
Definition is_network (e : event) : bool :=
  match e with
  | Wget _ _ | WsConnect _ | WsRecv | HttpPost _ _ | HttpGet _ => true
  | _ => false
  end.

(** Effects on files or network (everything but logging, printing and
    drawing identifiers). *)
Definition is_io (e : event) : bool :=
  match e with
  | Log _ _ | Print _ | Uuid4 => false
  | _ => true
  end.

Section Monad.
Variable W : Type.

(** A computation reads and updates the world, emits a trace and ends
    in an outcome. *)
Definition M (A : Type) : Type := W -> trace * W * outcome A.

Definition ret {A} (a : A) : M A := fun w => ([], w, Ret a).

Definition raise {A} (e : exn) : M A := fun w => ([], w, Raise e).

Definition bind {A B} (m : M A) (k : A -> M B) : M B :=
  fun w =>
    match m w with
    | (t, w', Ret a) =>
        match k a w' with (t', w'', r) => (t ++ t', w'', r) end
    | (t, w', Raise e) => (t, w', Raise e)
    | (t, w', OutOfFuel) => (t, w', OutOfFuel)
    end.

Definition emit (e : event) : M unit := fun w => ([e], w, Ret tt).

Definition get_world : M W := fun w => ([], w, Ret w).

Definition put_world (w' : W) : M unit := fun _ => ([], w', Ret tt).

Definition lift {A} (r : exn + A) : M A :=
  match r with inl e => raise e | inr a => ret a end.

(** [try: m  except <classes> as e: h e], where [catches] tells the
    exceptions of the listed classes. *)
Definition try_catch {A} (catches : exn -> bool) (m : M A) (h : exn -> M A)
  : M A :=
  fun w =>
    match m w with
    | (t, w', Raise e) =>
        if catches e
        then match h e w' with (t', w'', r) => (t ++ t', w'', r) end
        else (t, w', Raise e)
    | r => r
    end.

(** [try: m  except Exception as e: h e] *)
Definition try_except {A} (m : M A) (h : exn -> M A) : M A :=
  try_catch is_Exception m h.

(** [for i in range(start, start + count): body i]; the body answers
    [Some a] to leave the loop ([break] / [return]) and [None] to go
    on. *)
Fixpoint for_range {A} (body : nat -> M (option A)) (start count : nat)
  : M (option A) :=
  match count with
  | O => ret None
  | S count' =>
      bind (body start) (fun r =>
        match r with
        | Some a => ret (Some a)
        | None => for_range body (S start) count'
        end)
  end.
End Monad.

Arguments ret {W A} a.
Arguments raise {W A} e.
Arguments bind {W A B} m k.
Arguments emit {W} e.
Arguments get_world {W}.
Arguments put_world {W} w'.
Arguments lift {W A} r.
Arguments try_catch {W A} catches m h.
Arguments try_except {W A} m h.
Arguments for_range {W A} body start count.

Definition trace_of {W A} (r : trace * W * outcome A) : trace := fst (fst r).
Definition world_of {W A} (r : trace * W * outcome A) : W := snd (fst r).
Definition outcome_of {W A} (r : trace * W * outcome A) : outcome A := snd r.

End Py.

Unset Implicit Arguments.
Import Py.

Declare Scope py_scope.
Delimit Scope py_scope with py.
Notation "x <- m ;; k" := (bind m (fun x => k))
  (at level 61, m at next level, right associativity) : py_scope.
Notation "m ;;; k" := (bind m (fun _ => k))
  (at level 61, right associativity) : py_scope.
Open Scope py_scope.

(* ================================================================== *)
(** ** client_queue.py: the asynchronous job client *)
(* ================================================================== *)

Module Client.

(** An HTTP response as the client uses it. *)
Record response : Type := {
  status_error : option exn;     (* what [raise_for_status()] raises *)
  json_body : exn + json;        (* [response.json()] *)
  text : string;                 (* [response.text] *)
  content_length : exn + Z;      (* [int(r.headers.get('content-length', 0))] *)
  chunks : list string           (* [r.iter_content(chunk_size=8192)] *)
}.

(** The world of the client: the answer to the n-th HTTP request it
    makes ([inl] when [requests] itself raises), how many requests were
    made, and the local files. *)
Record world : Type := {
  network : nat -> exn + response;
  requests : nat;
  file_base64 : string -> exn + string;   (* [file_to_base64] *)
  open_write : string -> option exn       (* [open(path, 'wb')] *)
}.

Definition next_request (w : world) : world :=
  {| network := network w; requests := S (requests w);
     file_base64 := file_base64 w; open_write := open_write w |}.

Definition print (msg : string) : M world unit := emit (Print msg).

Definition sleep (seconds : Z) : M world unit := emit (Sleep seconds).

(** [sys.exit(code)] *)
Definition sys_exit {A} (code : Z) : M world A := raise (SystemExit code).

Definition requests_post (url : string) (body : json) : M world response :=
  emit (HttpPost url body) ;;;
  w <- get_world ;;
  put_world (next_request w) ;;;
  lift (network w (requests w)).

Definition requests_get (url : string) : M world response :=
  emit (HttpGet url) ;;;
  w <- get_world ;;
  put_world (next_request w) ;;;
  lift (network w (requests w)).

Definition raise_for_status (r : response) : M world unit :=
  match status_error r with Some e => raise e | None => ret tt end.

Definition file_to_base64 (path : string) : M world string :=
  emit (ReadFile path) ;;;
  w <- get_world ;;
  lift (file_base64 w path).

Definition submit_task (queue_url : string) (payload : dict) : M world json :=
  response <- requests_post queue_url (JObj payload) ;;
  try_except
    (raise_for_status response ;;;
     body <- lift (json_body response) ;;
     lift (getitem body "task_id"))
    (fun e =>
       print "Error submitting task: " ;;;
       print "Response: " ;;;
       sys_exit 1).

Definition task_url (task_id : json) : string :=
  ("https://api.beam.cloud/v2/task/" ++ str task_id ++ "/")%string.

(** One turn of the [for attempt in range(retries)] of [poll_task]:
    [Some body] is the [return], [None] the [continue]. *)
Definition poll_attempt (url : string) (retries attempt : nat)
  : M world (option json) :=
  try_except
    (response <- requests_get url ;;
     raise_for_status response ;;;
     body <- lift (json_body response) ;;
     ret (Some body))
    (fun e =>
       if (attempt <? retries - 1)%nat
       then sleep 2 ;;; ret None
       else raise e).

(** [poll_task(task_id, token, retries=5)].  Falling out of the loop
    (only when [retries] is 0) returns [None]. *)
Definition poll_task (task_id : json) (retries : nat) : M world json :=
  let url := task_url task_id in
  r <- for_range (poll_attempt url retries) 0 retries ;;
  match r with
  | Some body => ret body
  | None => ret JNull
  end.

Inductive mode := i2v | v2v.

(** The parsed command line ([--url] and [--audio] are required by the
    parser itself). *)
Record args : Type := {
  url : string;
  arg_mode : mode;
  image : option string;
  video : option string;
  audio : string;
  prompt : string;
  width : option Z;
  height : option Z;
  output : string;
  force_offload : option bool
}.

(** [parser.error(msg)]: usage on stderr, exit status 2. *)
Definition parser_error {A} (msg : string) : M world A :=
  print msg ;;; sys_exit 2.

(** [if not s] for an optional string argument. *)
Definition missing (s : option string) : bool :=
  match s with
  | None => true
  | Some s => String.eqb s ""
  end.

Definition or_default (x : option Z) (default : Z) : Z :=
  match x with
  | Some z => if z =? 0 then default else z
  | None => default
  end.

Definition TERMINAL : list string :=
  ["COMPLETED"; "COMPLETE"; "FAILED"; "CANCELED"].

(** [status in [...]] *)
Definition status_in (status : json) (l : list string) : bool :=
  existsb (eq_str status) l.

(** Lines 96-149: the submission payload. *)
Definition build_payload (a : args) : M world dict :=
  cfg <- match arg_mode a with
         | i2v =>
             if missing (image a)
             then parser_error "--image is required for I2V mode"
             else ret ("image", 384, 384)
         | v2v =>
             if missing (video a)
             then parser_error "--video is required for V2V mode"
             else ret ("video", 640, 640)
         end ;;
  let '(input_type, default_width, default_height) := cfg in
  let width := or_default (width a) default_width in
  let height := or_default (height a) default_height in
  let payload : dict :=
    [("input_type", JStr input_type); ("prompt", JStr (prompt a));
     ("width", JInt width); ("height", JInt height)] in
  let payload :=
    match force_offload a with
    | Some b => dict_set "force_offload" (JBool b) payload
    | None => payload
    end in
  payload <- match arg_mode a, image a with
             | i2v, Some img =>
                 if String.prefix "http" img
                 then print "Image URL: " ;;;
                      ret (dict_set "image_url" (JStr img) payload)
                 else print "Image File: " ;;;
                      b <- file_to_base64 img ;;
                      ret (dict_set "image_base64" (JStr b) payload)
             | _, _ => ret payload
             end ;;
  payload <- match arg_mode a, video a with
             | v2v, Some vid =>
                 if String.prefix "http" vid
                 then print "Video URL: " ;;;
                      ret (dict_set "video_url" (JStr vid) payload)
                 else print "Video File: " ;;;
                      b <- file_to_base64 vid ;;
                      ret (dict_set "video_base64" (JStr b) payload)
             | _, _ => ret payload
             end ;;
  if String.prefix "http" (audio a)
  then print "Audio URL: " ;;;
       ret (dict_set "wav_url" (JStr (audio a)) payload)
  else print "Audio File: " ;;;
       b <- file_to_base64 (audio a) ;;
       ret (dict_set "wav_base64" (JStr b) payload).

(** Lines 161-181: the poll loop.  [fuel] bounds the number of
    iterations of the [while]; the progress bar is cosmetic and left
    out. *)
Fixpoint poll_loop (fuel : nat) (task_id : json) (status info : json)
  : M world (json * json) :=
  if negb (status_in status TERMINAL) then
    match fuel with
    | O => fun w => ([], w, OutOfFuel)
    | S fuel' =>
        info <- poll_task task_id 5 ;;
        status <- lift (getitem info "status") ;;
        if status_in status TERMINAL
        then ret (status, info)
        else sleep 5 ;;; poll_loop fuel' task_id status info
    end
  else ret (status, info).

(** [outputs[0]]: the first element of a list, the first character of
    a string; a dict has no key 0, the other values have no items. *)
Definition first_item (x : json) : exn + json :=
  match x with
  | JArr (h :: _) => inr h
  | JArr [] => inl IndexError
  | JObj _ => inl (KeyError "0")
  | JStr (String c _) => inr (JStr (String c EmptyString))
  | _ => inl TypeError
  end.

(** [x.get(k)] on a value that should be a dict. *)
Definition get (x : json) (k : string) : exn + json :=
  match x with
  | JObj o => inr (dict_get_default k JNull o)
  | _ => inl AttributeError
  end.

Fixpoint write_chunks (path : string) (cs : list string) : M world unit :=
  match cs with
  | [] => ret tt
  | _ :: cs' => emit (WriteFile path) ;;; write_chunks path cs'
  end.

(** Lines 206-222: the streamed download. *)
Definition download (video_url : json) (out : string) : M world unit :=
  u <- match video_url with
       | JStr u => ret u
       | _ => raise TypeError
       end ;;
  r <- requests_get u ;;
  raise_for_status r ;;;
  _ <- lift (content_length r) ;;
  w <- get_world ;;
  match open_write w out with
  | Some e => raise e
  | None => write_chunks out (chunks r)
  end.

(** Lines 183-226: what happens once the loop has ended. *)
Definition finish (a : args) (status info : json) : M world unit :=
  if status_in status ["COMPLETED"; "COMPLETE"] then
    print "Task Completed!" ;;;
    outputs <- match info with
               | JObj o => ret (dict_get_default "outputs" (JArr []) o)
               | _ => raise AttributeError
               end ;;
    if negb (truthy outputs) then
      print "No output files found in task info." ;;;
      print "<json.dumps(info)>" ;;;
      sys_exit 1
    else
      first <- lift (first_item outputs) ;;
      video_url <- lift (get first "url") ;;
      if negb (truthy video_url) then
        print "Output URL not found." ;;;
        print "Outputs:" ;;;
        sys_exit 1
      else
        print "Downloading video from: " ;;;
        download video_url (output a) ;;;
        print "Video saved to "
  else
    print "Task Failed with status: ".

(** [main()], once the module has found [BEAM_TOKEN] set and the
    command line is parsed; [fuel] bounds the polls. *)
Definition main (a : args) (fuel : nat) : M world unit :=
  payload <- build_payload a ;;
  print "Mode: " ;;;
  print "Submitting task to " ;;;
  task_id <- submit_task (url a) payload ;;
  print "Task ID: " ;;;
  print "Waiting for completion..." ;;;
  r <- poll_loop fuel task_id (JStr "PENDING") JNull ;;
  finish a (fst r) (snd r).

(** The exit status of the process: 0 when [main] returns, the code of
    [sys.exit], 1 after an uncaught exception. *)
Definition exit_code (o : outcome unit) : option Z :=
  match o with
  | Ret _ => Some 0
  | Raise (SystemExit c) => Some c
  | Raise _ => Some 1
  | OutOfFuel => None
  end.

End Client.

(* ================================================================== *)
(** ** handler_logic.py: materialise, inject, monitor *)
(* ================================================================== *)

Module Handler.

(** What [ws.recv()] returns: bytes, or a [str] given with what
    [json.loads] makes of it ([None] when it raises). *)
Inductive frame : Type :=
| Binary
| Text (doc : option json).

(** How [subprocess.run(["wget", ...], timeout=60)] ends. *)
Inductive wget_result : Type :=
| WgetExit (returncode : Z) (stderr : string)
| WgetTimeout
| WgetError (e : exn).

(** The execution history of a job as the server's interface gives it:
    [{"outputs": {node_id: {"gifs"?: [{"fullpath": str}]}}}], in the
    iteration order of the mapping. *)
Record video : Type := { fullpath : string }.
Record node_output : Type := { gifs : option (list video) }.
Definition outputs := list (string * node_output).

(** The binary64 numbers of Python's [float]. *)
Definition prec := 53.
Definition emax := 1024.
Definition float := spec_float.

(** The world of the handler.  The read-only fields are the answers of
    the file system, of the tools and of the inference server; [inbox],
    [clock] and [drawn] change as the handler runs. *)
Record world : Type := {
  uuids : nat -> string;                     (* successive [uuid.uuid4()] *)
  drawn : nat;
  abspath : string -> string;                (* [os.path.abspath] *)
  makedirs : string -> option exn;           (* [os.makedirs(d, exist_ok=True)] *)
  write_file : string -> option exn;         (* [open(p, "wb")] and [write] *)
  wget : json -> string -> wget_result;
  b64decode : json -> exn + string;          (* [base64.b64decode] *)
  get_duration : json -> exn + float;        (* [librosa.get_duration(path=p)] *)
  workflow : exn + dict;                     (* [json.load] of the template *)
  exists_at : nat -> string -> bool;         (* [os.path.exists] at a time *)
  clock : nat;                               (* [os.path.exists] calls so far *)
  connect : nat -> option exn;               (* n-th [ws.connect(url)] *)
  queue_reply : exn + string;                (* the reply to POST /prompt,
                                                read at its [prompt_id], a
                                                string; [inl] when the
                                                request or the decoding of
                                                the reply raises *)
  inbox : list frame;                        (* frames still to be received *)
  history_reply : string -> exn + list (string * outputs);
                                             (* GET /history/<id> *)
  read_base64 : string -> exn + string       (* read a file and encode it *)
}.

Definition set_drawn (n : nat) (w : world) : world :=
  {| uuids := uuids w; drawn := n; abspath := abspath w;
     makedirs := makedirs w; write_file := write_file w; wget := wget w;
     b64decode := b64decode w; get_duration := get_duration w;
     workflow := workflow w; exists_at := exists_at w; clock := clock w;
     connect := connect w; queue_reply := queue_reply w; inbox := inbox w;
     history_reply := history_reply w; read_base64 := read_base64 w |}.

Definition set_clock (n : nat) (w : world) : world :=
  {| uuids := uuids w; drawn := drawn w; abspath := abspath w;
     makedirs := makedirs w; write_file := write_file w; wget := wget w;
     b64decode := b64decode w; get_duration := get_duration w;
     workflow := workflow w; exists_at := exists_at w; clock := n;
     connect := connect w; queue_reply := queue_reply w; inbox := inbox w;
     history_reply := history_reply w; read_base64 := read_base64 w |}.

Definition set_inbox (l : list frame) (w : world) : world :=
  {| uuids := uuids w; drawn := drawn w; abspath := abspath w;
     makedirs := makedirs w; write_file := write_file w; wget := wget w;
     b64decode := b64decode w; get_duration := get_duration w;
     workflow := workflow w; exists_at := exists_at w; clock := clock w;
     connect := connect w; queue_reply := queue_reply w; inbox := l;
     history_reply := history_reply w; read_base64 := read_base64 w |}.

Definition SERVER_ADDRESS : string := "127.0.0.1".

Definition log (lvl : level) (msg : string) : M world unit :=
  emit (Log lvl msg).

Definition sleep (seconds : Z) : M world unit := emit (Sleep seconds).

Definition uuid4 : M world string :=
  emit Uuid4 ;;;
  w <- get_world ;;
  put_world (set_drawn (S (drawn w)) w) ;;;
  ret (uuids w (drawn w)).

Definition os_makedirs (dir : string) : M world unit :=
  emit (Makedirs dir) ;;;
  w <- get_world ;;
  match makedirs w dir with Some e => raise e | None => ret tt end.

Definition write_bytes (path : string) : M world unit :=
  emit (WriteFile path) ;;;
  w <- get_world ;;
  match write_file w path with Some e => raise e | None => ret tt end.

(** [os.path.abspath(os.path.join(temp_dir, output_filename))] *)
Definition abs_join (temp_dir output_filename : string) : M world string :=
  w <- get_world ;;
  ret (abspath w (temp_dir ++ "/" ++ output_filename)%string).

(** [os.path.exists(p)].  References are strings; on anything else the
    model raises [TypeError] (Python would take an integer for a file
    descriptor). *)
Definition os_path_exists (p : json) : M world bool :=
  match p with
  | JStr s =>
      emit (PathExists s) ;;;
      w <- get_world ;;
      put_world (set_clock (S (clock w)) w) ;;;
      ret (exists_at w (clock w) s)
  | _ => raise TypeError
  end.

(** [truncate_base64_for_log(base64_str, max_length=50)]: the value that
    is logged.  [len] of a number and slicing a dict raise. *)
Definition truncate_base64_for_log (base64_str : json) : exn + json :=
  if negb (truthy base64_str) then inr (JStr "None")
  else
    match base64_str with
    | JStr s =>
        if (String.length s <=? 50)%nat then inr base64_str
        else inr (JStr (String.substring 0 50 s ++ "... (total "
                        ++ str (JInt (Z.of_nat (String.length s)))
                        ++ " chars)")%string)
    | JArr l =>
        if (List.length l <=? 50)%nat then inr base64_str
        else inr (JStr "<list>... (total chars)")
    | JObj o =>
        if (List.length o <=? 50)%nat then inr base64_str
        else inl TypeError
    | _ => inl TypeError
    end.

Definition run_wget (url : json) (output_path : string)
  : M world (Z * string) :=
  emit (Wget url output_path) ;;;
  w <- get_world ;;
  match wget w url output_path with
  | WgetExit rc err => ret (rc, err)
  | WgetTimeout => raise TimeoutExpired
  | WgetError e => raise e
  end.

(** [download_file_from_url(url, output_path)].  The failure raised
    inside the [try] is itself caught by [except Exception]. *)
Definition download_file_from_url (url : json) (output_path : string)
  : M world json :=
  try_except
    (result <- run_wget url output_path ;;
     if fst result =? 0
     then log INFO "Downloaded file from URL: " ;;;
          ret (JStr output_path)
     else log ERROR "wget download failed: " ;;;
          raise (Exception_ ("URL download failed: " ++ snd result)%string))
    (fun e =>
       match e with
       | TimeoutExpired =>
           log ERROR "Download timeout" ;;;
           raise (Exception_ "Download timeout")
       | _ =>
           log ERROR "Download error: " ;;;
           raise (Exception_ ("Download error: " ++ exn_text e)%string)
       end).

(** [save_base64_to_file(base64_data, temp_dir, output_filename)] *)
Definition save_base64_to_file (base64_data : json)
  (temp_dir output_filename : string) : M world json :=
  try_catch is_ValueError
    (w <- get_world ;;
     _ <- lift (b64decode w base64_data) ;;
     os_makedirs temp_dir ;;;
     file_path <- abs_join temp_dir output_filename ;;
     write_bytes file_path ;;;
     log INFO "Saved base64 input to " ;;;
     ret (JStr file_path))
    (fun e =>
       log ERROR "Base64 decode failed: " ;;;
       raise (Exception_ ("Base64 decode failed: " ++ exn_text e)%string)).

(** [process_input(input_data, temp_dir, output_filename, input_type)] *)
Definition process_input (input_data : json)
  (temp_dir output_filename input_type : string) : M world json :=
  if String.eqb input_type "path" then
    log INFO "Path input: " ;;;
    ret input_data
  else if String.eqb input_type "url" then
    log INFO "URL input: " ;;;
    os_makedirs temp_dir ;;;
    file_path <- abs_join temp_dir output_filename ;;
    download_file_from_url input_data file_path
  else if String.eqb input_type "base64" then
    log INFO "Base64 input processing" ;;;
    save_base64_to_file input_data temp_dir output_filename
  else
    raise (Exception_ ("Unsupported input type: " ++ input_type)%string).

(** [queue_prompt(prompt, client_id)["prompt_id"]]: both handlers log
    and re-raise. *)
Definition queue_prompt (prompt : dict) (client_id : string)
  : M world string :=
  let url := ("http://" ++ SERVER_ADDRESS ++ ":8188/prompt")%string in
  log INFO "Queueing prompt to: " ;;;
  let p := JObj [("prompt", JObj prompt); ("client_id", JStr client_id)] in
  try_except
    (emit (HttpPost url p) ;;;
     w <- get_world ;;
     result <- lift (queue_reply w) ;;
     log INFO "Prompt sent successfully: " ;;;
     ret result)
    (fun e =>
       match e with
       | HTTPError _ =>
           log ERROR "HTTP error: " ;;;
           log ERROR "Response: " ;;;
           raise e
       | _ =>
           log ERROR "Error sending prompt: " ;;;
           raise e
       end).

(** [get_history(prompt_id)] *)
Definition get_history (prompt_id : string)
  : M world (list (string * outputs)) :=
  let url := ("http://" ++ SERVER_ADDRESS ++ ":8188/history/"
              ++ prompt_id)%string in
  emit (HttpGet url) ;;;
  w <- get_world ;;
  lift (history_reply w prompt_id).

(** The body of the [while True] of [get_videos] on a received frame;
    [true] is the [break]. *)
Definition on_frame (prompt_id : string) (out : frame) : M world bool :=
  match out with
  | Text doc =>
      message <- lift (match doc with
                       | Some j => inr j
                       | None => inl JSONDecodeError
                       end) ;;
      type <- lift (getitem message "type") ;;
      if eq_str type "executing" then
        data <- lift (getitem message "data") ;;
        node <- lift (getitem data "node") ;;
        (if negb (is_None node)
         then log INFO "Executing node: "
         else ret tt) ;;;
        node <- lift (getitem data "node") ;;
        if is_None node then
          id <- lift (getitem data "prompt_id") ;;
          if eq_str id prompt_id
          then log INFO "Workflow completed" ;;; ret true
          else ret false
        else ret false
      else ret false
  | Binary => ret false
  end.

(** The [while True] loop, by recursion on the frames that are still to
    come (the [inbox] of the world when the loop starts).  Each turn
    starts with [ws.recv()], which takes the next frame, and raises on a
    channel that has nothing more to deliver. *)
Fixpoint recv_loop (prompt_id : string) (frames : list frame)
  : M world unit :=
  match frames with
  | [] => emit WsRecv ;;; raise WebSocketConnectionClosed
  | out :: rest =>
      emit WsRecv ;;;
      w <- get_world ;;
      put_world (set_inbox rest w) ;;;
      done <- on_frame prompt_id out ;;
      if done then ret tt else recv_loop prompt_id rest
  end.

(** [d[k] = v] on a mapping with values of any type. *)
Fixpoint assoc_set {V} (k : string) (v : V) (d : list (string * V))
  : list (string * V) :=
  match d with
  | [] => [(k, v)]
  | (k', v') :: d' =>
      if String.eqb k k' then (k', v) :: d' else (k', v') :: assoc_set k v d'
  end.

(** The inner [for video in node_output["gifs"]]. *)
Fixpoint existing_videos (vs : list video) (videos_output : list string)
  : M world (list string) :=
  match vs with
  | [] => ret videos_output
  | video :: vs' =>
      let video_path := fullpath video in
      found <- os_path_exists (JStr video_path) ;;
      if found
      then log INFO "Video found: " ;;;
           existing_videos vs' (videos_output ++ [video_path])
      else existing_videos vs' videos_output
  end.

(** The outer [for node_id in history["outputs"]]. *)
Fixpoint collect_videos (outs : outputs)
  (output_videos : list (string * list string))
  : M world (list (string * list string)) :=
  match outs with
  | [] => ret output_videos
  | (node_id, node_output) :: outs' =>
      videos_output <- match gifs node_output with
                       | Some vs => existing_videos vs []
                       | None => ret []
                       end ;;
      collect_videos outs' (assoc_set node_id videos_output output_videos)
  end.

(** Lines 142-155 of [get_videos]: fetch the history of the job and
    collect the videos of its nodes. *)
Definition collect_history (prompt_id : string)
  : M world (list (string * list string)) :=
  histories <- get_history prompt_id ;;
  history <- match find (fun kv => String.eqb prompt_id (fst kv)) histories with
             | Some kv => ret (snd kv)
             | None => raise (KeyError prompt_id)
             end ;;
  collect_videos history [].

(** [get_videos(ws, prompt, client_id)] *)
Definition get_videos (prompt : dict) (client_id : string)
  : M world (list (string * list string)) :=
  prompt_id <- queue_prompt prompt client_id ;;
  log INFO "Workflow started: prompt_id=" ;;;
  w <- get_world ;;
  recv_loop prompt_id (inbox w) ;;;
  collect_history prompt_id.

(** [load_workflow(workflow_path)] *)
Definition load_workflow (workflow_path : string) : M world dict :=
  emit (LoadWorkflow workflow_path) ;;;
  w <- get_world ;;
  lift (workflow w).

(** [get_audio_duration(audio_path)]: [None] when librosa raises. *)
Definition get_audio_duration (audio_path : json) : M world (option float) :=
  try_except
    (emit (AudioDuration audio_path) ;;;
     w <- get_world ;;
     duration <- lift (get_duration w audio_path) ;;
     ret (Some duration))
    (fun e =>
       log WARNING "Could not get audio duration " ;;;
       ret None).

(** [float(n)] for the small integer [fps]: 25.0 is [25 * 2^48 * 2^-48]. *)
Definition fps_default : float := S754_finite false 7036874417766400 (-48).

(** [int(x)] of a float: truncation toward zero; infinities and NaN
    raise. *)
Definition int_of_float (x : float) : exn + Z :=
  match x with
  | S754_zero _ => inr 0
  | S754_infinity _ => inl OverflowError
  | S754_nan => inl ValueError
  | S754_finite s m e =>
      let magnitude := Z.shiftl (Zpos m) e in
      inr (if s then - magnitude else magnitude)
  end.

(** [calculate_max_frames_from_audio(wav_path, fps=25)] *)
Definition calculate_max_frames_from_audio (wav_path : json) (fps : float)
  : M world Z :=
  duration <- get_audio_duration wav_path ;;
  match duration with
  | None =>
      log WARNING "Could not calculate audio duration. Using default 81." ;;;
      ret 81
  | Some duration =>
      frames <- lift (int_of_float (SFmul prec emax duration fps)) ;;
      let max_frames := frames + 81 in
      log INFO "Audio duration: " ;;;
      ret max_frames
  end.

(** [node_data.get("class_type") == cls] *)
Definition class_is (node_data : json) (cls : string) : exn + bool :=
  match node_data with
  | JObj o => inr (eq_str (dict_get_default "class_type" JNull o) cls)
  | _ => inl AttributeError
  end.

(** The fallback search, [for node_id, node_data in prompt.items()]. *)
Fixpoint first_of_class (cls : string) (prompt : dict)
  : exn + option string :=
  match prompt with
  | [] => inr None
  | (node_id, node_data) :: rest =>
      match class_is node_data cls with
      | inl e => inl e
      | inr true => inr (Some node_id)
      | inr false => first_of_class cls rest
      end
  end.

Definition preferred_id : string := "128".

(** Lines 257-268: the identifier of the sampler node, [None] when there
    is none. *)
Definition find_sampler (prompt : dict) : exn + option string :=
  if dict_mem preferred_id prompt then
    match class_is (dict_get_default preferred_id JNull prompt)
                   "WanVideoSampler" with
    | inl e => inl e
    | inr true => inr (Some preferred_id)
    | inr false => first_of_class "WanVideoSampler" prompt
    end
  else first_of_class "WanVideoSampler" prompt.

(** [prompt[node_id].setdefault("inputs", {})[field] = value] *)
Definition setdefault_input (prompt : dict) (node_id field : string)
  (value : json) : exn + dict :=
  match dict_get node_id prompt with
  | None => inl (KeyError node_id)
  | Some (JObj node) =>
      match dict_get "inputs" node with
      | None =>
          inr (dict_set node_id
                 (JObj (dict_set "inputs" (JObj [(field, value)]) node))
                 prompt)
      | Some (JObj node_inputs) =>
          inr (dict_set node_id
                 (JObj (dict_set "inputs"
                          (JObj (dict_set field value node_inputs)) node))
                 prompt)
      | Some _ => inl TypeError
      end
  | Some _ => inl AttributeError
  end.

(** [prompt[node_id]["inputs"][field] = value] *)
Definition set_input (prompt : dict) (node_id field : string) (value : json)
  : exn + dict :=
  match getitem (JObj prompt) node_id with
  | inl e => inl e
  | inr node =>
      match getitem node "inputs" with
      | inl e => inl e
      | inr (JObj node_inputs) =>
          match node with
          | JObj o =>
              inr (dict_set node_id
                     (JObj (dict_set "inputs"
                              (JObj (dict_set field value node_inputs)) o))
                     prompt)
          | _ => inl TypeError
          end
      | inr _ => inl TypeError
      end
  end.

(** [if sampler_node_id:] - an identifier that is [None] or empty is
    falsy. *)
Definition found (sampler_node_id : option string) : bool :=
  match sampler_node_id with
  | Some s => negb (String.eqb s "")
  | None => false
  end.

(** Lines 253-277: the offload flag is written into the sampler node, or
    a warning is logged. *)
Definition inject_force_offload (inputs prompt : dict) : M world dict :=
  let force_offload := dict_get_default "force_offload" (JBool true) inputs in
  log INFO "Settings: force_offload=" ;;;
  sampler_node_id <- lift (find_sampler prompt) ;;
  match sampler_node_id with
  | Some id =>
      if found sampler_node_id then
        prompt <- lift (setdefault_input prompt id "force_offload"
                          force_offload) ;;
        log INFO "Node (WanVideoSampler) updated: force_offload=" ;;;
        ret prompt
      else
        log WARNING
          "Warning: WanVideoSampler node not found. Using workflow defaults." ;;;
        ret prompt
  | None =>
      log WARNING
        "Warning: WanVideoSampler node not found. Using workflow defaults." ;;;
      ret prompt
  end.

(** The [if] / [elif] chain of lines 213-220 (and 224-231 for audio):
    the value and the form handed to [process_input], [None] for the
    final [else]. *)
Definition pick_form (kind : string) (inputs : dict)
  : option (json * string) :=
  if dict_mem (kind ++ "_path")%string inputs then
    Some (dict_get_default (kind ++ "_path")%string JNull inputs, "path")
  else if dict_mem (kind ++ "_url")%string inputs then
    Some (dict_get_default (kind ++ "_url")%string JNull inputs, "url")
  else if dict_mem (kind ++ "_base64")%string inputs then
    Some (dict_get_default (kind ++ "_base64")%string JNull inputs, "base64")
  else None.

Definition error (msg : string) : dict := [("error", JStr msg)].

(** Lines 199-204: the request is logged with its inline payloads
    shortened. *)
Fixpoint log_input (ks : list string) (inputs : dict) : exn + dict :=
  match ks with
  | [] => inr inputs
  | key :: ks' =>
      if dict_mem key inputs then
        match truncate_base64_for_log (dict_get_default key JNull inputs) with
        | inl e => inl e
        | inr v => log_input ks' (dict_set key v inputs)
        end
      else log_input ks' inputs
  end.

Definition max_attempts : nat := 36.

(** One turn of the [for attempt in range(max_attempts)] of lines
    300-309: [Some None] is the [break], [Some (Some d)] the [return d]
    of the last turn, [None] the fall through to the next turn. *)
Definition connect_attempt (ws_url : string) (attempt : nat)
  : M world (option (option dict)) :=
  try_except
    (emit (WsConnect ws_url) ;;;
     w <- get_world ;;
     match connect w attempt with
     | Some e => raise e
     | None => log INFO "WebSocket connected" ;;; ret (Some None)
     end)
    (fun e =>
       log WARNING "WebSocket connection failed" ;;;
       if (attempt =? max_attempts - 1)%nat
       then ret (Some (Some
              (error "WebSocket connection timeout (3 minutes)")))
       else sleep 5 ;;; ret None).

(** Lines 298-309: [Some d] when the handler returns [d], [None] when
    it goes on to run the workflow. *)
Definition connect_websocket (ws_url : string) : M world (option dict) :=
  r <- for_range (connect_attempt ws_url) 0 max_attempts ;;
  match r with
  | Some (Some d) => ret (Some d)
  | _ => ret None
  end.

(** Lines 316-321: the first path of the first node that has one. *)
Fixpoint first_video (videos : list (string * list string)) : option string :=
  match videos with
  | [] => None
  | (_, []) :: rest => first_video rest
  | (_, p :: _) :: _ => Some p
  end.

(** Lines 311-338: run the workflow and return the encoded video. *)
Definition run_workflow (prompt : dict) (client_id : string) : M world dict :=
  videos <- get_videos prompt client_id ;;
  emit WsClose ;;;
  log INFO "WebSocket closed" ;;;
  match first_video videos with
  | None => ret (error "No output video found")
  | Some output_video_path =>
      if String.eqb output_video_path "" then
        ret (error "No output video found")
      else
        present <- os_path_exists (JStr output_video_path) ;;
        if negb present then
          ret (error ("Output video file not found: "
                      ++ output_video_path)%string)
        else
          try_except
            (emit (ReadFile output_video_path) ;;;
             w <- get_world ;;
             video_data <- lift (read_base64 w output_video_path) ;;
             log INFO "Video encoded: " ;;;
             ret [("video", JStr video_data)])
            (fun e =>
               log ERROR "Base64 encoding failed: " ;;;
               ret (error ("Base64 encoding failed: " ++ exn_text e)%string))
  end.

(** Lines 294-338: connect to the realtime channel, then run. *)
Definition connect_and_run (prompt : dict) (client_id : string)
  : M world dict :=
  let ws_url := ("ws://" ++ SERVER_ADDRESS ++ ":8188/ws?clientId="
                 ++ client_id)%string in
  log INFO "Connecting to WebSocket: " ;;;
  timeout <- connect_websocket ws_url ;;
  match timeout with
  | Some d => ret d
  | None => run_workflow prompt client_id
  end.

(** Lines 243-338: with the frame count settled. *)
Definition inject_and_run (inputs : dict) (client_id : string)
  (image_path wav_path max_frame : json) : M world dict :=
  let prompt_text :=
    dict_get_default "prompt" (JStr "A person talking naturally") inputs in
  let width := dict_get_default "width" (JInt 512) inputs in
  let height := dict_get_default "height" (JInt 512) inputs in
  log INFO "Settings: prompt=" ;;;
  prompt <- load_workflow "/mnt/code/I2V_single.json" ;;
  prompt <- inject_force_offload inputs prompt ;;
  image_found <- os_path_exists image_path ;;
  if negb image_found then
    ret (error ("Image file not found: " ++ str image_path)%string)
  else
    wav_found <- os_path_exists wav_path ;;
    if negb wav_found then
      ret (error ("Audio file not found: " ++ str wav_path)%string)
    else
      prompt <- lift (set_input prompt "284" "image" image_path) ;;
      prompt <- lift (set_input prompt "125" "audio" wav_path) ;;
      prompt <- lift (set_input prompt "241" "positive_prompt" prompt_text) ;;
      prompt <- lift (set_input prompt "245" "value" width) ;;
      prompt <- lift (set_input prompt "246" "value" height) ;;
      prompt <- lift (set_input prompt "270" "value" max_frame) ;;
      connect_and_run prompt client_id.

(** Lines 233-241: with both inputs materialised, the frame count is
    the caller's, or is derived from the audio when the caller gave
    none ([inputs.get("max_frame")] is [None]). *)
Definition prepare_and_run (inputs : dict) (client_id : string)
  (image_path wav_path : json) : M world dict :=
  let max_frame := dict_get_default "max_frame" JNull inputs in
  max_frame <- (if is_None max_frame
                then n <- calculate_max_frames_from_audio wav_path
                            fps_default ;;
                     ret (JInt n)
                else ret max_frame) ;;
  inject_and_run inputs client_id image_path wav_path max_frame.

(** Lines 211-231 and what follows: each input is looked for and
    materialised in turn, the image first. *)
Definition materialise_and_run (inputs : dict) (client_id task_id : string)
  : M world dict :=
  match pick_form "image" inputs with
  | None =>
      ret (error
        "Image input required (image_path, image_url, or image_base64)")
  | Some (image_data, image_form) =>
      image_path <- process_input image_data task_id "input_image.jpg"
                      image_form ;;
      match pick_form "wav" inputs with
      | None =>
          ret (error
            "Audio input required (wav_path, wav_url, or wav_base64)")
      | Some (wav_data, wav_form) =>
          wav_path <- process_input wav_data task_id "input_audio.wav"
                        wav_form ;;
          prepare_and_run inputs client_id image_path wav_path
      end
  end.

(** [process_infinitetalk(inputs)] *)
Definition process_infinitetalk (inputs : dict) : M world dict :=
  client_id <- uuid4 ;;
  u <- uuid4 ;;
  let task_id := ("task_" ++ u)%string in
  _ <- lift (log_input ["image_base64"; "wav_base64"] inputs) ;;
  log INFO "Received input: " ;;;
  let input_type := dict_get_default "input_type" (JStr "image") inputs in
  if negb (eq_str input_type "image") then
    ret (error "Only input_type='image' is supported (I2V_single)")
  else
    materialise_and_run inputs client_id task_id.

End Handler.

(* ================================================================== *)
(** ** Properties, as predicates and functions over the model *)
(* ================================================================== *)

Module ClientSpec.
Import Client.

(** What the [i]-th HTTP request from now on comes to, when it is a
    status poll: the parsed body, or the exception of [requests.get],
    of [raise_for_status] or of [response.json()]. *)
Definition attempt (w : world) (i : nat) : exn + json :=
  match network w (i + requests w) with
  | inl e => inl e
  | inr r =>
      match status_error r with
      | Some e => inl e
      | None => json_body r
      end
  end.

(** The world after [n] more requests. *)
Definition after_requests (n : nat) (w : world) : world :=
  Nat.iter n next_request w.

(** [k] failed attempts, each followed by its 2-second pause, and one
    more attempt. *)
Definition polled_trace (task_id : json) (k : nat) : trace :=
  List.concat (repeat [HttpGet (task_url task_id); Sleep 2] k)
  ++ [HttpGet (task_url task_id)].

(** A response with a successful status and a JSON body. *)
Definition ok_response (body : json) : response :=
  {| status_error := None; json_body := inr body; text := "";
     content_length := inr 0; chunks := ["chunk"] |}.

Definition server_error : response :=
  {| status_error := Some (HTTPError 503); json_body := inl JSONDecodeError;
     text := "unavailable"; content_length := inr 0; chunks := [] |}.

(** A server that accepts the task and reports it FAILED at the first
    poll. *)
Definition failing_server : world :=
  {| network := fun n =>
       match n with
       | O => inr (ok_response (JObj [("task_id", JStr "t-1")]))
       | _ => inr (ok_response
                     (JObj [("status", JStr "FAILED");
                            ("outputs",
                             JArr [JObj [("url", JStr "http://out/v.mp4")]])]))
       end;
     requests := 0;
     file_base64 := fun _ => inr "QUJD";
     open_write := fun _ => None |}.

(** A server whose status endpoint fails twice (a refused connection,
    then a 503) before it answers. *)
Definition flaky_server : world :=
  {| network := fun n =>
       match n with
       | 0%nat => inl ConnectionError
       | 1%nat => inr server_error
       | _ => inr (ok_response (JObj [("status", JStr "RUNNING")]))
       end;
     requests := 0;
     file_base64 := fun _ => inr "QUJD";
     open_write := fun _ => None |}.

Definition url_args : args :=
  {| url := "https://queue.example/tasks"; arg_mode := i2v;
     image := Some "http://host/face.jpg"; video := None;
     audio := "http://host/voice.wav"; prompt := "hello";
     width := Some 320; height := Some 240; output := "output.mp4";
     force_offload := None |}.

End ClientSpec.

Module HandlerSpec.
Import Handler.

(** A node of the template graph with the role of the sampler. *)
Definition is_sampler (node_data : json) : bool :=
  match class_is node_data "WanVideoSampler" with
  | inr b => b
  | inl _ => false
  end.

(** A node is a JSON object. *)
Definition is_node (node_data : json) : bool :=
  match node_data with JObj _ => true | _ => false end.

(** A node that is an object and has another role. *)
Definition not_sampler (node_data : json) : bool :=
  match class_is node_data "WanVideoSampler" with
  | inr false => true
  | _ => false
  end.

(** What the injection comes to when the flag goes to [node_id]. *)
Definition injected_at (inputs prompt : dict) (node_id : string) (w : world)
  : trace * world * outcome dict :=
  match setdefault_input prompt node_id "force_offload"
          (dict_get_default "force_offload" (JBool true) inputs) with
  | inr prompt' =>
      ([Log INFO "Settings: force_offload=";
        Log INFO "Node (WanVideoSampler) updated: force_offload="],
       w, Ret prompt')
  | inl e => ([Log INFO "Settings: force_offload="], w, Raise e)
  end.

(** What the injection comes to when no node is found. *)
Definition not_injected (prompt : dict) (w : world)
  : trace * world * outcome dict :=
  ([Log INFO "Settings: force_offload=";
    Log WARNING
      "Warning: WanVideoSampler node not found. Using workflow defaults."],
   w, Ret prompt).

Definition sampler_node (inputs : dict) : json :=
  JObj [("class_type", JStr "WanVideoSampler"); ("inputs", JObj inputs)].

Definition loader_node : json :=
  JObj [("class_type", JStr "LoadImage"); ("inputs", JObj [("image", JStr "x.jpg")])].

(** Two samplers, the preferred one last; and the same graph with the
    preferred one first. *)
Definition two_samplers : dict :=
  [("284", loader_node); ("77", sampler_node []); ("128", sampler_node [])].

Definition two_samplers_reordered : dict :=
  [("128", sampler_node []); ("284", loader_node); ("77", sampler_node [])].

(** One sampler under another identifier, and no sampler at all. *)
Definition other_sampler : dict :=
  [("284", loader_node); ("77", sampler_node []); ("128", loader_node)].

Definition no_sampler : dict :=
  [("284", loader_node); ("128", loader_node)].

Definition value_node (class_type field : string) (v : json) : json :=
  JObj [("class_type", JStr class_type); ("inputs", JObj [(field, v)])].

(** A template with the seven nodes the handler writes to. *)
Definition template : dict :=
  [("125", value_node "LoadAudio" "audio" (JStr "default.wav"));
   ("128", sampler_node [("steps", JInt 4)]);
   ("241", value_node "TextEncode" "positive_prompt" (JStr ""));
   ("245", value_node "INTConstant" "value" (JInt 0));
   ("246", value_node "INTConstant" "value" (JInt 0));
   ("270", value_node "INTConstant" "value" (JInt 0));
   ("284", value_node "LoadImage" "image" (JStr "default.jpg"))].

Definition progress (node : json) (prompt_id : string) : frame :=
  Text (Some (JObj [("type", JStr "executing");
                    ("data", JObj [("node", node);
                                   ("prompt_id", JStr prompt_id)])])).

(** 1.5 seconds, as a binary64 number. *)
Definition one_and_a_half : float := S754_finite false 6755399441055744 (-52).

(** A world in which everything works: the job "job-1" runs node 128
    and completes, and leaves one video. *)
Definition quiet_world : world :=
  {| uuids := fun n => match n with O => "c1" | _ => "t1" end;
     drawn := 0;
     abspath := fun p => ("/app/" ++ p)%string;
     makedirs := fun _ => None;
     write_file := fun _ => None;
     wget := fun _ _ => WgetExit 0 "";
     b64decode := fun _ => inr "bytes";
     get_duration := fun _ => inr one_and_a_half;
     workflow := inr template;
     exists_at := fun _ _ => true;
     clock := 0;
     connect := fun _ => None;
     queue_reply := inr "job-1";
     inbox := [Binary;
               Text (Some (JObj [("type", JStr "status")]));
               progress JNull "job-0";
               progress (JStr "128") "job-1";
               progress JNull "job-1";
               progress JNull "job-1"];
     history_reply := fun _ =>
       inr [("job-1",
             [("9", {| gifs := None |});
              ("131", {| gifs := Some [{| fullpath := "/out/v.mp4" |}] |})])];
     read_base64 := fun _ => inr "AAAA" |}.

Definition with_connect (c : nat -> option exn) (w : world) : world :=
  {| uuids := uuids w; drawn := drawn w; abspath := abspath w;
     makedirs := makedirs w; write_file := write_file w; wget := wget w;
     b64decode := b64decode w; get_duration := get_duration w;
     workflow := workflow w; exists_at := exists_at w; clock := clock w;
     connect := c; queue_reply := queue_reply w; inbox := inbox w;
     history_reply := history_reply w; read_base64 := read_base64 w |}.

(** The server refuses the first connection and accepts the second. *)
Definition refusing_once : world :=
  with_connect (fun n => match n with
                         | O => Some ConnectionError
                         | _ => None
                         end) quiet_world.

(** The server refuses every connection. *)
Definition refusing_always : world :=
  with_connect (fun _ => Some ConnectionError) quiet_world.

(** [k] refused connections, each followed by its pause. *)
Definition refused (ws_url : string) (k : nat) : trace :=
  List.concat (repeat [WsConnect ws_url;
                       Log WARNING "WebSocket connection failed";
                       Sleep 5] k).

(** The seconds a trace spends sleeping. *)
Fixpoint paused (t : trace) : Z :=
  match t with
  | [] => 0
  | Sleep s :: t' => s + paused t'
  | _ :: t' => paused t'
  end.

(** The connection attempts of a trace. *)
Definition attempts (t : trace) : nat :=
  List.length (filter (fun e => match e with WsConnect _ => true | _ => false end) t).

Definition ws_url_of (client_id : string) : string :=
  ("ws://" ++ SERVER_ADDRESS ++ ":8188/ws?clientId=" ++ client_id)%string.

(** The frame that ends the wait for the job [prompt_id]: a text frame
    of type "executing" whose data has a null node and this job's
    identifier. *)
Definition completes (prompt_id : string) (out : frame) : bool :=
  match out with
  | Text (Some (JObj m)) =>
      match dict_get "type" m, dict_get "data" m with
      | Some type, Some (JObj d) =>
          eq_str type "executing"
          && match dict_get "node" d, dict_get "prompt_id" d with
             | Some JNull, Some id => eq_str id prompt_id
             | _, _ => false
             end
      | _, _ => false
      end
  | _ => false
  end.

(** A frame that is not a string. *)
Definition non_string (out : frame) : bool :=
  match out with Binary => true | Text _ => false end.

(** A message of another type. *)
Definition other_type (out : frame) : bool :=
  match out with
  | Text (Some (JObj m)) =>
      match dict_get "type" m with
      | Some type => negb (eq_str type "executing")
      | None => false
      end
  | _ => false
  end.

(** An "executing" message with a null node for another job. *)
Definition other_job (prompt_id : string) (out : frame) : bool :=
  match out with
  | Text (Some (JObj m)) =>
      match dict_get "type" m, dict_get "data" m with
      | Some type, Some (JObj d) =>
          eq_str type "executing"
          && match dict_get "node" d, dict_get "prompt_id" d with
             | Some JNull, Some id => negb (eq_str id prompt_id)
             | _, _ => false
             end
      | _, _ => false
      end
  | _ => false
  end.

(** An "executing" message that names the node being run. *)
Definition node_progress (out : frame) : bool :=
  match out with
  | Text (Some (JObj m)) =>
      match dict_get "type" m, dict_get "data" m with
      | Some type, Some (JObj d) =>
          eq_str type "executing"
          && match dict_get "node" d with
             | Some node => negb (is_None node)
             | None => false
             end
      | _, _ => false
      end
  | _ => false
  end.

Definition ignored (prompt_id : string) (out : frame) : bool :=
  non_string out || other_type out || other_job prompt_id out.

Definition passed (prompt_id : string) (out : frame) : bool :=
  ignored prompt_id out || node_progress out.

(** What receiving frames that are passed over leaves in the trace. *)
Definition received (frames : list frame) : trace :=
  flat_map (fun out =>
              WsRecv :: if node_progress out
                        then [Log INFO "Executing node: "]
                        else []) frames.

(** What a successful submission leaves in the trace. *)
Definition submitted (prompt : dict) (client_id : string) : trace :=
  [Log INFO "Queueing prompt to: ";
   HttpPost ("http://" ++ SERVER_ADDRESS ++ ":8188/prompt")
     (JObj [("prompt", JObj prompt); ("client_id", JStr client_id)]);
   Log INFO "Prompt sent successfully: ";
   Log INFO "Workflow started: prompt_id="].

Definition history_url (prompt_id : string) : string :=
  ("http://" ++ SERVER_ADDRESS ++ ":8188/history/" ++ prompt_id)%string.

(** The references of one node whose file exists, each looked up at
    its own time ([t] counts the [os.path.exists] calls made so far). *)
Fixpoint existing_at (ex : nat -> string -> bool) (t : nat) (vs : list video)
  : list string :=
  match vs with
  | [] => []
  | v :: vs' =>
      if ex t (fullpath v)
      then fullpath v :: existing_at ex (S t) vs'
      else existing_at ex (S t) vs'
  end.

Definition node_videos (ex : nat -> string -> bool) (t : nat)
  (o : node_output) : list string :=
  match gifs o with
  | Some vs => existing_at ex t vs
  | None => []
  end.

(** The lookups a node costs. *)
Definition lookups (o : node_output) : nat :=
  match gifs o with
  | Some vs => List.length vs
  | None => O
  end.

(** Per node of the history, in its order, the references whose file
    exists when it is looked up. *)
Fixpoint collected (ex : nat -> string -> bool) (t : nat) (outs : outputs)
  : list (string * list string) :=
  match outs with
  | [] => []
  | (node_id, o) :: outs' =>
      (node_id, node_videos ex t o) :: collected ex (t + lookups o) outs'
  end.

(** A history of three nodes: one without videos, one whose only video
    is gone, one with two videos. *)
Definition three_nodes : outputs :=
  [("9", {| gifs := None |});
   ("131", {| gifs := Some [{| fullpath := "/out/gone.mp4" |}] |});
   ("140", {| gifs := Some [{| fullpath := "/out/a.mp4" |};
                            {| fullpath := "/out/b.mp4" |}] |})].

Definition with_exists (ex : nat -> string -> bool) (w : world) : world :=
  {| uuids := uuids w; drawn := drawn w; abspath := abspath w;
     makedirs := makedirs w; write_file := write_file w; wget := wget w;
     b64decode := b64decode w; get_duration := get_duration w;
     workflow := workflow w; exists_at := ex; clock := clock w;
     connect := connect w; queue_reply := queue_reply w; inbox := inbox w;
     history_reply := history_reply w; read_base64 := read_base64 w |}.

(** [quiet_world] where "/out/gone.mp4" does not exist. *)
Definition one_gone : world :=
  with_exists (fun _ p => negb (String.eqb p "/out/gone.mp4")) quiet_world.

(** The rational number a finite binary64 number stands for. *)
Definition float_value (x : float) : Q :=
  match x with
  | S754_finite s m e => inject_Z (cond_Zopp s (Zpos m)) * 2 ^ e
  | _ => 0
  end.

(** Zero or a positive finite number: what a duration, and its product
    with the frame rate, is. *)
Definition finite_nonneg (x : float) : bool :=
  match x with
  | S754_zero _ => true
  | S754_finite false _ _ => true
  | _ => false
  end.

(** [duration * fps] as Python computes it. *)
Definition times_fps (duration : float) : float :=
  SFmul prec emax duration fps_default.

Definition with_duration (d : json -> exn + float) (w : world) : world :=
  {| uuids := uuids w; drawn := drawn w; abspath := abspath w;
     makedirs := makedirs w; write_file := write_file w; wget := wget w;
     b64decode := b64decode w; get_duration := d;
     workflow := workflow w; exists_at := exists_at w; clock := clock w;
     connect := connect w; queue_reply := queue_reply w; inbox := inbox w;
     history_reply := history_reply w; read_base64 := read_base64 w |}.

(** [quiet_world] where librosa cannot read the audio. *)
Definition unreadable_audio : world :=
  with_duration (fun _ => inl (Exception_ "NoBackendError")) quiet_world.

(** The inline payloads of a request, when given, are text. *)
Definition inline_text (inputs : dict) : bool :=
  forallb (fun key => match dict_get key inputs with
                      | Some (JStr _) | None => true
                      | Some _ => false
                      end)
          ["image_base64"; "wav_base64"].

(** None of the three forms of a media kind is given. *)
Definition lacks (kind : string) (inputs : dict) : bool :=
  negb (dict_mem (kind ++ "_path") inputs)
  && negb (dict_mem (kind ++ "_url") inputs)
  && negb (dict_mem (kind ++ "_base64") inputs).

(** The request is for the supported input type ("image", also by
    default). *)
Definition for_image (inputs : dict) : bool :=
  eq_str (dict_get_default "input_type" (JStr "image") inputs) "image".

(** Calls to the inference server. *)
Definition contacts_server (e : event) : bool :=
  match e with
  | WsConnect _ | WsRecv | WsClose | HttpPost _ _ | HttpGet _ => true
  | _ => false
  end.

(** What the handler does before it looks at the request. *)
Definition prelude : trace := [Uuid4; Uuid4; Log INFO "Received input: "].

(** The world once the two identifiers are drawn. *)
Definition identified (w : world) : world := set_drawn (S (S (drawn w))) w.

Definition client_id_of (w : world) : string := uuids w (drawn w).

Definition task_id_of (w : world) : string :=
  ("task_" ++ uuids w (S (drawn w)))%string.

Definition with_wget (g : json -> string -> wget_result) (w : world) : world :=
  {| uuids := uuids w; drawn := drawn w; abspath := abspath w;
     makedirs := makedirs w; write_file := write_file w; wget := g;
     b64decode := b64decode w; get_duration := get_duration w;
     workflow := workflow w; exists_at := exists_at w; clock := clock w;
     connect := connect w; queue_reply := queue_reply w; inbox := inbox w;
     history_reply := history_reply w; read_base64 := read_base64 w |}.

(** [quiet_world] where the download fails. *)
Definition unreachable_host : world :=
  with_wget (fun _ _ => WgetExit 4 "Network failure") quiet_world.

(** A request with an image given by URL and no audio. *)
Definition image_url_only : dict :=
  [("image_url", JStr "http://host/face.jpg"); ("prompt", JStr "hello")].

(** A request with an inline image and no audio. *)
Definition image_inline_only : dict :=
  [("image_base64", JStr "aGVsbG8="); ("prompt", JStr "hello")].

(** A request for the video mode, as the client's [--mode v2v] builds
    it. *)
Definition video_request : dict :=
  [("input_type", JStr "video"); ("prompt", JStr "hello");
   ("width", JInt 640); ("height", JInt 640);
   ("video_url", JStr "http://host/clip.mp4");
   ("wav_url", JStr "http://host/voice.wav")].

End HandlerSpec.

(* ================================================================== *)
(** ** retrieve_task.py: the rescue script *)
(* ================================================================== *)

Module Retrieve.
Import Client.

Definition TASK_ID : string := "ffa96469-869e-4e77-ac44-e3917970cff4".

Definition OUTPUT_FILE : string := "rescued_video_queue.mp4".

Definition task_url : string :=
  ("https://api.beam.cloud/v2/task/" ++ TASK_ID ++ "/")%string.

(** [check_task()]: the record of the task, [None] when anything
    raises. *)
Definition check_task : M world json :=
  try_except
    (r <- requests_get task_url ;;
     raise_for_status r ;;;
     lift (json_body r))
    (fun e =>
       print "Error checking status: " ;;;
       ret JNull).

(** [info.get(k, default)] on what should be a dict. *)
Definition get_or (x : json) (k : string) (default : json) : exn + json :=
  match x with
  | JObj o => inr (dict_get_default k default o)
  | _ => inl AttributeError
  end.

(** Lines 45-49: the download of the video.  [requests] refuses a url
    that is not a string with scheme ([MissingSchema], a
    [ValueError]). *)
Definition rescue (url : json) : M world unit :=
  u <- match url with
       | JStr u => ret u
       | _ => raise ValueError
       end ;;
  r <- requests_get u ;;
  raise_for_status r ;;;
  w <- get_world ;;
  match open_write w OUTPUT_FILE with
  | Some e => raise e
  | None => write_chunks OUTPUT_FILE (chunks r)
  end.

(** Lines 56-57: the record is saved for inspection. *)
Definition save_debug : M world unit :=
  w <- get_world ;;
  match open_write w "task_debug.json" with
  | Some e => raise e
  | None => emit (WriteFile "task_debug.json")
  end.

(** Lines 33-71: the [while True]; [fuel] bounds its turns. *)
Fixpoint watch (fuel : nat) : M world unit :=
  match fuel with
  | O => fun w => ([], w, OutOfFuel)
  | S fuel' =>
      info <- check_task ;;
      if negb (truthy info) then
        sleep 5 ;;; watch fuel'
      else
        status <- lift (get info "status") ;;
        print "Status: " ;;;
        if status_in status ["COMPLETED"; "COMPLETE"] then
          outputs <- lift (get_or info "outputs" (JArr [])) ;;
          if truthy outputs then
            first <- lift (first_item outputs) ;;
            url <- lift (get first "url") ;;
            print "Downloading video from: " ;;;
            rescue url ;;;
            print "Video saved to "
          else
            print "No outputs found (as expected if handler returned dict)." ;;;
            print "Inspecting full response for base64 data..." ;;;
            save_debug ;;;
            print "Saved full response to task_debug.json"
        else if status_in status ["FAILED"; "CANCELED"] then
          print "Task failed!"
        else
          sleep 10 ;;; watch fuel'
  end.

(** The script: the token is looked for when the module is loaded. *)
Definition script (BEAM_TOKEN : option string) (fuel : nat) : M world unit :=
  if missing BEAM_TOKEN then
    print "Error: BEAM_TOKEN environment variable not set" ;;;
    print "Configure it in .env file or set: export BEAM_TOKEN='your-token-here'" ;;;
    sys_exit 1
  else
    print "Checking task " ;;;
    watch fuel.

End Retrieve.

(* ================================================================== *)
(** ** app.py: the endpoints and their start-up *)
(* ================================================================== *)

Module App.

(** What the start-up and the queue endpoint do to the machine. *)
Inductive op : Type :=
| MakeDirs (dir : string)
| Remove (path : string)
| Symlink (src dst : string)
| Popen (argv : list string)
| OpenWrite (path : string)
| Write (path : string)
| SaveOutput (path : string).

(** The world of the application: the world of [process_infinitetalk],
    what the file system says about a path (each path is asked about
    once), what an operation raises, how the n-th probe of ComfyUI
    ends, and the operations performed so far, oldest first. *)
Record world : Type := {
  hw : Handler.world;
  on_disk : string -> bool;            (* [os.path.exists] *)
  is_link : string -> bool;            (* [os.path.islink] *)
  fault : op -> option exn;
  probe : nat -> option exn;           (* n-th [urlopen], [None]: success *)
  journal : list op
}.

Definition set_hw (h : Handler.world) (w : world) : world :=
  {| hw := h; on_disk := on_disk w; is_link := is_link w; fault := fault w;
     probe := probe w; journal := journal w |}.

Definition set_journal (j : list op) (w : world) : world :=
  {| hw := hw w; on_disk := on_disk w; is_link := is_link w; fault := fault w;
     probe := probe w; journal := j |}.

(** A computation of the handler, run inside the application. *)
Definition in_handler {A} (m : M Handler.world A) : M world A :=
  fun w =>
    match m (hw w) with
    | (t, h', r) => (t, set_hw h' w, r)
    end.

Definition log (lvl : level) (msg : string) : M world unit :=
  emit (Log lvl msg).

Definition sleep (seconds : Z) : M world unit := emit (Sleep seconds).

(** An operation is performed, unless it raises. *)
Definition perform (o : op) : M world unit :=
  w <- get_world ;;
  match fault w o with
  | Some e => raise e
  | None => put_world (set_journal (journal w ++ [o]) w)
  end.

Definition slash : ascii := "/"%char.

Fixpoint drop_while (f : ascii -> bool) (l : list ascii) : list ascii :=
  match l with
  | [] => []
  | c :: l' => if f c then drop_while f l' else l
  end.

(** [os.path.dirname(p)]: up to the last slash, without trailing
    slashes unless there is nothing else. *)
Definition dirname (p : string) : string :=
  let head :=
    drop_while (fun c => negb (Ascii.eqb c slash))
               (rev (list_ascii_of_string p)) in
  if forallb (fun c => Ascii.eqb c slash) head
  then string_of_list_ascii (rev head)
  else string_of_list_ascii
         (rev (drop_while (fun c => Ascii.eqb c slash) head)).

(** [str(l)] of a list of strings without quotes or escapes. *)
Definition repr_list (l : list string) : string :=
  ("[" ++ String.concat ", " (map (fun x => "'" ++ x ++ "'") l) ++ "]")%string.

Definition MODEL_SYMLINKS : list (string * string) :=
  [("/models/diffusion_models/Wan2_1-InfiniteTalk_Single_Q8.gguf",
    "/ComfyUI/models/diffusion_models/Wan2_1-InfiniteTalk_Single_Q8.gguf");
   ("/models/diffusion_models/wan2.1-i2v-14b-480p-Q8_0.gguf",
    "/ComfyUI/models/diffusion_models/wan2.1-i2v-14b-480p-Q8_0.gguf");
   ("/models/diffusion_models/Wan2_1-InfiniteTalk-Single_fp8_e4m3fn_scaled_KJ.safetensors",
    "/ComfyUI/models/diffusion_models/Wan2_1-InfiniteTalk-Single_fp8_e4m3fn_scaled_KJ.safetensors");
   ("/models/diffusion_models/Wan2_1-InfiniteTalk-Multi_fp8_e4m3fn_scaled_KJ.safetensors",
    "/ComfyUI/models/diffusion_models/Wan2_1-InfiniteTalk-Multi_fp8_e4m3fn_scaled_KJ.safetensors");
   ("/models/diffusion_models/Wan2_1-I2V-14B-480P_fp8_e4m3fn.safetensors",
    "/ComfyUI/models/diffusion_models/Wan2_1-I2V-14B-480P_fp8_e4m3fn.safetensors");
   ("/models/loras/lightx2v_I2V_14B_480p_cfg_step_distill_rank64_bf16.safetensors",
    "/ComfyUI/models/loras/lightx2v_I2V_14B_480p_cfg_step_distill_rank64_bf16.safetensors");
   ("/models/vae/Wan2_1_VAE_bf16.safetensors",
    "/ComfyUI/models/vae/Wan2_1_VAE_bf16.safetensors");
   ("/models/text_encoders/umt5-xxl-enc-bf16.safetensors",
    "/ComfyUI/models/text_encoders/umt5-xxl-enc-bf16.safetensors");
   ("/models/clip_vision/clip_vision_h.safetensors",
    "/ComfyUI/models/clip_vision/clip_vision_h.safetensors");
   ("/models/diffusion_models/MelBandRoformer_fp16.safetensors",
    "/ComfyUI/models/diffusion_models/MelBandRoformer_fp16.safetensors")].

(** The [for volume_path, comfyui_path in ...] of
    [setup_model_symlinks], with the list [missing] built so far. *)
Fixpoint link_models (pairs : list (string * string)) (missing : list string)
  : M world (list string) :=
  match pairs with
  | [] => ret missing
  | (volume_path, comfyui_path) :: rest =>
      w <- get_world ;;
      if negb (on_disk w volume_path) then
        log WARNING "Model not found in Volume: " ;;;
        link_models rest (missing ++ [volume_path])
      else
        perform (MakeDirs (dirname comfyui_path)) ;;;
        (if on_disk w comfyui_path || is_link w comfyui_path
         then perform (Remove comfyui_path)
         else ret tt) ;;;
        perform (Symlink volume_path comfyui_path) ;;;
        log INFO "Symlink: " ;;;
        link_models rest missing
  end.

(** [setup_model_symlinks()], over the table of models. *)
Definition setup_with (pairs : list (string * string)) : M world unit :=
  missing <- link_models pairs [] ;;
  match missing with
  | [] => ret tt
  | _ =>
      raise (Exception_
               ("Missing models in Volume. Run preload_models.py first! Missing: "
                ++ repr_list missing)%string)
  end.

Definition setup_model_symlinks : M world unit := setup_with MODEL_SYMLINKS.

Definition max_wait : nat := 180.

(** One turn of the [for i in range(max_wait)] of [on_start]; the bare
    [except:] catches everything. *)
Definition wait_attempt (i : nat) : M world (option dict) :=
  try_catch (fun _ => true)
    (emit (HttpGet "http://127.0.0.1:8188/") ;;;
     w <- get_world ;;
     match probe w i with
     | Some e => raise e
     | None =>
         log INFO "ComfyUI ready after " ;;;
         ret (Some [("comfyui_ready", JBool true);
                    ("startup_time", JInt (Z.of_nat i))])
     end)
    (fun _ => sleep 1 ;;; ret None).

(** Lines 101-112: the wait for ComfyUI. *)
Definition wait_for_comfyui : M world dict :=
  r <- for_range wait_attempt 0 max_wait ;;
  match r with
  | Some d => ret d
  | None => raise (Exception_ "ComfyUI failed to start within 3 minutes")
  end.

(** [on_start()] over a table of models. *)
Definition on_start_with (pairs : list (string * string)) : M world dict :=
  log INFO "Starting initialization..." ;;;
  log INFO "Setting up model symlinks..." ;;;
  setup_with pairs ;;;
  log INFO "Starting ComfyUI..." ;;;
  perform (Popen ["python"; "/ComfyUI/main.py"; "--listen"]) ;;;
  wait_for_comfyui.

Definition on_start : M world dict := on_start_with MODEL_SYMLINKS.

(** [handler], called with the request as keyword arguments. *)
Definition handler (inputs : dict) : M world dict :=
  log INFO "Received request with " ;;;
  result <- in_handler (Handler.process_infinitetalk inputs) ;;
  (if dict_mem "error" result
   then log ERROR "Error: "
   else log INFO "Video generated successfully") ;;;
  ret result.

(** [queue_handler], called with the task as keyword arguments. *)
Definition queue_handler (inputs : dict) : M world dict :=
  log INFO "Received ASYNC task with " ;;;
  result <- in_handler (Handler.process_infinitetalk inputs) ;;
  if dict_mem "error" result then
    log ERROR "Error: " ;;;
    raise (Exception_ (str (dict_get_default "error" JNull result)))
  else
    let video_b64 := dict_get_default "video" JNull result in
    if truthy video_b64 then
      let output_path := "output.mp4" in
      perform (OpenWrite output_path) ;;;
      w <- get_world ;;
      _ <- lift (Handler.b64decode (hw w) video_b64) ;;
      perform (Write output_path) ;;;
      log INFO "Saving Output: " ;;;
      perform (SaveOutput output_path) ;;;
      ret [("status", JStr "success");
           ("message", JStr "Video generated and uploaded")]
    else ret result.

End App.

(* ================================================================== *)
(** ** preload_models.py: filling the volume *)
(* ================================================================== *)

Module Preload.
Import Handler.

(** The world of the preload: the volume as the function finds it (each
    path of the table is asked about once), the tools, and the files
    that [os.walk("/models")] lists at the end. *)
Record world : Type := {
  on_disk : string -> bool;                 (* [os.path.exists] *)
  getsize : string -> exn + Z;              (* [os.path.getsize] *)
  makedirs : string -> option exn;          (* [os.makedirs(d, exist_ok=True)] *)
  wget : string -> string -> wget_result;   (* url, destination *)
  volume_files : list string
}.

Definition MODEL_DOWNLOADS : list (string * string) :=
  [("https://huggingface.co/Kijai/WanVideo_comfy_GGUF/resolve/main/InfiniteTalk/Wan2_1-InfiniteTalk_Single_Q8.gguf",
    "diffusion_models/Wan2_1-InfiniteTalk_Single_Q8.gguf");
   ("https://huggingface.co/city96/Wan2.1-I2V-14B-480P-gguf/resolve/main/wan2.1-i2v-14b-480p-Q8_0.gguf",
    "diffusion_models/wan2.1-i2v-14b-480p-Q8_0.gguf");
   ("https://huggingface.co/Kijai/WanVideo_comfy_fp8_scaled/resolve/main/InfiniteTalk/Wan2_1-InfiniteTalk-Single_fp8_e4m3fn_scaled_KJ.safetensors",
    "diffusion_models/Wan2_1-InfiniteTalk-Single_fp8_e4m3fn_scaled_KJ.safetensors");
   ("https://huggingface.co/Kijai/WanVideo_comfy_fp8_scaled/resolve/main/InfiniteTalk/Wan2_1-InfiniteTalk-Multi_fp8_e4m3fn_scaled_KJ.safetensors",
    "diffusion_models/Wan2_1-InfiniteTalk-Multi_fp8_e4m3fn_scaled_KJ.safetensors");
   ("https://huggingface.co/Kijai/WanVideo_comfy/resolve/main/Wan2_1-I2V-14B-480P_fp8_e4m3fn.safetensors",
    "diffusion_models/Wan2_1-I2V-14B-480P_fp8_e4m3fn.safetensors");
   ("https://huggingface.co/Kijai/WanVideo_comfy/resolve/main/Lightx2v/lightx2v_I2V_14B_480p_cfg_step_distill_rank64_bf16.safetensors",
    "loras/lightx2v_I2V_14B_480p_cfg_step_distill_rank64_bf16.safetensors");
   ("https://huggingface.co/Kijai/WanVideo_comfy/resolve/main/Wan2_1_VAE_bf16.safetensors",
    "vae/Wan2_1_VAE_bf16.safetensors");
   ("https://huggingface.co/Kijai/WanVideo_comfy/resolve/main/umt5-xxl-enc-bf16.safetensors",
    "text_encoders/umt5-xxl-enc-bf16.safetensors");
   ("https://huggingface.co/Comfy-Org/Wan_2.1_ComfyUI_repackaged/resolve/main/split_files/clip_vision/clip_vision_h.safetensors",
    "clip_vision/clip_vision_h.safetensors");
   ("https://huggingface.co/Kijai/MelBandRoFormer_comfy/resolve/main/MelBandRoformer_fp16.safetensors",
    "diffusion_models/MelBandRoformer_fp16.safetensors")].

Definition log (lvl : level) (msg : string) : M world unit :=
  emit (Log lvl msg).

(** [n / 2**k] for an int [n]: the nearest float, [OverflowError] when
    there is none. *)
Definition true_div_pow2 (n k : Z) : exn + float :=
  match binary_normalize prec emax n (- k) false with
  | S754_infinity _ => inl OverflowError
  | f => inr f
  end.

(** [os.path.getsize(path) / (1024 * 1024)] *)
Definition size_mb_of (path : string) : M world float :=
  w <- get_world ;;
  size <- lift (getsize w path) ;;
  lift (true_div_pow2 size 20).

Definition os_path_exists (path : string) : M world bool :=
  emit (PathExists path) ;;;
  w <- get_world ;;
  ret (on_disk w path).

Definition os_makedirs (dir : string) : M world unit :=
  emit (Makedirs dir) ;;;
  w <- get_world ;;
  match makedirs w dir with Some e => raise e | None => ret tt end.

Definition run_wget (url output_path : string) : M world (Z * string) :=
  emit (Wget (JStr url) output_path) ;;;
  w <- get_world ;;
  match wget w url output_path with
  | WgetExit rc err => ret (rc, err)
  | WgetTimeout => raise TimeoutExpired
  | WgetError e => raise e
  end.

(** One turn of the [for url, relative_path in MODEL_DOWNLOADS]: the
    entry it appends to [results]. *)
Definition preload_one (url relative_path : string) : M world json :=
  let dest_path := ("/models/" ++ relative_path)%string in
  present <- os_path_exists dest_path ;;
  if (present : bool) then
    size_mb <- size_mb_of dest_path ;;
    log INFO "Already exists: " ;;;
    ret (JObj [("file", JStr relative_path); ("status", JStr "exists");
               ("size_mb", JFloat size_mb)])
  else
    os_makedirs (App.dirname dest_path) ;;;
    log INFO "Downloading: " ;;;
    try_except
      (result <- run_wget url dest_path ;;
       if fst result =? 0 then
         size_mb <- size_mb_of dest_path ;;
         log INFO "Downloaded: " ;;;
         ret (JObj [("file", JStr relative_path);
                    ("status", JStr "downloaded");
                    ("size_mb", JFloat size_mb)])
       else
         log ERROR "Failed: " ;;;
         ret (JObj [("file", JStr relative_path); ("status", JStr "failed");
                    ("error", JStr (snd result))]))
      (fun e =>
         log ERROR "Error: " ;;;
         ret (JObj [("file", JStr relative_path); ("status", JStr "error");
                    ("error", JStr (exn_text e))])).

(** Lines 64-95: the loop over the table, with [results] so far. *)
Fixpoint preload_all (pairs : list (string * string)) (results : list json)
  : M world (list json) :=
  match pairs with
  | [] => ret results
  | (url, relative_path) :: rest =>
      entry <- preload_one url relative_path ;;
      preload_all rest (results ++ [entry])
  end.

(** Lines 98-102: the sizes of the files of the volume, added up. *)
Fixpoint walk_sizes (files : list string) (total_size : Z) : M world Z :=
  match files with
  | [] => ret total_size
  | path :: rest =>
      w <- get_world ;;
      size <- lift (getsize w path) ;;
      walk_sizes rest (total_size + size)
  end.

(** [preload_models()], over a table of models. *)
Definition preload_with (pairs : list (string * string)) : M world dict :=
  results <- preload_all pairs [] ;;
  w <- get_world ;;
  total_size <- walk_sizes (volume_files w) 0 ;;
  total_size_gb <- lift (true_div_pow2 total_size 30) ;;
  ret [("results", JArr results); ("total_size_gb", JFloat total_size_gb)].

Definition preload_models : M world dict := preload_with MODEL_DOWNLOADS.

End Preload.

(* ================================================================== *)
(** ** Further properties: predicates over the model *)
(* ================================================================== *)

Module MoreSpec.
Import Handler HandlerSpec.

(** [prompt[node_id]["inputs"][field]], when the three lookups
    succeed. *)
Definition input_of (prompt : dict) (node_id field : string) : option json :=
  match dict_get node_id prompt with
  | Some (JObj node) =>
      match dict_get "inputs" node with
      | Some (JObj node_inputs) => dict_get field node_inputs
      | _ => None
      end
  | _ => None
  end.

(** [prompt[node_id][key]] for a key of the node itself. *)
Definition field_of (prompt : dict) (node_id key : string) : option json :=
  match dict_get node_id prompt with
  | Some (JObj node) => dict_get key node
  | _ => None
  end.

Definition is_wget (e : event) : bool :=
  match e with Wget _ _ => true | _ => false end.

Definition is_write (e : event) : bool :=
  match e with WriteFile _ | Makedirs _ => true | _ => false end.

Definition is_recv (e : event) : bool :=
  match e with WsRecv => true | _ => false end.

Definition is_get (e : event) : bool :=
  match e with HttpGet _ => true | _ => false end.

Definition is_post (e : event) : bool :=
  match e with HttpPost _ _ => true | _ => false end.

Definition is_lookup (e : event) : bool :=
  match e with PathExists _ => true | _ => false end.

(** What [download_file_from_url] ends in, read off the answer of
    wget. *)
Definition download_outcome (answer : wget_result) (output_path : string)
  : outcome json :=
  match answer with
  | WgetExit rc err =>
      if rc =? 0 then Ret (JStr output_path)
      else Raise (Exception_
                    ("Download error: URL download failed: " ++ err)%string)
  | WgetTimeout => Raise (Exception_ "Download timeout")
  | WgetError e =>
      if is_Exception e then
        match e with
        | TimeoutExpired => Raise (Exception_ "Download timeout")
        | _ => Raise (Exception_ ("Download error: " ++ exn_text e)%string)
        end
      else Raise e
  end.

Definition with_b64decode (f : json -> exn + string) (w : world) : world :=
  {| uuids := uuids w; drawn := drawn w; abspath := abspath w;
     makedirs := makedirs w; write_file := write_file w; wget := wget w;
     b64decode := f; get_duration := get_duration w;
     workflow := workflow w; exists_at := exists_at w; clock := clock w;
     connect := connect w; queue_reply := queue_reply w; inbox := inbox w;
     history_reply := history_reply w; read_base64 := read_base64 w |}.

(** [quiet_world] where the inline payload is not valid base64. *)
Definition bad_payload : world :=
  with_b64decode (fun _ => inl BinasciiError) quiet_world.

Definition with_queue_reply (r : exn + string) (w : world) : world :=
  {| uuids := uuids w; drawn := drawn w; abspath := abspath w;
     makedirs := makedirs w; write_file := write_file w; wget := wget w;
     b64decode := b64decode w; get_duration := get_duration w;
     workflow := workflow w; exists_at := exists_at w; clock := clock w;
     connect := connect w; queue_reply := r; inbox := inbox w;
     history_reply := history_reply w; read_base64 := read_base64 w |}.

(** [quiet_world] where the server refuses the graph. *)
Definition rejecting_server : world :=
  with_queue_reply (inl (HTTPError 400)) quiet_world.

Definition with_history
  (h : string -> exn + list (string * outputs)) (w : world) : world :=
  {| uuids := uuids w; drawn := drawn w; abspath := abspath w;
     makedirs := makedirs w; write_file := write_file w; wget := wget w;
     b64decode := b64decode w; get_duration := get_duration w;
     workflow := workflow w; exists_at := exists_at w; clock := clock w;
     connect := connect w; queue_reply := queue_reply w; inbox := inbox w;
     history_reply := h; read_base64 := read_base64 w |}.

(** [quiet_world] where the history knows another job only. *)
Definition forgetful_server : world :=
  with_history (fun _ => inr [("job-0", [])]) quiet_world.

Definition with_read_base64 (f : string -> exn + string) (w : world) : world :=
  {| uuids := uuids w; drawn := drawn w; abspath := abspath w;
     makedirs := makedirs w; write_file := write_file w; wget := wget w;
     b64decode := b64decode w; get_duration := get_duration w;
     workflow := workflow w; exists_at := exists_at w; clock := clock w;
     connect := connect w; queue_reply := queue_reply w; inbox := inbox w;
     history_reply := history_reply w; read_base64 := f |}.

(** [quiet_world] where no file exists. *)
Definition empty_disk : world := with_exists (fun _ _ => false) quiet_world.

(** [quiet_world] where the image exists and the audio does not. *)
Definition audio_gone : world :=
  with_exists (fun _ p => String.eqb p "/data/face.jpg") quiet_world.

(** [quiet_world] where the video exists when it is collected (the
    first lookup) and is gone when it is read. *)
Definition video_vanishes : world :=
  with_exists (fun t _ => (t =? 0)%nat) quiet_world.

(** [quiet_world] where the video cannot be read. *)
Definition unreadable_video : world :=
  with_read_base64 (fun _ => inl OSError) quiet_world.

(** What [run_workflow] returns once the videos are collected, in the
    world [w] left by the collection. *)
Definition verdict (w : world) (videos : list (string * list string)) : dict :=
  match first_video videos with
  | None => error "No output video found"
  | Some path =>
      if String.eqb path "" then error "No output video found"
      else if exists_at w (clock w) path then
        match read_base64 w path with
        | inr data => [("video", JStr data)]
        | inl e => error ("Base64 encoding failed: " ++ exn_text e)%string
        end
      else error ("Output video file not found: " ++ path)%string
  end.

(** Zero, a positive finite number, or the positive infinity of an
    overflow. *)
Definition nonneg_or_overflow (x : float) : bool :=
  match x with
  | S754_zero _ | S754_finite false _ _ | S754_infinity false => true
  | _ => false
  end.

(** The largest binary64 number. *)
Definition huge : float := S754_finite false 9007199254740991 971.

(** [quiet_world] where the audio lasts for the largest number of
    seconds a float can hold. *)
Definition endless_audio : world :=
  with_duration (fun _ => inr huge) quiet_world.

(** Lines 280-338 of [process_infinitetalk]: what follows the
    injection, from the lookup of the two files on. *)
Definition files_then_run (inputs : dict) (client_id : string)
  (image_path wav_path max_frame : json) (prompt : dict) : M world dict :=
  let prompt_text :=
    dict_get_default "prompt" (JStr "A person talking naturally") inputs in
  let width := dict_get_default "width" (JInt 512) inputs in
  let height := dict_get_default "height" (JInt 512) inputs in
  image_found <- os_path_exists image_path ;;
  if negb image_found then
    ret (error ("Image file not found: " ++ str image_path)%string)
  else
    wav_found <- os_path_exists wav_path ;;
    if negb wav_found then
      ret (error ("Audio file not found: " ++ str wav_path)%string)
    else
      prompt <- lift (set_input prompt "284" "image" image_path) ;;
      prompt <- lift (set_input prompt "125" "audio" wav_path) ;;
      prompt <- lift (set_input prompt "241" "positive_prompt" prompt_text) ;;
      prompt <- lift (set_input prompt "245" "value" width) ;;
      prompt <- lift (set_input prompt "246" "value" height) ;;
      prompt <- lift (set_input prompt "270" "value" max_frame) ;;
      connect_and_run prompt client_id.

(** The lookups a history costs. *)
Definition all_lookups (outs : outputs) : nat :=
  list_sum (map (fun kv => lookups (snd kv)) outs).

(** [one_gone] where the history holds an older job and the three
    nodes of "job-1". *)
Definition three_node_job : world :=
  with_history (fun _ => inr [("job-0", []); ("job-1", three_nodes)])
    one_gone.

(** The form of a media kind that the interface designates in a
    request: the path, else the url, else the inline payload. *)
Inductive designated (kind : string) (inputs : dict)
  : json -> string -> Prop :=
| designated_path (v : json) :
    dict_get (kind ++ "_path") inputs = Some v ->
    designated kind inputs v "path"
| designated_url (v : json) :
    dict_get (kind ++ "_path") inputs = None ->
    dict_get (kind ++ "_url") inputs = Some v ->
    designated kind inputs v "url"
| designated_base64 (v : json) :
    dict_get (kind ++ "_path") inputs = None ->
    dict_get (kind ++ "_url") inputs = None ->
    dict_get (kind ++ "_base64") inputs = Some v ->
    designated kind inputs v "base64".

(** The image, then the audio, each materialised from a given value in
    a given form, and the run that follows. *)
Definition with_forms (inputs : dict) (client_id task_id : string)
  (image_data : json) (image_form : string)
  (wav_data : json) (wav_form : string) : M world dict :=
  image_path <- process_input image_data task_id "input_image.jpg"
                  image_form ;;
  wav_path <- process_input wav_data task_id "input_audio.wav" wav_form ;;
  prepare_and_run inputs client_id image_path wav_path.

(** A request that gives the three forms of the image and two forms of
    the audio, and the same request with its keys in the opposite
    order. *)
Definition both_media : dict :=
  [("wav_base64", JStr "UklGRg=="); ("image_base64", JStr "aGVsbG8=");
   ("wav_url", JStr "http://host/voice.wav");
   ("image_url", JStr "http://host/face.jpg");
   ("image_path", JStr "/data/face.jpg"); ("prompt", JStr "hello")].

Definition both_media_reversed : dict :=
  [("prompt", JStr "hello"); ("image_path", JStr "/data/face.jpg");
   ("image_url", JStr "http://host/face.jpg");
   ("wav_url", JStr "http://host/voice.wav");
   ("image_base64", JStr "aGVsbG8="); ("wav_base64", JStr "UklGRg==")].

End MoreSpec.

Module MoreClientSpec.
Import Client ClientSpec.

(** The task identifier that a response to the submission carries, or
    the exception that reading it raises. *)
Definition reply_task_id (r : response) : exn + json :=
  match status_error r with
  | Some e => inl e
  | None =>
      match json_body r with
      | inl e => inl e
      | inr body => getitem body "task_id"
      end
  end.

(** The strings of a list are pairwise different. *)
Fixpoint distinct (l : list string) : bool :=
  match l with
  | [] => true
  | x :: l' => negb (existsb (String.eqb x) l') && distinct l'
  end.

Definition default_size (m : mode) : Z :=
  match m with i2v => 384 | v2v => 640 end.

Definition type_of_mode (m : mode) : string :=
  match m with i2v => "image" | v2v => "video" end.


(** A queue that answers the submission with a 503. *)
Definition busy_queue : world :=
  {| network := fun _ => inr server_error;
     requests := 0;
     file_base64 := fun _ => inr "QUJD";
     open_write := fun _ => None |}.

Definition status_record (status : string) : json :=
  JObj [("status", JStr status)].

(** A server that reports RUNNING twice and then COMPLETED, without
    outputs. *)
Definition slow_server : world :=
  {| network := fun n =>
       match n with
       | 0%nat | 1%nat => inr (ok_response (status_record "RUNNING"))
       | _ => inr (ok_response (status_record "COMPLETED"))
       end;
     requests := 0;
     file_base64 := fun _ => inr "QUJD";
     open_write := fun _ => None |}.

(** A server whose next response is a video in three chunks. *)
Definition video_server : world :=
  {| network := fun _ =>
       inr {| status_error := None; json_body := inl JSONDecodeError;
              text := ""; content_length := inr 20000;
              chunks := ["c1"; "c2"; "c3"] |};
     requests := 0;
     file_base64 := fun _ => inr "QUJD";
     open_write := fun _ => None |}.

(** The command line of the video mode, with local files. *)
Definition video_args : args :=
  {| url := "https://queue.example/tasks"; arg_mode := v2v;
     image := None; video := Some "clip.mp4";
     audio := "voice.wav"; prompt := "hello";
     width := None; height := Some 0; output := "output.mp4";
     force_offload := Some false |}.

(** What a payload carries, as one boolean. *)
Definition well_formed_payload (a : args) (payload : dict) : bool :=
  distinct (keys payload)
  && eq_str (dict_get_default "input_type" JNull payload)
            (type_of_mode (arg_mode a))
  && eq_str (dict_get_default "prompt" JNull payload) (prompt a)
  && xorb (dict_mem "wav_url" payload) (dict_mem "wav_base64" payload)
  && negb (dict_mem "wav_path" payload)
  && negb (dict_mem "image_path" payload)
  && match arg_mode a with
     | i2v =>
         xorb (dict_mem "image_url" payload) (dict_mem "image_base64" payload)
         && negb (dict_mem "video_url" payload)
         && negb (dict_mem "video_base64" payload)
     | v2v =>
         xorb (dict_mem "video_url" payload) (dict_mem "video_base64" payload)
         && negb (dict_mem "image_url" payload)
         && negb (dict_mem "image_base64" payload)
     end.

(** The handler can materialise the media [kind] of a payload: a form
    is picked, it is a url or an inline payload, and its value is a
    string. *)
Definition materialisable (kind : string) (payload : dict) : bool :=
  match Handler.pick_form kind payload with
  | Some (JStr _, form) => String.eqb form "url" || String.eqb form "base64"
  | _ => false
  end.

End MoreClientSpec.

(* ================================================================== *)
(** ** The rescue script: predicates and worlds *)
(* ================================================================== *)

Module RetrieveSpec.
Import Client ClientSpec MoreClientSpec Retrieve.

(** A check after which the script goes round again: it raised an
    [Exception], or it answered with nothing, or with a record whose
    status is none of the four that end the wait. *)
Definition waits (x : exn + json) : bool :=
  match x with
  | inl e => is_Exception e
  | inr info =>
      negb (truthy info)
      || match info with
         | JObj o =>
             negb (status_in (dict_get_default "status" JNull o)
                     ["COMPLETED"; "COMPLETE"])
             && negb (status_in (dict_get_default "status" JNull o)
                        ["FAILED"; "CANCELED"])
         | _ => false
         end
  end.

(** What such a turn shows: the request, then a message and the pause
    of 5 seconds after a failure, or the status and a pause of 10. *)
Definition turn (x : exn + json) : trace :=
  HttpGet task_url ::
  match x with
  | inl _ => [Print "Error checking status: "; Sleep 5]
  | inr info =>
      if truthy info then [Print "Status: "; Sleep 10] else [Sleep 5]
  end.

(** The first [k] turns. *)
Definition waited (w : world) (k : nat) : trace :=
  List.concat (map (fun i => turn (attempt w i)) (seq 0 k)).

(** A task record with a status and outputs. *)
Definition task_record (status : string) (outputs : list json) : json :=
  JObj [("status", JStr status); ("outputs", JArr outputs)].

(** The service is unreachable, then answers with a 503, then reports
    the task as running, and then as [last] says. *)
Definition recovering_service (last : response) : world :=
  {| network := fun n =>
       match n with
       | 0%nat => inl ConnectionError
       | 1%nat => inr server_error
       | 2%nat => inr (ok_response (status_record "RUNNING"))
       | _ => inr last
       end;
     requests := 0;
     file_base64 := fun _ => inr "QUJD";
     open_write := fun _ => None |}.

(** The record of a finished task that carries one output, itself a
    response with two chunks when it is fetched. *)
Definition video_record : response :=
  {| status_error := None;
     json_body :=
       inr (task_record "COMPLETE"
              [JObj [("name", JStr "output.mp4");
                     ("url", JStr "https://files.example/output.mp4")]]);
     text := ""; content_length := inr 9000; chunks := ["c1"; "c2"] |}.

End RetrieveSpec.

(* ================================================================== *)
(** ** The application: predicates and worlds *)
(* ================================================================== *)

Module AppSpec.
Import Handler App.

(** No file or process operation raises. *)
Definition faultless (w : world) : Prop := forall o, fault w o = None.

(** The model of a pair is, or is not, on the volume. *)
Definition present (w : world) (pair : string * string) : bool :=
  on_disk w (fst pair).

Definition absent (w : world) (pair : string * string) : bool :=
  negb (on_disk w (fst pair)).

(** What linking one model does: its directory, the removal of what is
    in the way, the link. *)
Definition link_ops (w : world) (pair : string * string) : list op :=
  [MakeDirs (dirname (snd pair))]
  ++ (if on_disk w (snd pair) || is_link w (snd pair)
      then [Remove (snd pair)] else [])
  ++ [Symlink (fst pair) (snd pair)].

(** The operations that link the models of a table that are on the
    volume, in the order of the table. *)
Definition links (w : world) (pairs : list (string * string)) : list op :=
  List.concat (map (link_ops w) (filter (present w) pairs)).

(** The line logged for a pair. *)
Definition link_log (w : world) (pair : string * string) : event :=
  if on_disk w (fst pair)
  then Log INFO "Symlink: "
  else Log WARNING "Model not found in Volume: ".

Definition is_popen (o : op) : bool :=
  match o with Popen _ => true | _ => false end.

Definition comfyui : op := Popen ["python"; "/ComfyUI/main.py"; "--listen"].

(** [k] probes that fail, each followed by its pause of one second. *)
Definition probed (k : nat) : trace :=
  List.concat (repeat [HttpGet "http://127.0.0.1:8188/"; Sleep 1] k).

Definition ready (startup_time : nat) : dict :=
  [("comfyui_ready", JBool true);
   ("startup_time", JInt (Z.of_nat startup_time))].

(** The lines of [on_start] up to the launch of ComfyUI. *)
Definition started (w : world) : trace :=
  [Log INFO "Starting initialization...";
   Log INFO "Setting up model symlinks..."]
  ++ map (link_log w) MODEL_SYMLINKS
  ++ [Log INFO "Starting ComfyUI..."].

(** A machine on which nothing raises: what is on its disk, and the
    probe at which ComfyUI answers. *)
Definition machine (h : Handler.world) (disk : string -> bool)
  (ready_at : nat) : world :=
  {| hw := h; on_disk := disk; is_link := fun _ => false;
     fault := fun _ => None;
     probe := fun n =>
       if (n <? ready_at)%nat then Some ConnectionError else None;
     journal := [] |}.

(** A volume with every model, leftovers of an earlier start in the
    ComfyUI directory of the text encoders, and nothing else. *)
Definition full_volume (path : string) : bool :=
  existsb (String.eqb path) (map fst MODEL_SYMLINKS)
  || String.eqb path
       "/ComfyUI/models/text_encoders/umt5-xxl-enc-bf16.safetensors".

(** The same volume without the VAE and the CLIP vision model. *)
Definition partial_volume (path : string) : bool :=
  full_volume path
  && negb (String.eqb path "/models/vae/Wan2_1_VAE_bf16.safetensors")
  && negb (String.eqb path "/models/clip_vision/clip_vision_h.safetensors").

(** The success report of the queue. *)
Definition uploaded : dict :=
  [("status", JStr "success");
   ("message", JStr "Video generated and uploaded")].

(** What the queue does with a video. *)
Definition saved : list op :=
  [OpenWrite "output.mp4"; Write "output.mp4"; SaveOutput "output.mp4"].

(** The two shapes of a result of [process_infinitetalk]. *)
Definition is_result (result : dict) : Prop :=
  (exists msg, result = Handler.error msg)
  \/ (exists data, result = [("video", JStr data)]).

End AppSpec.

(* ================================================================== *)
(** ** The preload: predicates and worlds *)
(* ================================================================== *)

Module PreloadSpec.
Import Handler Preload.

(** Where a model of the table goes. *)
Definition dest (pair : string * string) : string :=
  ("/models/" ++ snd pair)%string.

Definition file_of (entry : json) : json :=
  match entry with
  | JObj o => dict_get_default "file" JNull o
  | _ => JNull
  end.

(** The entry reports a model that was already there. *)
Definition reported_present (entry : json) : bool :=
  match entry with
  | JObj o => eq_str (dict_get_default "status" JNull o) "exists"
  | _ => false
  end.

(** The downloads of the models of a table that are not on the volume,
    in the order of the table. *)
Definition downloads (w : world) (pairs : list (string * string)) : trace :=
  map (fun pair => Wget (JStr (fst pair)) (dest pair))
      (filter (fun pair => negb (on_disk w (dest pair))) pairs).

(** Every size that is asked for is answered, with a number of bytes
    that has a float number of megabytes. *)
Definition measurable (w : world) : Prop :=
  forall path,
    exists size size_mb,
      getsize w path = inr size /\ true_div_pow2 size 20 = inr size_mb.

(** The sizes of the files of the volume, added up. *)
Definition volume_total (w : world) : Z :=
  fold_left
    (fun total path =>
       total + match getsize w path with inr size => size | inl _ => 0 end)
    (volume_files w) 0.

(** A volume that holds the two GGUF models; the download of the VAE
    fails, that of the CLIP vision model times out, wget cannot be run
    for the text encoder, and the others succeed.  Every file has 3
    MiB. *)
Definition sample_volume : world :=
  {| on_disk := fun path =>
       String.eqb path
         "/models/diffusion_models/Wan2_1-InfiniteTalk_Single_Q8.gguf"
       || String.eqb path
            "/models/diffusion_models/wan2.1-i2v-14b-480p-Q8_0.gguf";
     getsize := fun _ => inr 3145728;
     makedirs := fun _ => None;
     wget := fun url output_path =>
       if String.eqb output_path "/models/vae/Wan2_1_VAE_bf16.safetensors"
       then WgetExit 8 "404 Not Found"
       else if String.eqb output_path
                 "/models/clip_vision/clip_vision_h.safetensors"
       then WgetTimeout
       else if String.eqb output_path
                 "/models/text_encoders/umt5-xxl-enc-bf16.safetensors"
       then WgetError OSError
       else WgetExit 0 "";
     volume_files :=
       ["/models/diffusion_models/Wan2_1-InfiniteTalk_Single_Q8.gguf";
        "/models/diffusion_models/wan2.1-i2v-14b-480p-Q8_0.gguf"] |}.

End PreloadSpec.

(* ================================================================== *)
(** ** Running a computation step by step *)
(* ================================================================== *)

Section Running.
Context {W A B : Type}.

Lemma bind_run (m : M W A) (k : A -> M W B) (w w' : W) (t : trace) (a : A) :
  m w = (t, w', Ret a) ->
  bind m k w = (let '(t', w'', r) := k a w' in (t ++ t', w'', r)).
Proof. intros H. unfold bind. now rewrite H. Qed.

Lemma bind_raise (m : M W A) (k : A -> M W B) (w w' : W) (t : trace)
  (e : exn) :
  m w = (t, w', Raise e) ->
  bind m k w = (t, w', Raise e).
Proof. intros H. unfold bind. now rewrite H. Qed.
End Running.

(* ================================================================== *)
(** ** The client: status polling and the end of a job *)
(* ================================================================== *)

Section PollTask.
Import Client ClientSpec.

Variable task_id : json.
Variable retries : nat.

Let url := task_url task_id.

Lemma for_range_step {W A} (body : nat -> M W (option A))
  (start count : nat) (w : W) :
  for_range body start (S count) w =
    bind (body start)
      (fun r => match r with
                | Some a => ret (Some a)
                | None => for_range body (S start) count
                end) w.
Proof. reflexivity. Qed.

Lemma attempt_next (w : world) (i : nat) :
  attempt (next_request w) i = attempt w (S i).
Proof.
  unfold attempt. cbn [network requests next_request].
  now rewrite Nat.add_succ_r.
Qed.

Lemma poll_attempt_success (w : world) (a : nat) (body : json) :
  attempt w 0 = inr body ->
  poll_attempt url retries a w = ([HttpGet url], next_request w, Ret (Some body)).
Proof.
  unfold attempt, poll_attempt, try_except, try_catch, requests_get,
    raise_for_status, bind, emit, get_world, put_world, lift, ret, raise.
  cbn [Nat.add].
  destruct (network w (requests w)) as [e|r]; [discriminate|].
  destruct (status_error r); [discriminate|].
  intros ->. reflexivity.
Qed.

Lemma poll_attempt_failure (w : world) (a : nat) (e : exn) :
  attempt w 0 = inl e ->
  is_Exception e = true ->
  poll_attempt url retries a w =
    if (a <? retries - 1)%nat
    then ([HttpGet url; Sleep 2], next_request w, Ret None)
    else ([HttpGet url], next_request w, Raise e).
Proof.
  unfold attempt, poll_attempt, try_except, try_catch, requests_get,
    raise_for_status, bind, emit, get_world, put_world, lift, ret, raise,
    sleep.
  cbn [Nat.add].
  destruct (network w (requests w)) as [e0|r].
  - intros [= ->] ->. now destruct (a <? retries - 1)%nat.
  - destruct (status_error r) as [e0|].
    + intros [= ->] ->. now destruct (a <? retries - 1)%nat.
    + intros -> ->. now destruct (a <? retries - 1)%nat.
Qed.

(** The loop from turn [start] on, with [k] failures before a
    success. *)
Lemma poll_loop_success (k : nat) :
  forall (count start : nat) (w : world) (body : json),
    (k < count)%nat ->
    (start + count = retries)%nat ->
    (forall i e, (i < k)%nat -> attempt w i = inl e -> is_Exception e = true) ->
    (forall i, (i < k)%nat -> exists e, attempt w i = inl e) ->
    attempt w k = inr body ->
    for_range (poll_attempt url retries) start count w =
      (polled_trace task_id k, after_requests (S k) w, Ret (Some body)).
Proof.
  induction k as [|k IH]; intros count start w body Hk Hsum Hexc Hfail Hok.
  - destruct count as [|count]; [lia|].
    rewrite for_range_step. unfold bind.
    rewrite (poll_attempt_success w start body Hok). reflexivity.
  - destruct count as [|count]; [lia|].
    destruct (Hfail 0%nat ltac:(lia)) as [e He].
    rewrite for_range_step. unfold bind at 1.
    rewrite (poll_attempt_failure w start e He (Hexc 0%nat e ltac:(lia) He)).
    replace (start <? retries - 1)%nat with true
      by (symmetry; apply Nat.ltb_lt; lia).
    rewrite (IH count (S start) (next_request w) body); try lia.
    + unfold after_requests.
      now rewrite (Nat.iter_succ_r (S k)).
    + intros i e' Hi. rewrite attempt_next. apply Hexc. lia.
    + intros i Hi. rewrite attempt_next. apply Hfail. lia.
    + now rewrite attempt_next.
Qed.

(** The loop from turn [start] on, when every remaining attempt
    fails. *)
Lemma poll_loop_exhausted (count : nat) :
  forall (start : nat) (w : world) (e : exn),
    (start + S count = retries)%nat ->
    (forall i e', (i <= count)%nat -> attempt w i = inl e' ->
                  is_Exception e' = true) ->
    (forall i, (i <= count)%nat -> exists e', attempt w i = inl e') ->
    attempt w count = inl e ->
    for_range (poll_attempt url retries) start (S count) w =
      (polled_trace task_id count, after_requests (S count) w, Raise e).
Proof.
  induction count as [|count IH]; intros start w e Hsum Hexc Hfail Hlast.
  - rewrite for_range_step. unfold bind.
    rewrite (poll_attempt_failure w start e Hlast (Hexc 0%nat e ltac:(lia) Hlast)).
    replace (start <? retries - 1)%nat with false
      by (symmetry; apply Nat.ltb_ge; lia).
    reflexivity.
  - destruct (Hfail 0%nat ltac:(lia)) as [e0 He0].
    rewrite for_range_step. unfold bind at 1.
    rewrite (poll_attempt_failure w start e0 He0 (Hexc 0%nat e0 ltac:(lia) He0)).
    replace (start <? retries - 1)%nat with true
      by (symmetry; apply Nat.ltb_lt; lia).
    rewrite (IH (S start) (next_request w) e); try lia.
    + unfold after_requests.
      now rewrite (Nat.iter_succ_r (S count)).
    + intros i e' Hi. rewrite attempt_next. apply Hexc. lia.
    + intros i Hi. rewrite attempt_next. apply Hfail. lia.
    + now rewrite attempt_next.
Qed.
End PollTask.

Section EndOfJob.
Import Client ClientSpec.

(** [poll_task] with its default of five attempts, as [main] calls
    it. *)
Lemma poll_task_returns (w : world) (task_id : json) (k : nat) (body : json) :
  (k < 5)%nat ->
  (forall i e, (i < k)%nat -> attempt w i = inl e -> is_Exception e = true) ->
  (forall i, (i < k)%nat -> exists e, attempt w i = inl e) ->
  attempt w k = inr body ->
  poll_task task_id 5 w =
    (polled_trace task_id k, after_requests (S k) w, Ret body).
Proof.
  intros Hk Hexc Hfail Hok. unfold poll_task, bind.
  rewrite (poll_loop_success task_id 5 k 5 0 w body); auto.
  cbn [ret]. now rewrite app_nil_r.
Qed.

Lemma poll_task_raises (w : world) (task_id : json) (e : exn) :
  (forall i e', (i < 5)%nat -> attempt w i = inl e' -> is_Exception e' = true) ->
  (forall i, (i < 5)%nat -> exists e', attempt w i = inl e') ->
  attempt w 4 = inl e ->
  poll_task task_id 5 w =
    (polled_trace task_id 4, after_requests 5 w, Raise e).
Proof.
  intros Hexc Hfail Hlast. unfold poll_task, bind.
  rewrite (poll_loop_exhausted task_id 5 4 0 w e); auto.
  - intros i e' Hi. apply Hexc. lia.
  - intros i Hi. apply Hfail. lia.
Qed.

(** C10 - A status poll makes at most five attempts.  While the
    attempts fail (with an ordinary exception) it pauses 2 seconds
    after each and tries again; the first attempt that succeeds ends
    the poll with the parsed status record; when all five have failed
    the error of the fifth is raised, after four pauses and no more. *)
Theorem poll_task_bounded_retry (w : world) (task_id : json) :
  (forall i e, (i < 5)%nat -> attempt w i = inl e -> is_Exception e = true) ->
  (forall k body,
      (k < 5)%nat ->
      (forall i, (i < k)%nat -> exists e, attempt w i = inl e) ->
      attempt w k = inr body ->
      poll_task task_id 5 w =
        (polled_trace task_id k, after_requests (S k) w, Ret body))
  /\
  (forall e,
      (forall i, (i < 5)%nat -> exists e', attempt w i = inl e') ->
      attempt w 4 = inl e ->
      poll_task task_id 5 w =
        (polled_trace task_id 4, after_requests 5 w, Raise e)).
Proof.
  intros Hexc. split.
  - intros k body Hk Hfail Hok. apply poll_task_returns; auto.
    intros i e Hi. apply Hexc. lia.
  - intros e Hfail Hlast. now apply poll_task_raises.
Qed.

Lemma flaky_server_errors (i : nat) (e : exn) :
  (i < 5)%nat -> attempt flaky_server i = inl e -> is_Exception e = true.
Proof.
  intros Hi.
  do 5 (destruct i as [|i]; [cbn; intros [= <-]; reflexivity || discriminate|]).
  lia.
Defined.

Lemma flaky_server_prefix (i : nat) :
  (i < 2)%nat -> exists e, attempt flaky_server i = inl e.
Proof.
  intros Hi.
  destruct i as [|[|i]]; [eexists; reflexivity | eexists; reflexivity | lia].
Defined.

(** Two failed attempts, two pauses of 2 seconds, and the third
    attempt returns the record. *)
Lemma poll_task_bounded_retry_witness :
  poll_task (JStr "t-1") 5 flaky_server =
    ([HttpGet "https://api.beam.cloud/v2/task/t-1/"; Sleep 2;
      HttpGet "https://api.beam.cloud/v2/task/t-1/"; Sleep 2;
      HttpGet "https://api.beam.cloud/v2/task/t-1/"],
     after_requests 3 flaky_server,
     Ret (JObj [("status", JStr "RUNNING")])).
Proof.
  exact (proj1 (poll_task_bounded_retry flaky_server (JStr "t-1")
                  flaky_server_errors)
           2%nat (JObj [("status", JStr "RUNNING")])
           ltac:(lia) flaky_server_prefix eq_refl).
Defined.

(** Once the loop has ended with FAILED or CANCELED, [main] prints
    the failure and returns: nothing is downloaded. *)
Lemma finish_failed (a : args) (status info : json) (w : world) :
  status_in status ["FAILED"; "CANCELED"] = true ->
  finish a status info w = ([Print "Task Failed with status: "], w, Ret tt).
Proof.
  intros H. unfold finish.
  replace (status_in status ["COMPLETED"; "COMPLETE"]) with false;
    [reflexivity|].
  destruct status; try discriminate H. cbn in H |- *.
  destruct (String.eqb_spec s "FAILED") as [->|_]; [reflexivity|].
  destruct (String.eqb_spec s "CANCELED") as [->|_]; [reflexivity|].
  discriminate H.
Qed.

(** C1 - On the job that the server reports FAILED at the first poll,
    the client prints the failure and downloads nothing, and [main]
    then returns normally: the exit status of the process is 0, where
    the no-output paths of the same function leave with 1. *)
Theorem failed_job_exits_with_zero :
  let run := main url_args 1 failing_server in
  trace_of run =
    [Print "Image URL: "; Print "Audio URL: "; Print "Mode: ";
     Print "Submitting task to ";
     HttpPost "https://queue.example/tasks"
       (JObj [("input_type", JStr "image"); ("prompt", JStr "hello");
              ("width", JInt 320); ("height", JInt 240);
              ("image_url", JStr "http://host/face.jpg");
              ("wav_url", JStr "http://host/voice.wav")]);
     Print "Task ID: "; Print "Waiting for completion...";
     HttpGet "https://api.beam.cloud/v2/task/t-1/";
     Print "Task Failed with status: "]
  /\ outcome_of run = Ret tt
  /\ exit_code (outcome_of run) = Some 0.
Proof. vm_compute. repeat split. Qed.
End EndOfJob.


(* ================================================================== *)
(** ** Requests as mappings *)
(* ================================================================== *)

Section Mappings.
Import Handler HandlerSpec.

Lemma dict_mem_get (k : string) (d : dict) :
  dict_mem k d = match dict_get k d with Some _ => true | None => false end.
Proof.
  induction d as [|[k' v] d IH]; [reflexivity|].
  cbn. destruct (String.eqb k k'); [reflexivity|exact IH].
Qed.

Lemma dict_get_In (k : string) (v : json) (d : dict) :
  dict_get k d = Some v -> In k (keys d).
Proof.
  induction d as [|[k' v'] d IH]; [discriminate|].
  cbn. destruct (String.eqb_spec k k') as [->|_]; auto.
Qed.

(** With one entry per key, a lookup does not depend on the order of
    the entries. *)
Lemma dict_get_perm (d d' : dict) :
  Permutation d d' -> NoDup (keys d) ->
  forall k, dict_get k d = dict_get k d'.
Proof.
  induction 1 as [|[k0 v0] l l' Hp IH|[k1 v1] [k2 v2] l|l l' l'' Hp1 IH1 Hp2 IH2];
    intros Hnd k.
  - reflexivity.
  - cbn. inversion Hnd; subst. now rewrite IH.
  - cbn. inversion Hnd as [|? ? Hnotin _]; subst.
    destruct (String.eqb_spec k k1) as [E1|_];
      destruct (String.eqb_spec k k2) as [E2|_]; try reflexivity.
    exfalso. apply Hnotin. left. congruence.
  - rewrite IH1 by assumption. apply IH2.
    unfold keys in *.
    eapply Permutation_NoDup; [|exact Hnd]. now apply Permutation_map.
Qed.

Lemma dict_mem_perm (d d' : dict) :
  Permutation d d' -> NoDup (keys d) ->
  forall k, dict_mem k d = dict_mem k d'.
Proof.
  intros Hp Hnd k. rewrite !dict_mem_get. now rewrite (dict_get_perm d d' Hp Hnd).
Qed.

Lemma dict_get_default_perm (d d' : dict) :
  Permutation d d' -> NoDup (keys d) ->
  forall k x, dict_get_default k x d = dict_get_default k x d'.
Proof.
  intros Hp Hnd k x. unfold dict_get_default.
  now rewrite (dict_get_perm d d' Hp Hnd).
Qed.
End Mappings.


(* ================================================================== *)
(** ** The injector: which node receives the offload flag *)
(* ================================================================== *)

Section Injector.
Import Handler HandlerSpec.

Lemma is_sampler_class (node_data : json) :
  is_sampler node_data = true ->
  class_is node_data "WanVideoSampler" = inr true.
Proof.
  unfold is_sampler.
  destruct (class_is node_data "WanVideoSampler") as [e|[|]];
    congruence.
Qed.

Lemma not_sampler_class (node_data : json) :
  not_sampler node_data = true ->
  class_is node_data "WanVideoSampler" = inr false.
Proof.
  unfold not_sampler.
  destruct (class_is node_data "WanVideoSampler") as [e|[|]];
    congruence.
Qed.

Lemma dict_get_entry (k : string) (v : json) (d : dict) :
  dict_get k d = Some v -> In (k, v) d.
Proof.
  induction d as [|[k' v'] d IH]; [discriminate|].
  cbn. destruct (String.eqb_spec k k') as [->|_].
  - intros [= ->]. now left.
  - intros H. right. auto.
Qed.

(** The fallback search stops at the first node of the class. *)
Lemma first_of_class_first (pre post : dict) (node_id : string) (node : json) :
  Forall (fun kv => not_sampler (snd kv) = true) pre ->
  is_sampler node = true ->
  first_of_class "WanVideoSampler" (pre ++ (node_id, node) :: post) =
    inr (Some node_id).
Proof.
  intros Hpre Hnode.
  induction Hpre as [|[k v] pre Hk _ IH]; cbn [app first_of_class].
  - now rewrite (is_sampler_class _ Hnode).
  - cbn [snd] in Hk. now rewrite (not_sampler_class _ Hk).
Qed.

Lemma first_of_class_none (prompt : dict) :
  Forall (fun kv => not_sampler (snd kv) = true) prompt ->
  first_of_class "WanVideoSampler" prompt = inr None.
Proof.
  induction 1 as [|[k v] prompt Hk _ IH]; cbn [first_of_class].
  - reflexivity.
  - cbn [snd] in Hk. now rewrite (not_sampler_class _ Hk).
Qed.

(** When the preferred node is no sampler the search decides. *)
Lemma find_sampler_fallback (prompt : dict) :
  (forall n, dict_get preferred_id prompt = Some n -> not_sampler n = true) ->
  find_sampler prompt = first_of_class "WanVideoSampler" prompt.
Proof.
  intros Hpref. unfold find_sampler, dict_get_default.
  rewrite dict_mem_get.
  destruct (dict_get preferred_id prompt) as [n|]; [|reflexivity].
  now rewrite (not_sampler_class _ (Hpref n eq_refl)).
Qed.

Lemma find_sampler_preferred (prompt : dict) (node : json) :
  dict_get preferred_id prompt = Some node ->
  is_sampler node = true ->
  find_sampler prompt = inr (Some preferred_id).
Proof.
  intros Hget Hnode. unfold find_sampler, dict_get_default.
  rewrite dict_mem_get, Hget. now rewrite (is_sampler_class _ Hnode).
Qed.

Lemma inject_selected (inputs prompt : dict) (node_id : string) (w : world) :
  find_sampler prompt = inr (Some node_id) ->
  node_id <> "" ->
  inject_force_offload inputs prompt w = injected_at inputs prompt node_id w.
Proof.
  intros Hfind Hne. unfold inject_force_offload, injected_at, log, bind, emit.
  rewrite Hfind. cbn [lift ret found].
  destruct (String.eqb_spec node_id "") as [E|_]; [contradiction|].
  cbn [negb].
  destruct (setdefault_input prompt node_id "force_offload"
              (dict_get_default "force_offload" (JBool true) inputs));
    reflexivity.
Qed.

Lemma inject_none (inputs prompt : dict) (w : world) :
  find_sampler prompt = inr None ->
  inject_force_offload inputs prompt w = not_injected prompt w.
Proof.
  intros Hfind. unfold inject_force_offload, not_injected, log, bind, emit.
  now rewrite Hfind.
Qed.

(** C5 - Which node receives the offload flag.  (1) When the node "128"
    is a sampler it is selected, in every order of the graph's entries,
    and the flag is written there.  (2) Otherwise the first sampler in
    iteration order is selected (and the flag written there when its
    identifier is not empty).  (3) When no node is a sampler the graph
    is left as it is, a warning is logged and the injection returns
    normally. *)
Theorem sampler_selection (prompt : dict) :
  (forall node prompt',
      dict_get preferred_id prompt = Some node ->
      is_sampler node = true ->
      NoDup (keys prompt) ->
      Permutation prompt prompt' ->
      find_sampler prompt' = inr (Some preferred_id)
      /\ forall inputs w,
           inject_force_offload inputs prompt' w =
             injected_at inputs prompt' preferred_id w)
  /\
  (forall pre node_id node post,
      prompt = pre ++ (node_id, node) :: post ->
      Forall (fun kv => not_sampler (snd kv) = true) pre ->
      is_sampler node = true ->
      (forall n, dict_get preferred_id prompt = Some n ->
                 not_sampler n = true) ->
      find_sampler prompt = inr (Some node_id)
      /\ (node_id <> "" ->
          forall inputs w,
            inject_force_offload inputs prompt w =
              injected_at inputs prompt node_id w))
  /\
  (Forall (fun kv => not_sampler (snd kv) = true) prompt ->
   find_sampler prompt = inr None
   /\ forall inputs w,
        inject_force_offload inputs prompt w = not_injected prompt w).
Proof.
  split; [|split].
  - intros node prompt' Hget Hnode Hnd Hp.
    assert (Hfind : find_sampler prompt' = inr (Some preferred_id)).
    { apply find_sampler_preferred with (node := node); [|exact Hnode].
      now rewrite <- (dict_get_perm prompt prompt' Hp Hnd). }
    split; [exact Hfind|].
    intros inputs w. now apply inject_selected.
  - intros pre node_id node post -> Hpre Hnode Hpref.
    assert (Hfind : find_sampler (pre ++ (node_id, node) :: post)
                    = inr (Some node_id)).
    { rewrite (find_sampler_fallback _ Hpref).
      now apply first_of_class_first. }
    split; [exact Hfind|].
    intros Hne inputs w. now apply inject_selected.
  - intros Hall.
    assert (Hfind : find_sampler prompt = inr None).
    { rewrite find_sampler_fallback; [now apply first_of_class_none|].
      intros n Hn. apply dict_get_entry in Hn.
      rewrite Forall_forall in Hall. exact (Hall _ Hn). }
    split; [exact Hfind|].
    intros inputs w. now apply inject_none.
Qed.

Lemma two_samplers_NoDup : NoDup (keys two_samplers).
Proof.
  unfold two_samplers, keys. cbn.
  repeat constructor; cbn; intuition discriminate.
Defined.

Lemma two_samplers_perm : Permutation two_samplers two_samplers_reordered.
Proof.
  unfold two_samplers, two_samplers_reordered.
  eapply perm_trans; [apply perm_skip, perm_swap|].
  apply perm_swap.
Defined.

(** The three cases on graphs of three nodes. *)
Lemma sampler_selection_witness :
  find_sampler two_samplers = inr (Some "128")
  /\ find_sampler two_samplers_reordered = inr (Some "128")
  /\ find_sampler other_sampler = inr (Some "77")
  /\ find_sampler no_sampler = inr None
  /\ outcome_of (inject_force_offload [] no_sampler
                   quiet_world)
     = Ret no_sampler.
Proof.
  split; [|split; [|split; [|split]]].
  - apply (proj1 (sampler_selection two_samplers) (sampler_node []) two_samplers
             eq_refl eq_refl two_samplers_NoDup (Permutation_refl _)).
  - apply (proj1 (sampler_selection two_samplers) (sampler_node [])
             two_samplers_reordered
             eq_refl eq_refl two_samplers_NoDup two_samplers_perm).
  - apply (proj1 (proj2 (sampler_selection other_sampler))
             [("284", loader_node)] "77" (sampler_node [])
             [("128", loader_node)] eq_refl).
    + repeat constructor.
    + reflexivity.
    + intros n [= <-]. reflexivity.
  - apply (proj2 (proj2 (sampler_selection no_sampler))).
    repeat constructor.
  - rewrite (proj2 (proj2 (proj2 (sampler_selection no_sampler))
                      ltac:(repeat constructor))).
    reflexivity.
Defined.
End Injector.

(* ================================================================== *)
(** ** The monitor: connecting to the realtime channel *)
(* ================================================================== *)

Section Connection.
Import Handler HandlerSpec.

Variable ws_url : string.

Lemma connect_attempt_accepted (w : world) (a : nat) :
  connect w a = None ->
  connect_attempt ws_url a w =
    ([WsConnect ws_url; Log INFO "WebSocket connected"], w, Ret (Some None)).
Proof.
  intros H.
  unfold connect_attempt, try_except, try_catch, bind, emit, get_world, log.
  now rewrite H.
Qed.

Lemma connect_attempt_refused (w : world) (a : nat) (e : exn) :
  connect w a = Some e ->
  is_Exception e = true ->
  connect_attempt ws_url a w =
    if (a =? max_attempts - 1)%nat
    then ([WsConnect ws_url; Log WARNING "WebSocket connection failed"], w,
          Ret (Some (Some (error "WebSocket connection timeout (3 minutes)"))))
    else ([WsConnect ws_url; Log WARNING "WebSocket connection failed";
           Sleep 5], w, Ret None).
Proof.
  intros H He.
  unfold connect_attempt, try_except, try_catch, bind, emit, get_world, log,
    sleep, raise.
  rewrite H. cbn [fst snd]. rewrite He.
  now destruct (a =? max_attempts - 1)%nat.
Qed.

(** The loop from turn [start] on, with [k] refusals before the
    connection is accepted. *)
Lemma connect_loop_accepted (w : world) (k : nat) :
  forall count start,
    (k < count)%nat ->
    (start + count = max_attempts)%nat ->
    (forall i e, (i < k)%nat -> connect w (start + i) = Some e ->
                 is_Exception e = true) ->
    (forall i, (i < k)%nat -> connect w (start + i) <> None) ->
    connect w (start + k) = None ->
    for_range (connect_attempt ws_url) start count w =
      (refused ws_url k ++ [WsConnect ws_url; Log INFO "WebSocket connected"],
       w, Ret (Some None)).
Proof.
  induction k as [|k IH]; intros count start Hk Hsum Hexc Hfail Hok.
  - destruct count as [|count]; [lia|].
    rewrite for_range_step. unfold bind.
    rewrite Nat.add_0_r in Hok.
    now rewrite (connect_attempt_accepted w start Hok).
  - destruct count as [|count]; [lia|].
    destruct (connect w start) as [e|] eqn:He.
    2:{ exfalso. apply (Hfail 0%nat); [lia|]. now rewrite Nat.add_0_r. }
    rewrite for_range_step. unfold bind at 1.
    rewrite (connect_attempt_refused w start e He).
    2:{ apply (Hexc 0%nat); [lia|]. now rewrite Nat.add_0_r. }
    replace (start =? max_attempts - 1)%nat with false
      by (symmetry; apply Nat.eqb_neq; lia).
    rewrite (IH count (S start)); try lia.
    + reflexivity.
    + intros i e' Hi. rewrite Nat.add_succ_comm. apply Hexc. lia.
    + intros i Hi. rewrite Nat.add_succ_comm. apply Hfail. lia.
    + now rewrite Nat.add_succ_comm.
Qed.

(** The loop from turn [start] on, when every remaining connection is
    refused. *)
Lemma connect_loop_refused (w : world) (count : nat) :
  forall start,
    (start + S count = max_attempts)%nat ->
    (forall i e, (i <= count)%nat -> connect w (start + i) = Some e ->
                 is_Exception e = true) ->
    (forall i, (i <= count)%nat -> connect w (start + i) <> None) ->
    for_range (connect_attempt ws_url) start (S count) w =
      (refused ws_url count
       ++ [WsConnect ws_url; Log WARNING "WebSocket connection failed"],
       w, Ret (Some (Some (error "WebSocket connection timeout (3 minutes)")))).
Proof.
  induction count as [|count IH]; intros start Hsum Hexc Hfail.
  - destruct (connect w start) as [e|] eqn:He.
    2:{ exfalso. apply (Hfail 0%nat); [lia|]. now rewrite Nat.add_0_r. }
    rewrite for_range_step. unfold bind.
    rewrite (connect_attempt_refused w start e He).
    2:{ apply (Hexc 0%nat); [lia|]. now rewrite Nat.add_0_r. }
    replace (start =? max_attempts - 1)%nat with true
      by (symmetry; apply Nat.eqb_eq; lia).
    reflexivity.
  - destruct (connect w start) as [e|] eqn:He.
    2:{ exfalso. apply (Hfail 0%nat); [lia|]. now rewrite Nat.add_0_r. }
    rewrite for_range_step. unfold bind at 1.
    rewrite (connect_attempt_refused w start e He).
    2:{ apply (Hexc 0%nat); [lia|]. now rewrite Nat.add_0_r. }
    replace (start =? max_attempts - 1)%nat with false
      by (symmetry; apply Nat.eqb_neq; lia).
    rewrite (IH (S start)); try lia.
    + reflexivity.
    + intros i e' Hi. rewrite Nat.add_succ_comm. apply Hexc. lia.
    + intros i Hi. rewrite Nat.add_succ_comm. apply Hfail. lia.
Qed.

Lemma paused_app (t t' : trace) : paused (t ++ t') = paused t + paused t'.
Proof.
  induction t as [|e t IH]; [reflexivity|].
  destruct e; cbn [app paused]; rewrite IH; lia.
Qed.

Lemma paused_refused (k : nat) : paused (refused ws_url k) = 5 * Z.of_nat k.
Proof.
  unfold refused. induction k as [|k IH]; [reflexivity|].
  cbn [repeat List.concat app paused]. rewrite IH. lia.
Qed.

Lemma attempts_app (t t' : trace) :
  attempts (t ++ t') = (attempts t + attempts t')%nat.
Proof. unfold attempts. now rewrite filter_app, length_app. Qed.

Lemma attempts_refused (k : nat) : attempts (refused ws_url k) = k.
Proof.
  unfold refused. induction k as [|k IH]; [reflexivity|].
  cbn [repeat List.concat]. rewrite attempts_app, IH. reflexivity.
Qed.
End Connection.

Section ConnectAndRun.
Import Handler HandlerSpec.

Lemma connect_websocket_accepted (ws_url : string) (w : world) (k : nat) :
  (k < 36)%nat ->
  (forall i e, (i < k)%nat -> connect w i = Some e -> is_Exception e = true) ->
  (forall i, (i < k)%nat -> connect w i <> None) ->
  connect w k = None ->
  connect_websocket ws_url w =
    (refused ws_url k ++ [WsConnect ws_url; Log INFO "WebSocket connected"],
     w, Ret None).
Proof.
  intros Hk Hexc Hfail Hok. unfold connect_websocket, bind.
  rewrite (connect_loop_accepted ws_url w k max_attempts 0); auto.
  cbn [ret]. now rewrite app_nil_r.
Qed.

Lemma connect_websocket_refused (ws_url : string) (w : world) :
  (forall i e, (i < 36)%nat -> connect w i = Some e -> is_Exception e = true) ->
  (forall i, (i < 36)%nat -> connect w i <> None) ->
  connect_websocket ws_url w =
    (refused ws_url 35
     ++ [WsConnect ws_url; Log WARNING "WebSocket connection failed"],
     w, Ret (Some (error "WebSocket connection timeout (3 minutes)"))).
Proof.
  intros Hexc Hfail. unfold connect_websocket, bind.
  change max_attempts with 36%nat.
  rewrite (connect_loop_refused ws_url w 35 0).
  - cbn [ret]. now rewrite app_nil_r.
  - reflexivity.
  - intros i e Hi. apply Hexc. cbn. lia.
  - intros i Hi. apply Hfail. cbn. lia.
Qed.

(** C9 (as the code has it) - The connection is attempted at most 36
    times with a pause of 5 seconds after each refusal but the last (35
    pauses, 175 seconds: the 3-minute ceiling).  If the attempt number
    [k] < 36 is the first to be accepted, the handler has paused [5 * k]
    seconds and goes on to run the workflow; if all 36 attempts are
    refused it returns the connect-timeout error, and the workflow is
    not submitted. *)
Theorem connect_retry_every_five_seconds
  (w : world) (prompt : dict) (client_id : string) :
  (forall i e, (i < 36)%nat -> connect w i = Some e -> is_Exception e = true) ->
  (forall k,
      (k < 36)%nat ->
      (forall i, (i < k)%nat -> connect w i <> None) ->
      connect w k = None ->
      connect_and_run prompt client_id w =
        (let '(t, w', r) := run_workflow prompt client_id w in
         (Log INFO "Connecting to WebSocket: "
            :: refused (ws_url_of client_id) k
            ++ [WsConnect (ws_url_of client_id);
                Log INFO "WebSocket connected"] ++ t,
          w', r)))
  /\
  ((forall i, (i < 36)%nat -> connect w i <> None) ->
   connect_and_run prompt client_id w =
     (Log INFO "Connecting to WebSocket: "
        :: refused (ws_url_of client_id) 35
        ++ [WsConnect (ws_url_of client_id);
            Log WARNING "WebSocket connection failed"],
      w, Ret (error "WebSocket connection timeout (3 minutes)")))
  /\
  (forall k, paused (refused (ws_url_of client_id) k) = 5 * Z.of_nat k
             /\ attempts (refused (ws_url_of client_id) k) = k).
Proof.
  intros Hexc. split; [|split].
  - intros k Hk Hfail Hok.
    unfold connect_and_run, bind at 1. cbn [log emit].
    unfold bind at 1. fold (ws_url_of client_id).
    rewrite (connect_websocket_accepted (ws_url_of client_id) w k); auto.
    + destruct (run_workflow prompt client_id w) as [[t w'] r].
      cbn [app]. now rewrite <- app_assoc.
    + intros i e Hi. apply Hexc. lia.
  - intros Hfail.
    unfold connect_and_run, bind at 1. cbn [log emit].
    unfold bind at 1. fold (ws_url_of client_id).
    rewrite (connect_websocket_refused (ws_url_of client_id) w);
      [|exact Hexc|exact Hfail].
    cbn [ret app]. now rewrite ?app_nil_r.
  - intros k. split; [apply paused_refused | apply attempts_refused].
Qed.

Lemma refusing_once_errors (i : nat) (e : exn) :
  (i < 36)%nat -> connect refusing_once i = Some e -> is_Exception e = true.
Proof.
  intros _. destruct i as [|i]; cbn; [intros [= <-]; reflexivity|discriminate].
Defined.

(** One refusal: one pause of 5 seconds, and the workflow runs. *)
Lemma connect_retry_every_five_seconds_witness :
  connect_and_run template "c1" refusing_once =
    (let '(t, w', r) := run_workflow template "c1" refusing_once in
     (Log INFO "Connecting to WebSocket: "
        :: refused (ws_url_of "c1") 1
        ++ [WsConnect (ws_url_of "c1"); Log INFO "WebSocket connected"] ++ t,
      w', r)).
Proof.
  apply (proj1 (connect_retry_every_five_seconds refusing_once template "c1"
                  refusing_once_errors) 1%nat).
  - lia.
  - intros i Hi. assert (i = 0%nat) as -> by lia. discriminate.
  - reflexivity.
Defined.

(** C9 (as stated) fails: after a refused connection the handler waits
    5 seconds, not 1, before it tries again; and a server that refuses
    every connection is given up after 36 attempts, where one attempt a
    second for 3 minutes would be 180. *)
Lemma connect_backoff_is_not_one_second :
  trace_of (connect_websocket (ws_url_of "c1") refusing_once) =
    [WsConnect (ws_url_of "c1"); Log WARNING "WebSocket connection failed";
     Sleep 5;
     WsConnect (ws_url_of "c1"); Log INFO "WebSocket connected"]
  /\ ~ In (Sleep 1) (trace_of (connect_websocket (ws_url_of "c1") refusing_once))
  /\ attempts (trace_of (connect_websocket (ws_url_of "c1") refusing_always))
     = 36%nat
  /\ outcome_of (connect_websocket (ws_url_of "c1") refusing_always)
     = Ret (Some (error "WebSocket connection timeout (3 minutes)")).
Proof.
  split; [reflexivity|]. split; [|split; reflexivity].
  cbn. intuition discriminate.
Qed.
End ConnectAndRun.

(* ================================================================== *)
(** ** The monitor: waiting for the completion event *)
(* ================================================================== *)

Section Monitor.
Import Handler HandlerSpec.

Variable prompt_id : string.

Lemma on_frame_ignored (out : frame) (w : world) :
  ignored prompt_id out = true ->
  on_frame prompt_id out w = ([], w, Ret false).
Proof.
  unfold ignored, non_string, other_type, other_job.
  destruct out as [|[[| | | | | |m]|]]; cbn; try discriminate; try reflexivity.
  unfold on_frame, bind, lift, getitem, log, emit, ret, raise.
  destruct (dict_get "type" m) as [type|]; [|discriminate].
  destruct (eq_str type "executing"); cbn [negb orb andb]; [|reflexivity].
  destruct (dict_get "data" m) as [[| | | | | |d]|]; try discriminate.
  destruct (dict_get "node" d) as [[| | | | | |]|]; try discriminate.
  destruct (dict_get "prompt_id" d) as [id|]; [|discriminate].
  cbn. now destruct (eq_str id prompt_id).
Qed.

Lemma on_frame_progress (out : frame) (w : world) :
  node_progress out = true ->
  on_frame prompt_id out w = ([Log INFO "Executing node: "], w, Ret false).
Proof.
  unfold node_progress.
  destruct out as [|[[| | | | | |m]|]]; try discriminate.
  unfold on_frame, bind, lift, getitem, log, emit, ret, raise.
  destruct (dict_get "type" m) as [type|]; [|discriminate].
  destruct (dict_get "data" m) as [[| | | | | |d]|]; try discriminate.
  destruct (eq_str type "executing"); [|discriminate].
  destruct (dict_get "node" d) as [node|]; [|discriminate].
  cbn. now destruct node.
Qed.

Lemma on_frame_completes (out : frame) (w : world) :
  completes prompt_id out = true ->
  on_frame prompt_id out w = ([Log INFO "Workflow completed"], w, Ret true).
Proof.
  unfold completes.
  destruct out as [|[[| | | | | |m]|]]; try discriminate.
  unfold on_frame, bind, lift, getitem, log, emit, ret, raise.
  destruct (dict_get "type" m) as [type|]; [|discriminate].
  destruct (dict_get "data" m) as [[| | | | | |d]|]; try discriminate.
  destruct (eq_str type "executing"); [|discriminate].
  destruct (dict_get "node" d) as [[| | | | | |]|]; try discriminate.
  destruct (dict_get "prompt_id" d) as [id|]; [|discriminate].
  cbn. now destruct (eq_str id prompt_id).
Qed.

Lemma on_frame_passed (out : frame) (w : world) :
  passed prompt_id out = true ->
  on_frame prompt_id out w =
    (if node_progress out then [Log INFO "Executing node: "] else [],
     w, Ret false).
Proof.
  unfold passed. intros H.
  destruct (node_progress out) eqn:Hp.
  - now apply on_frame_progress.
  - rewrite orb_false_r in H. now apply on_frame_ignored.
Qed.

(** The classes are disjoint: a frame that is passed over does not end
    the wait. *)
Lemma passed_not_completes (out : frame) :
  passed prompt_id out = true -> completes prompt_id out = false.
Proof.
  unfold passed, ignored, non_string, other_type, other_job, node_progress,
    completes.
  destruct out as [|[[| | | | | |m]|]]; try reflexivity.
  destruct (dict_get "type" m) as [type|]; [|reflexivity].
  destruct (dict_get "data" m) as [[| | | | | |d]|];
    destruct (eq_str type "executing"); try reflexivity.
  destruct (dict_get "node" d) as [[| | | | | |]|]; try reflexivity;
    try discriminate.
  destruct (dict_get "prompt_id" d) as [id|]; [|reflexivity].
  cbn. now destruct (eq_str id prompt_id).
Qed.

Lemma set_inbox_twice (l l' : list frame) (w : world) :
  set_inbox l (set_inbox l' w) = set_inbox l w.
Proof. reflexivity. Qed.

(** The loop reads up to the first completing frame and no further. *)
Lemma recv_loop_stops (pre : list frame) :
  forall (last : frame) (post : list frame) (w : world),
    Forall (fun out => passed prompt_id out = true) pre ->
    completes prompt_id last = true ->
    recv_loop prompt_id (pre ++ last :: post) w =
      (received pre ++ [WsRecv; Log INFO "Workflow completed"],
       set_inbox post w, Ret tt).
Proof.
  induction pre as [|out pre IH]; intros last post w Hpre Hlast.
  - cbn [app recv_loop received flat_map].
    unfold bind, emit, get_world, put_world.
    now rewrite (on_frame_completes last _ Hlast).
  - inversion Hpre as [|? ? Hout Hrest]; subst.
    cbn [app recv_loop]. unfold bind at 1 2 3 4, emit, get_world, put_world.
    rewrite (on_frame_passed out _ Hout).
    rewrite (IH last post (set_inbox (pre ++ last :: post) w) Hrest Hlast).
    rewrite set_inbox_twice. cbn [received flat_map app].
    now destruct (node_progress out).
Qed.

(** Without a completing frame the loop reads everything and the next
    [recv] raises. *)
Lemma recv_loop_starves (frames : list frame) :
  forall w : world,
    Forall (fun out => passed prompt_id out = true) frames ->
    exists w',
      recv_loop prompt_id frames w =
        (received frames ++ [WsRecv], w', Raise WebSocketConnectionClosed).
Proof.
  induction frames as [|out frames IH]; intros w Hall.
  - exists w. reflexivity.
  - inversion Hall as [|? ? Hout Hrest]; subst.
    destruct (IH (set_inbox frames w) Hrest) as [w' Hloop].
    exists w'.
    cbn [recv_loop]. unfold bind at 1 2 3 4, emit, get_world, put_world.
    rewrite (on_frame_passed out _ Hout), Hloop.
    cbn [received flat_map app].
    now destruct (node_progress out).
Qed.
End Monitor.

Section GetVideos.
Import Handler HandlerSpec.

Lemma queue_prompt_accepted (prompt : dict) (client_id prompt_id : string)
  (w : world) :
  queue_reply w = inr prompt_id ->
  queue_prompt prompt client_id w =
    ([Log INFO "Queueing prompt to: ";
      HttpPost ("http://" ++ SERVER_ADDRESS ++ ":8188/prompt")
        (JObj [("prompt", JObj prompt); ("client_id", JStr client_id)]);
      Log INFO "Prompt sent successfully: "],
     w, Ret prompt_id).
Proof.
  intros H.
  unfold queue_prompt, try_except, try_catch, bind, log, emit, get_world, lift.
  now rewrite H.
Qed.

(** The history is requested first of all. *)
Lemma collect_history_starts (prompt_id : string) (w : world) :
  exists t,
    trace_of (collect_history prompt_id w) = HttpGet (history_url prompt_id) :: t.
Proof.
  unfold collect_history, get_history, bind at 1 2 3, emit, get_world, lift.
  fold (history_url prompt_id).
  destruct (history_reply w prompt_id) as [e|histories]; cbn.
  - eexists; reflexivity.
  - unfold bind.
    destruct (find (fun kv => (prompt_id =? fst kv)%string) histories); cbn.
    + destruct (collect_videos _ [] w) as [[t w'] r]. eexists; reflexivity.
    + eexists; reflexivity.
Qed.

Lemma ignored_no_progress (prompt_id : string) (out : frame) :
  ignored prompt_id out = true -> node_progress out = false.
Proof.
  unfold ignored, non_string, other_type, other_job, node_progress.
  destruct out as [|[[| | | | | |m]|]]; try reflexivity.
  destruct (dict_get "type" m) as [type|]; [|reflexivity].
  destruct (dict_get "data" m) as [[| | | | | |d]|];
    destruct (eq_str type "executing"); try reflexivity.
  destruct (dict_get "node" d) as [[| | | | | |]|]; try reflexivity;
    discriminate.
Qed.

(** C3 - [get_videos] on the frames [pre ++ last :: post], where [last]
    is the first text frame of type "executing" with a null node and
    the identifier returned by the submission, and the frames of [pre]
    are of the kinds that are passed over: the loop reads [pre] and
    [last] and leaves [post] unread, and only then requests the
    history.  When no frame completes, the loop reads every frame, the
    next [recv] raises, and no history is requested.  A frame that is
    not a string, or of another type, or a null-node "executing" frame
    of another job, leaves nothing but its [recv] in the trace. *)
Theorem monitor_stops_at_first_completion
  (w : world) (prompt : dict) (client_id prompt_id : string) :
  queue_reply w = inr prompt_id ->
  (forall pre last post,
      inbox w = pre ++ last :: post ->
      Forall (fun out => passed prompt_id out = true) pre ->
      completes prompt_id last = true ->
      get_videos prompt client_id w =
        (let '(t, w', r) := collect_history prompt_id (set_inbox post w) in
         (submitted prompt client_id ++ received pre
            ++ [WsRecv; Log INFO "Workflow completed"] ++ t,
          w', r))
      /\ exists t,
           trace_of (collect_history prompt_id (set_inbox post w))
           = HttpGet (history_url prompt_id) :: t)
  /\
  (Forall (fun out => passed prompt_id out = true) (inbox w) ->
   exists w',
     get_videos prompt client_id w =
       (submitted prompt client_id ++ received (inbox w) ++ [WsRecv],
        w', Raise WebSocketConnectionClosed))
  /\
  (forall out,
      ignored prompt_id out = true ->
      received [out] = [WsRecv]
      /\ forall w0, on_frame prompt_id out w0 = ([], w0, Ret false))
  /\
  (forall out,
      passed prompt_id out = true -> completes prompt_id out = false).
Proof.
  intros Hq. split; [|split; [|split]].
  - intros pre last post Hin Hpre Hlast.
    split; [|apply collect_history_starts].
    unfold get_videos, bind at 1.
    rewrite (queue_prompt_accepted prompt client_id prompt_id w Hq).
    unfold bind at 1. cbn [log emit].
    unfold bind at 1, get_world. unfold bind at 1.
    rewrite Hin, (recv_loop_stops prompt_id pre last post w Hpre Hlast).
    destruct (collect_history prompt_id (set_inbox post w)) as [[t w'] r].
    cbn [submitted app]. now rewrite <- app_assoc.
  - intros Hall.
    destruct (recv_loop_starves prompt_id (inbox w) w Hall) as [w' Hloop].
    exists w'.
    unfold get_videos, bind at 1.
    rewrite (queue_prompt_accepted prompt client_id prompt_id w Hq).
    unfold bind at 1. cbn [log emit].
    unfold bind at 1, get_world. unfold bind at 1.
    rewrite Hloop. reflexivity.
  - intros out Hout. split.
    + unfold received. cbn [flat_map].
      now rewrite (ignored_no_progress prompt_id out Hout).
    + intros w0. now apply on_frame_ignored.
  - intros out. apply passed_not_completes.
Qed.

Lemma quiet_world_passed :
  Forall (fun out => passed "job-1" out = true)
    [Binary; Text (Some (JObj [("type", JStr "status")]));
     progress JNull "job-0"; progress (JStr "128") "job-1"].
Proof. repeat constructor. Defined.

(** On the frames of [quiet_world]: a binary frame, a status message, a
    completion of another job and a progress message are read, the
    completion of "job-1" ends the wait, the frame after it is left
    unread. *)
Lemma monitor_stops_at_first_completion_witness :
  get_videos template "c1" quiet_world =
    (let '(t, w', r) :=
       collect_history "job-1" (set_inbox [progress JNull "job-1"] quiet_world)
     in
     (submitted template "c1"
        ++ [WsRecv; WsRecv; WsRecv; WsRecv; Log INFO "Executing node: "]
        ++ [WsRecv; Log INFO "Workflow completed"] ++ t,
      w', r)).
Proof.
  exact (proj1 (proj1 (monitor_stops_at_first_completion
                         quiet_world template "c1" "job-1" eq_refl)
                  [Binary; Text (Some (JObj [("type", JStr "status")]));
                   progress JNull "job-0"; progress (JStr "128") "job-1"]
                  (progress JNull "job-1") [progress JNull "job-1"]
                  eq_refl quiet_world_passed eq_refl)).
Defined.
End GetVideos.

(* ================================================================== *)
(** ** The monitor: the result artifact *)
(* ================================================================== *)

Section Artifact.
Import Handler HandlerSpec.

Lemma assoc_set_fresh {V} (k : string) (v : V) (d : list (string * V)) :
  ~ In k (map fst d) -> assoc_set k v d = d ++ [(k, v)].
Proof.
  induction d as [|[k' v'] d IH]; intros Hk; [reflexivity|].
  cbn in Hk |- *.
  destruct (String.eqb_spec k k') as [->|_]; [tauto|].
  rewrite IH; tauto.
Qed.

(** The inner loop keeps the references whose file exists, in order,
    and makes one lookup for each reference. *)
Lemma existing_videos_spec (vs : list video) :
  forall (acc : list string) (w : world),
  exists t w',
    existing_videos vs acc w =
      (t, w', Ret (acc ++ existing_at (exists_at w) (clock w) vs))
    /\ exists_at w' = exists_at w
    /\ clock w' = (clock w + List.length vs)%nat.
Proof.
  induction vs as [|v vs IH]; intros acc w.
  - exists [], w. cbn. rewrite app_nil_r, Nat.add_0_r. auto.
  - cbn [existing_videos existing_at os_path_exists].
    unfold bind at 1 2 3 4, emit, get_world, put_world. cbn [ret].
    destruct (exists_at w (clock w) (fullpath v)) eqn:Hex.
    + destruct (IH (acc ++ [fullpath v]) (set_clock (S (clock w)) w))
        as (t & w' & Hrun & Hsame & Hclock).
      unfold bind, log, emit. rewrite Hrun.
      cbn [set_clock exists_at clock] in *.
      eexists _, w'. split; [|split].
      * rewrite <- (app_assoc acc [fullpath v]). reflexivity.
      * exact Hsame.
      * cbn [List.length]. lia.
    + destruct (IH acc (set_clock (S (clock w)) w))
        as (t & w' & Hrun & Hsame & Hclock).
      rewrite Hrun.
      cbn [set_clock exists_at clock] in *.
      eexists _, w'. split; [|split].
      * reflexivity.
      * exact Hsame.
      * cbn [List.length]. lia.
Qed.

(** The outer loop, from an accumulator whose nodes are other nodes. *)
Lemma collect_videos_spec (outs : outputs) :
  forall (acc : list (string * list string)) (w : world),
    NoDup (map fst acc ++ map fst outs) ->
    exists t w',
      collect_videos outs acc w =
        (t, w', Ret (acc ++ collected (exists_at w) (clock w) outs)).
Proof.
  induction outs as [|[node_id o] outs IH]; intros acc w Hnd.
  - exists [], w. cbn. now rewrite app_nil_r.
  - cbn [collect_videos collected]. unfold bind.
    assert (Hfresh : ~ In node_id (map fst acc)).
    { intros Hin. apply NoDup_remove_2 in Hnd. apply Hnd.
      apply in_or_app. now left. }
    assert (Hnd' : NoDup (map fst (acc ++ [(node_id, node_videos
                            (exists_at w) (clock w) o)]) ++ map fst outs)).
    { rewrite map_app, <- app_assoc. exact Hnd. }
    unfold node_videos, lookups in *.
    destruct (gifs o) as [vs|].
    + destruct (existing_videos_spec vs [] w)
        as (t & w' & Hrun & Hsame & Hclock).
      rewrite Hrun. cbn [app] in *.
      rewrite (assoc_set_fresh _ _ _ Hfresh).
      destruct (IH _ w' Hnd') as (t' & w'' & Hrest).
      rewrite Hrest, Hsame, Hclock, <- app_assoc.
      eexists _, w''. reflexivity.
    + cbn [ret]. rewrite (assoc_set_fresh _ _ _ Hfresh).
      destruct (IH _ w Hnd') as (t' & w'' & Hrest).
      rewrite Hrest, Nat.add_0_r, <- app_assoc.
      eexists _, w''. reflexivity.
Qed.

Lemma collected_keys (ex : nat -> string -> bool) (outs : outputs) :
  forall t, map fst (collected ex t outs) = map fst outs.
Proof.
  induction outs as [|[node_id o] outs IH]; intros t; [reflexivity|].
  cbn. now rewrite IH.
Qed.

(** First match wins: the first path of the first node that has one is
    the first of all paths. *)
Lemma first_video_concat (videos : list (string * list string)) :
  first_video videos = hd_error (List.concat (map snd videos)).
Proof.
  induction videos as [|[node_id [|p ps]] videos IH]; cbn; auto.
Qed.
End Artifact.

Section ResultArtifact.
Import Handler HandlerSpec MoreSpec.

Lemma set_clock_same (w : world) : set_clock (clock w) w = w.
Proof. now destruct w. Qed.

(** The lookups move the clock and nothing else. *)
Lemma existing_videos_world (vs : list video) :
  forall (acc : list string) (w : world),
    world_of (existing_videos vs acc w)
    = set_clock (clock w + List.length vs) w.
Proof.
  induction vs as [|v vs IH]; intros acc w.
  - cbn. now rewrite Nat.add_0_r, set_clock_same.
  - cbn [existing_videos os_path_exists].
    unfold bind at 1 2 3 4, emit, get_world, put_world. cbn [ret].
    destruct (exists_at w (clock w) (fullpath v)).
    + unfold bind, log, emit.
      specialize (IH (acc ++ [fullpath v]) (set_clock (S (clock w)) w)).
      destruct (existing_videos vs _ _) as [[t w'] r].
      unfold world_of in *. cbn [fst snd] in *. subst w'.
      destruct r; cbn [fst snd set_clock clock List.length];
        now rewrite Nat.add_succ_r.
    + specialize (IH acc (set_clock (S (clock w)) w)).
      destruct (existing_videos vs _ _) as [[t w'] r].
      unfold world_of in *. cbn [fst snd] in *. subst w'.
      destruct r; cbn [fst snd set_clock clock List.length];
        now rewrite Nat.add_succ_r.
Qed.

Lemma collect_videos_world (outs : outputs) :
  forall (acc : list (string * list string)) (w : world) t w' videos,
    collect_videos outs acc w = (t, w', Ret videos) ->
    w' = set_clock (clock w + all_lookups outs) w.
Proof.
  induction outs as [|[node_id o] outs IH]; intros acc w t w' videos Hrun.
  - cbn in Hrun. injection Hrun as _ <- _.
    cbn. now rewrite Nat.add_0_r, set_clock_same.
  - cbn [collect_videos] in Hrun. unfold bind in Hrun.
    change (all_lookups ((node_id, o) :: outs))
      with (lookups o + all_lookups outs)%nat.
    unfold lookups. destruct (gifs o) as [vs|].
    + pose proof (existing_videos_world vs [] w) as Hw.
      destruct (existing_videos vs [] w) as [[t1 w1] [a| |]];
        try discriminate.
      unfold world_of in Hw. cbn [fst snd] in Hw. subst w1.
      destruct (collect_videos outs _ _) as [[t2 w2] r2] eqn:Hrest.
      injection Hrun as _ <- ->.
      rewrite (IH _ _ _ _ _ Hrest). cbn [set_clock clock].
      now rewrite Nat.add_assoc.
    + cbn [ret] in Hrun.
      destruct (collect_videos outs _ _) as [[t2 w2] r2] eqn:Hrest.
      injection Hrun as _ <- ->.
      rewrite (IH _ _ _ _ _ Hrest). reflexivity.
Qed.

(** C7 - The videos are those of the entry of the job in the history
    that the server returns: they are collected node by node in the
    order of that entry, a reference being kept exactly when its file
    exists at the time it is looked up (one lookup per reference, the
    clock being the only thing that moves); [get_videos] returns them
    once the completion frame has been read; the result is the first
    path of the first node that kept one (the first of all the paths
    kept); when no node kept any, the handler returns the error "No
    output video found", which is a returned result and not the error
    of a missing file. *)
Theorem first_existing_video_wins (w : world) (outs : outputs) :
  NoDup (map fst outs) ->
  let videos := collected (exists_at w) (clock w) outs in
  let w' := set_clock (clock w + all_lookups outs) w in
  (exists t, collect_videos outs [] w = (t, w', Ret videos)
     /\ forall prompt_id histories,
          history_reply w prompt_id = inr histories ->
          find (fun kv => String.eqb prompt_id (fst kv)) histories
          = Some (prompt_id, outs) ->
          collect_history prompt_id w
          = (HttpGet (history_url prompt_id) :: t, w', Ret videos)
          /\ forall prompt client_id w0 pre last post,
               queue_reply w0 = inr prompt_id ->
               inbox w0 = pre ++ last :: post ->
               Forall (fun out => passed prompt_id out = true) pre ->
               completes prompt_id last = true ->
               set_inbox post w0 = w ->
               let seen :=
                 submitted prompt client_id ++ received pre
                   ++ [WsRecv; Log INFO "Workflow completed"]
                   ++ HttpGet (history_url prompt_id) :: t in
               get_videos prompt client_id w0 = (seen, w', Ret videos)
               /\ match first_video videos with
                  | None =>
                      run_workflow prompt client_id w0 =
                        (seen ++ [WsClose; Log INFO "WebSocket closed"], w',
                         Ret (error "No output video found"))
                  | Some path =>
                      path <> "" ->
                      if exists_at w (clock w') path
                      then forall data,
                             read_base64 w path = inr data ->
                             outcome_of (run_workflow prompt client_id w0) =
                               Ret [("video", JStr data)]
                      else outcome_of (run_workflow prompt client_id w0) =
                             Ret (error ("Output video file not found: "
                                         ++ path))
                  end)
  /\ map fst videos = map fst outs
  /\ first_video videos = hd_error (List.concat (map snd videos))
  /\ (forall prompt client_id w0 t w1,
         get_videos prompt client_id w0 = (t, w1, Ret videos) ->
         match first_video videos with
         | None =>
             run_workflow prompt client_id w0 =
               (t ++ [WsClose; Log INFO "WebSocket closed"], w1,
                Ret (error "No output video found"))
         | Some path =>
             path <> "" ->
             exists_at w1 (clock w1) path = true ->
             forall data,
               read_base64 w1 path = inr data ->
               outcome_of (run_workflow prompt client_id w0) =
                 Ret [("video", JStr data)]
         end)
  /\ (forall path,
         error "No output video found"
         <> error ("Output video file not found: " ++ path)).
Proof.
  intros Hnd videos w'.
  assert (Hflow : forall prompt client_id w0 t w1,
             get_videos prompt client_id w0 = (t, w1, Ret videos) ->
             match first_video videos with
             | None =>
                 run_workflow prompt client_id w0 =
                   (t ++ [WsClose; Log INFO "WebSocket closed"], w1,
                    Ret (error "No output video found"))
             | Some path =>
                 path <> "" ->
                 if exists_at w1 (clock w1) path
                 then forall data,
                        read_base64 w1 path = inr data ->
                        outcome_of (run_workflow prompt client_id w0) =
                          Ret [("video", JStr data)]
                 else outcome_of (run_workflow prompt client_id w0) =
                        Ret (error ("Output video file not found: " ++ path))
             end).
  { intros prompt client_id w0 t w1 Hget. unfold run_workflow.
    rewrite (bind_run _ _ _ _ _ _ Hget).
    destruct (first_video videos) as [path|]; [|reflexivity].
    intros Hne.
    destruct (String.eqb_spec path "") as [->|_]; [contradiction|].
    unfold os_path_exists, try_except, try_catch, bind, emit, get_world,
      put_world, lift, log, ret.
    cbn. destruct (exists_at w1 (clock w1) path); cbn; [|reflexivity].
    intros data Hread. now rewrite Hread. }
  split; [|repeat split].
  - destruct (collect_videos_spec outs [] w Hnd) as (t & w1 & Hrun).
    cbn [app] in Hrun. fold videos in Hrun.
    rewrite (collect_videos_world _ _ _ _ _ _ Hrun) in Hrun. fold w' in Hrun.
    exists t. split; [exact Hrun|].
    intros prompt_id histories Hreply Hfind.
    assert (Hhist : collect_history prompt_id w
                    = (HttpGet (history_url prompt_id) :: t, w', Ret videos)).
    { unfold collect_history, get_history, bind, emit, get_world, lift.
      rewrite Hreply. cbn [ret]. rewrite Hfind. cbn [ret snd].
      fold (history_url prompt_id). now rewrite Hrun. }
    split; [exact Hhist|].
    intros prompt client_id w0 pre last post Hq Hin Hpre Hlast Hw seen.
    assert (Hget : get_videos prompt client_id w0 = (seen, w', Ret videos)).
    { unfold get_videos, bind at 1.
      rewrite (queue_prompt_accepted prompt client_id prompt_id w0 Hq).
      unfold bind at 1. cbn [log emit].
      unfold bind at 1, get_world. unfold bind at 1.
      rewrite Hin, (recv_loop_stops prompt_id pre last post w0 Hpre Hlast).
      rewrite Hw, Hhist. subst seen. cbn [app]. now rewrite <- app_assoc. }
    split; [exact Hget|].
    exact (Hflow prompt client_id w0 seen w' Hget).
  - apply collected_keys.
  - apply first_video_concat.
  - intros prompt client_id w0 t w1 Hget.
    specialize (Hflow prompt client_id w0 t w1 Hget).
    destruct (first_video videos) as [path|]; [|exact Hflow].
    intros Hne Hex data Hread. specialize (Hflow Hne).
    rewrite Hex in Hflow. exact (Hflow data Hread).
  - intros path. discriminate.
Qed.

Lemma three_nodes_NoDup : NoDup (map fst three_nodes).
Proof.
  cbn. repeat constructor; cbn; intuition discriminate.
Defined.

(** The job "job-1" with its three nodes in the history: none, one
    whose file is gone, one with two files.  The history is read after
    the completion frame, with one lookup per reference; the first
    file of the third node is the result, and it is returned
    encoded. *)
Lemma first_existing_video_wins_witness :
  let w := set_inbox [progress JNull "job-1"] three_node_job in
  let videos := [("9", []); ("131", []);
                 ("140", ["/out/a.mp4"; "/out/b.mp4"])] in
  let t := [PathExists "/out/gone.mp4";
            PathExists "/out/a.mp4"; Log INFO "Video found: ";
            PathExists "/out/b.mp4"; Log INFO "Video found: "] in
  collect_history "job-1" w
  = (HttpGet (history_url "job-1") :: t, set_clock 3 w, Ret videos)
  /\ get_videos template "c1" three_node_job
     = (submitted template "c1"
          ++ [WsRecv; WsRecv; WsRecv; WsRecv; Log INFO "Executing node: "]
          ++ [WsRecv; Log INFO "Workflow completed"]
          ++ HttpGet (history_url "job-1") :: t,
        set_clock 3 w, Ret videos)
  /\ first_video videos = Some "/out/a.mp4"
  /\ outcome_of (run_workflow template "c1" three_node_job)
     = Ret [("video", JStr "AAAA")].
Proof.
  intros w videos t.
  destruct (first_existing_video_wins w three_nodes three_nodes_NoDup)
    as ((t' & Hrun & Hhist) & _).
  assert (Hlooked : collect_videos three_nodes [] w
                    = (t, set_clock 3 w, Ret videos))
    by (vm_compute; reflexivity).
  rewrite Hlooked in Hrun. injection Hrun as <-.
  destruct (Hhist "job-1" _ eq_refl eq_refl) as (Hcollect & Hget).
  split; [exact Hcollect|].
  destruct (Hget template "c1" three_node_job
              [Binary; Text (Some (JObj [("type", JStr "status")]));
               progress JNull "job-0"; progress (JStr "128") "job-1"]
              (progress JNull "job-1") [progress JNull "job-1"]
              eq_refl eq_refl quiet_world_passed eq_refl eq_refl)
    as (Hvideos & Hresult).
  split; [exact Hvideos|].
  split; [reflexivity|].
  refine (Hresult _ "AAAA" eq_refl). discriminate.
Defined.

End ResultArtifact.

(* ================================================================== *)
(** ** The injector: the frame count *)
(* ================================================================== *)

Section FrameCount.
Import Handler HandlerSpec.

Lemma shiftl_floor (m : positive) (e : Z) :
  Z.shiftl (Zpos m) e = Qfloor (inject_Z (Zpos m) * 2 ^ e).
Proof.
  destruct e as [|p|p].
  - cbn [Qpower]. rewrite Z.shiftl_0_r.
    rewrite (Qfloor_comp _ (inject_Z (Zpos m))) by ring.
    now rewrite Qfloor_Z.
  - rewrite Z.shiftl_mul_pow2 by lia.
    rewrite (Qfloor_comp _ (inject_Z (Zpos m * 2 ^ Zpos p))).
    + now rewrite Qfloor_Z.
    + rewrite inject_Z_mult, Zpower_Qpower by lia. reflexivity.
  - change (Zneg p) with (- Zpos p). rewrite Z.shiftl_opp_r.
    rewrite Z.shiftr_div_pow2 by lia.
    rewrite <- Pos2Z.inj_pow.
    rewrite (Qfloor_comp _ (Zpos m # (2 ^ p))).
    + reflexivity.
    + rewrite (Qmake_Qdiv (Zpos m) (2 ^ p)), Pos2Z.inj_pow.
      rewrite Zpower_Qpower by lia. unfold Qdiv.
      rewrite Qpower_opp. reflexivity.
Qed.

(** On a finite number that is not negative [int] is the floor. *)
Lemma int_of_float_floor (x : float) :
  finite_nonneg x = true ->
  int_of_float x = inr (Qfloor (float_value x)).
Proof.
  destruct x as [s|s| |[|] m e]; try discriminate; intros _.
  - reflexivity.
  - cbn [int_of_float float_value cond_Zopp]. now rewrite shiftl_floor.
Qed.

Lemma fps_default_value : float_value fps_default == 25.
Proof. reflexivity. Qed.

Lemma calculate_with_duration (w : world) (wav_path : json) (d : float) :
  get_duration w wav_path = inr d ->
  finite_nonneg (times_fps d) = true ->
  calculate_max_frames_from_audio wav_path fps_default w =
    ([AudioDuration wav_path; Log INFO "Audio duration: "], w,
     Ret (Qfloor (float_value (times_fps d)) + 81)).
Proof.
  intros Hd Hfin.
  unfold calculate_max_frames_from_audio, get_audio_duration, try_except,
    try_catch, bind, emit, get_world, lift, log.
  rewrite Hd. cbn [ret raise fst snd app].
  fold (times_fps d). now rewrite (int_of_float_floor _ Hfin).
Qed.

Lemma calculate_without_duration (w : world) (wav_path : json) (e : exn) :
  get_duration w wav_path = inl e ->
  is_Exception e = true ->
  calculate_max_frames_from_audio wav_path fps_default w =
    ([AudioDuration wav_path; Log WARNING "Could not get audio duration ";
      Log WARNING "Could not calculate audio duration. Using default 81."],
     w, Ret 81).
Proof.
  intros Hd He.
  unfold calculate_max_frames_from_audio, get_audio_duration, try_except,
    try_catch, bind, emit, get_world, lift, log.
  rewrite Hd. cbn [ret raise fst snd app]. now rewrite He.
Qed.

(** C4 - When the request has no frame count ([max_frame] absent or
    null) the handler derives it from the audio.  If the duration [d]
    is determined, and [d * 25] (the binary64 product) is finite and not
    negative, the count is [floor (d * 25) + 81]; if the duration cannot
    be determined (librosa raises), the count is 81.  In both cases
    this count is the one the handler goes on with. *)
Theorem frame_count_from_audio
  (w : world) (inputs : dict) (client_id : string) (image_path wav_path : json) :
  is_None (dict_get_default "max_frame" JNull inputs) = true ->
  (forall d,
      get_duration w wav_path = inr d ->
      finite_nonneg (times_fps d) = true ->
      calculate_max_frames_from_audio wav_path fps_default w =
        ([AudioDuration wav_path; Log INFO "Audio duration: "], w,
         Ret (Qfloor (float_value (times_fps d)) + 81))
      /\ prepare_and_run inputs client_id image_path wav_path w =
         (let '(t, w', r) :=
            inject_and_run inputs client_id image_path wav_path
              (JInt (Qfloor (float_value (times_fps d)) + 81)) w in
          (AudioDuration wav_path :: Log INFO "Audio duration: " :: t, w', r)))
  /\
  (forall e,
      get_duration w wav_path = inl e ->
      is_Exception e = true ->
      calculate_max_frames_from_audio wav_path fps_default w =
        ([AudioDuration wav_path; Log WARNING "Could not get audio duration ";
          Log WARNING "Could not calculate audio duration. Using default 81."],
         w, Ret 81)
      /\ prepare_and_run inputs client_id image_path wav_path w =
         (let '(t, w', r) :=
            inject_and_run inputs client_id image_path wav_path (JInt 81) w in
          (AudioDuration wav_path
             :: Log WARNING "Could not get audio duration "
             :: Log WARNING
                  "Could not calculate audio duration. Using default 81."
             :: t, w', r)))
  /\ float_value fps_default == 25.
Proof.
  intros Hnone. split; [|split].
  - intros d Hd Hfin.
    pose proof (calculate_with_duration w wav_path d Hd Hfin) as Hcalc.
    split; [exact Hcalc|].
    unfold prepare_and_run. rewrite Hnone.
    unfold bind at 1. unfold bind at 1. rewrite Hcalc. cbn [ret].
    destruct (inject_and_run inputs client_id image_path wav_path _ w)
      as [[t w'] r].
    reflexivity.
  - intros e Hd He.
    pose proof (calculate_without_duration w wav_path e Hd He) as Hcalc.
    split; [exact Hcalc|].
    unfold prepare_and_run. rewrite Hnone.
    unfold bind at 1. unfold bind at 1. rewrite Hcalc. cbn [ret].
    destruct (inject_and_run inputs client_id image_path wav_path _ w)
      as [[t w'] r].
    reflexivity.
  - apply fps_default_value.
Qed.

(** 1.5 seconds of audio give [floor 37.5 + 81 = 118] frames; audio
    that cannot be read gives 81. *)
Lemma frame_count_from_audio_witness :
  calculate_max_frames_from_audio (JStr "/a.wav") fps_default quiet_world =
    ([AudioDuration (JStr "/a.wav"); Log INFO "Audio duration: "],
     quiet_world, Ret 118)
  /\ calculate_max_frames_from_audio (JStr "/a.wav") fps_default
       unreadable_audio =
     ([AudioDuration (JStr "/a.wav");
       Log WARNING "Could not get audio duration ";
       Log WARNING "Could not calculate audio duration. Using default 81."],
      unreadable_audio, Ret 81).
Proof.
  split.
  - exact (proj1 (proj1 (frame_count_from_audio quiet_world [] "c1"
                           (JStr "/i.jpg") (JStr "/a.wav") eq_refl)
                    one_and_a_half eq_refl eq_refl)).
  - exact (proj1 (proj1 (proj2 (frame_count_from_audio unreadable_audio []
                                  "c1" (JStr "/i.jpg") (JStr "/a.wav")
                                  eq_refl))
                    (Exception_ "NoBackendError") eq_refl eq_refl)).
Defined.
End FrameCount.

(* ================================================================== *)
(** ** The handler: what a request must carry *)
(* ================================================================== *)

Section Requests.
Import Handler HandlerSpec.

Lemma dict_get_set_other (k k' : string) (v : json) (d : dict) :
  k <> k' -> dict_get k (dict_set k' v d) = dict_get k d.
Proof.
  intros Hne. induction d as [|[k0 v0] d IH]; cbn.
  - destruct (String.eqb_spec k k'); [contradiction|reflexivity].
  - destruct (String.eqb_spec k' k0) as [->|_]; cbn.
    + destruct (String.eqb_spec k k0); [contradiction|reflexivity].
    + now rewrite IH.
Qed.

Lemma truncate_text (s : string) :
  exists v, truncate_base64_for_log (JStr s) = inr v.
Proof.
  unfold truncate_base64_for_log.
  destruct (negb (truthy (JStr s))); [eexists; reflexivity|].
  destruct (String.length s <=? 50)%nat; eexists; reflexivity.
Qed.

(** Logging a request whose inline payloads are text does not raise. *)
Lemma log_input_text (inputs : dict) :
  inline_text inputs = true ->
  exists d, log_input ["image_base64"; "wav_base64"] inputs = inr d.
Proof.
  unfold inline_text. cbn [forallb]. rewrite andb_true_r.
  intros H. apply andb_prop in H. destruct H as [Himg Hwav].
  cbn [log_input]. rewrite !dict_mem_get. unfold dict_get_default.
  destruct (dict_get "image_base64" inputs) as [[| | | |s| |]|] eqn:Hi;
    try discriminate.
  - destruct (truncate_text s) as [v ->].
    rewrite dict_get_set_other by discriminate.
    destruct (dict_get "wav_base64" inputs) as [[| | | |s'| |]|];
      try discriminate.
    + destruct (truncate_text s') as [v' ->].
      destruct (dict_mem _ _); eexists; reflexivity.
    + destruct (dict_mem _ _); eexists; reflexivity.
  - destruct (dict_get "wav_base64" inputs) as [[| | | |s'| |]|];
      try discriminate.
    + destruct (truncate_text s') as [v' ->]. eexists; reflexivity.
    + eexists; reflexivity.
Qed.

(** The handler up to the point where it looks at the request. *)
Lemma process_enters (inputs : dict) (w : world) :
  inline_text inputs = true ->
  process_infinitetalk inputs w =
    (let '(t, w', r) :=
       (if negb (for_image inputs)
        then ret (error "Only input_type='image' is supported (I2V_single)")
        else materialise_and_run inputs (client_id_of w) (task_id_of w))
         (identified w) in
     (prelude ++ t, w', r)).
Proof.
  intros Htext. destruct (log_input_text inputs Htext) as [d Hd].
  unfold process_infinitetalk, uuid4, log, bind, emit, get_world, put_world.
  rewrite Hd. fold (for_image inputs).
  cbn [ret lift fst snd app].
  change (set_drawn (S (drawn (set_drawn (S (drawn w)) w)))
            (set_drawn (S (drawn w)) w)) with (identified w).
  change (uuids (set_drawn (S (drawn w)) w)
            (drawn (set_drawn (S (drawn w)) w))) with (uuids w (S (drawn w))).
  fold (client_id_of w). fold (task_id_of w).
  match goal with
  | |- context [(if negb (for_image inputs) then ?a else ?b) ?w0] =>
      destruct ((if negb (for_image inputs) then a else b) w0) as [[t w'] r]
  end.
  reflexivity.
Qed.

Lemma not_image (v : json) : v <> JStr "image" -> eq_str v "image" = false.
Proof.
  intros Hne. destruct v; try reflexivity. cbn.
  destruct (String.eqb_spec s "image") as [->|_]; [contradiction|reflexivity].
Qed.

Lemma lacks_pick_form (kind : string) (inputs : dict) :
  lacks kind inputs = true -> pick_form kind inputs = None.
Proof.
  unfold lacks, pick_form. intros H.
  apply andb_prop in H. destruct H as [H H3].
  apply andb_prop in H. destruct H as [H1 H2].
  apply negb_true_iff in H1, H2, H3. now rewrite H1, H2, H3.
Qed.
End Requests.

Section InputType.
Import Handler HandlerSpec.

(** An explicit "image" and no input type at all are the same request
    to everything that follows the check. *)
Lemma materialise_default_type (inputs : dict) (client_id task_id : string) :
  materialise_and_run (("input_type", JStr "image") :: inputs) client_id task_id
  = materialise_and_run inputs client_id task_id.
Proof. reflexivity. Qed.

(** The payload of the client's video mode asks for "video". *)
Lemma v2v_payload_type (a : Client.args) (cw cw' : Client.world) (t : trace)
  (payload : dict) :
  Client.arg_mode a = Client.v2v ->
  Client.build_payload a cw = (t, cw', Ret payload) ->
  dict_get "input_type" payload = Some (JStr "video").
Proof.
  intros Hmode. unfold Client.build_payload. rewrite Hmode.
  unfold Client.parser_error, Client.sys_exit, Client.print,
    Client.file_to_base64, bind, emit, get_world, lift, ret, raise.
  destruct (Client.video a) as [vid|]; cbn [Client.missing];
    [destruct (String.eqb vid "")|]; try discriminate;
    destruct (Client.force_offload a) as [b|];
    destruct (String.prefix "http" vid);
    destruct (String.prefix "http" (Client.audio a));
    cbn;
    repeat match goal with
           | |- context [Client.file_base64 ?w ?p] =>
               destruct (Client.file_base64 w p); cbn
           end;
    intros [= <- <- <-] || discriminate; reflexivity.
Qed.

(** C6 - A request whose [input_type] is given and is not "image" is
    answered with an error before any input is materialised and before
    the inference server is contacted: the handler has only drawn its
    two identifiers and logged the request.  This is the case of the
    "video" that the client's video mode sends.  When [input_type] is
    absent the request is processed as if it were "image". *)
Theorem unsupported_input_type_is_rejected (w : world) (inputs : dict) :
  inline_text inputs = true ->
  (forall v,
      dict_get "input_type" inputs = Some v ->
      v <> JStr "image" ->
      process_infinitetalk inputs w =
        (prelude, identified w,
         Ret (error "Only input_type='image' is supported (I2V_single)")))
  /\
  (dict_get "input_type" inputs = None ->
   process_infinitetalk inputs w =
     (let '(t, w', r) :=
        materialise_and_run inputs (client_id_of w) (task_id_of w)
          (identified w) in
      (prelude ++ t, w', r))
   /\ process_infinitetalk (("input_type", JStr "image") :: inputs) w
      = process_infinitetalk inputs w)
  /\
  (forall a cw t cw' payload,
      Client.arg_mode a = Client.v2v ->
      Client.build_payload a cw = (t, cw', Ret payload) ->
      dict_get "input_type" payload = Some (JStr "video")).
Proof.
  intros Htext. split; [|split].
  - intros v Hv Hne. rewrite (process_enters inputs w Htext).
    unfold for_image, dict_get_default. rewrite Hv, (not_image v Hne).
    reflexivity.
  - intros Hnone.
    assert (Himage : for_image inputs = true).
    { unfold for_image, dict_get_default. now rewrite Hnone. }
    split.
    + rewrite (process_enters inputs w Htext), Himage. reflexivity.
    + rewrite (process_enters inputs w Htext), Himage.
      rewrite (process_enters (("input_type", JStr "image") :: inputs) w)
        by exact Htext.
      reflexivity.
  - intros a cw t cw' payload. apply v2v_payload_type.
Qed.

(** The request of the client's video mode is refused at once. *)
Lemma unsupported_input_type_is_rejected_witness :
  process_infinitetalk video_request quiet_world =
    (prelude, identified quiet_world,
     Ret (error "Only input_type='image' is supported (I2V_single)")).
Proof.
  apply (proj1 (unsupported_input_type_is_rejected quiet_world video_request
                  eq_refl) (JStr "video") eq_refl).
  discriminate.
Defined.
End InputType.

Section MissingMedia.
Import Handler HandlerSpec.

(** Case analysis on what the world answers. *)
Ltac ask_world :=
  repeat match goal with
         | |- context [makedirs ?w ?d] => destruct (makedirs w d); cbn
         | |- context [write_file ?w ?p] => destruct (write_file w p); cbn
         | |- context [b64decode ?w ?x] => destruct (b64decode w x); cbn
         | |- context [wget ?w ?u ?p] =>
             destruct (wget w u p) as [rc err| |[]]; cbn
         | |- context [(?rc =? 0)%Z] => destruct (rc =? 0)%Z; cbn
         | |- context [is_ValueError ?e] => destruct (is_ValueError e); cbn
         | |- context [is_Exception ?e] => destruct (is_Exception e); cbn
         end.

Ltac run_input :=
  unfold process_input, download_file_from_url, save_base64_to_file,
    run_wget, os_makedirs, write_bytes, abs_join, try_except, try_catch,
    log, bind, emit, get_world, lift, ret, raise.

(** Materialising an input never talks to the inference server. *)
Lemma process_input_no_server (input_data : json)
  (temp_dir output_filename input_type : string) (w : world) :
  existsb contacts_server
    (trace_of (process_input input_data temp_dir output_filename input_type w))
  = false.
Proof.
  run_input.
  destruct (String.eqb input_type "path"); [reflexivity|].
  destruct (String.eqb input_type "url"); cbn.
  - ask_world; reflexivity.
  - destruct (String.eqb input_type "base64"); cbn; [|reflexivity].
    ask_world; reflexivity.
Qed.

(** Only the url form goes to the network. *)
Lemma process_input_no_network (input_data : json)
  (temp_dir output_filename input_type : string) (w : world) :
  input_type <> "url" ->
  existsb is_network
    (trace_of (process_input input_data temp_dir output_filename input_type w))
  = false.
Proof.
  intros Hne. run_input.
  destruct (String.eqb input_type "path"); [reflexivity|].
  destruct (String.eqb_spec input_type "url") as [E|_]; [contradiction|].
  destruct (String.eqb input_type "base64"); cbn; [|reflexivity].
  ask_world; reflexivity.
Qed.

(** C2 (as the code has it) - A request that gives none of the three
    forms of the image is answered with an error at once: the handler
    has only drawn its identifiers and logged the request.  A request
    for an image that gives none of the three forms of the audio is
    answered with the error "Audio input required ..." after the image
    has been materialised: the inference server is not contacted, and
    no network call is made unless the image was given by URL (its
    download comes first, and a failed download raises). *)
Theorem missing_media_is_rejected (w : world) (inputs : dict) :
  inline_text inputs = true ->
  (lacks "image" inputs = true ->
   exists msg,
     process_infinitetalk inputs w = (prelude, identified w, Ret (error msg)))
  /\
  (forall image_data form,
      for_image inputs = true ->
      pick_form "image" inputs = Some (image_data, form) ->
      lacks "wav" inputs = true ->
      process_infinitetalk inputs w =
        (let '(t, w', r) :=
           process_input image_data (task_id_of w) "input_image.jpg" form
             (identified w) in
         (prelude ++ t, w',
          match r with
          | Ret _ =>
              Ret (error
                "Audio input required (wav_path, wav_url, or wav_base64)")
          | Raise e => Raise e
          | OutOfFuel => OutOfFuel
          end))
      /\ existsb contacts_server (trace_of (process_infinitetalk inputs w))
         = false
      /\ (form <> "url" ->
          existsb is_network (trace_of (process_infinitetalk inputs w))
          = false)).
Proof.
  intros Htext. split.
  - intros Hlacks. rewrite (process_enters inputs w Htext).
    destruct (for_image inputs); cbn [negb].
    + unfold materialise_and_run.
      rewrite (lacks_pick_form "image" inputs Hlacks).
      eexists. reflexivity.
    + eexists. reflexivity.
  - intros image_data form Himage Hpick Hlacks.
    assert (Hrun : process_infinitetalk inputs w =
                   (let '(t, w', r) :=
                      process_input image_data (task_id_of w)
                        "input_image.jpg" form (identified w) in
                    (prelude ++ t, w',
                     match r with
                     | Ret _ =>
                         Ret (error
                           "Audio input required (wav_path, wav_url, or wav_base64)")
                     | Raise e => Raise e
                     | OutOfFuel => OutOfFuel
                     end))).
    { rewrite (process_enters inputs w Htext), Himage. cbn [negb].
      unfold materialise_and_run.
      rewrite Hpick, (lacks_pick_form "wav" inputs Hlacks).
      unfold bind.
      destruct (process_input image_data (task_id_of w) "input_image.jpg"
                  form (identified w)) as [[t w'] [p|e|]];
        cbn [ret]; now rewrite ?app_nil_r. }
    split; [exact Hrun|]. rewrite Hrun.
    pose proof (process_input_no_server image_data (task_id_of w)
                  "input_image.jpg" form (identified w)) as Hserver.
    pose proof (process_input_no_network image_data (task_id_of w)
                  "input_image.jpg" form (identified w)) as Hnet.
    destruct (process_input image_data (task_id_of w) "input_image.jpg"
                form (identified w)) as [[t w'] r].
    unfold trace_of in *. cbn [fst snd] in *.
    split.
    + now rewrite existsb_app, Hserver.
    + intros Hform. now rewrite existsb_app, (Hnet Hform).
Qed.

(** An inline image and no audio: the image is decoded and written,
    the error is returned, nothing has gone to the network. *)
Lemma missing_media_is_rejected_witness :
  process_infinitetalk image_inline_only quiet_world =
    (let '(t, w', r) :=
       process_input (JStr "aGVsbG8=") (task_id_of quiet_world)
         "input_image.jpg" "base64" (identified quiet_world) in
     (prelude ++ t, w',
      match r with
      | Ret _ =>
          Ret (error "Audio input required (wav_path, wav_url, or wav_base64)")
      | Raise e => Raise e
      | OutOfFuel => OutOfFuel
      end))
  /\ existsb is_network (trace_of (process_infinitetalk image_inline_only
                                     quiet_world)) = false.
Proof.
  destruct (proj2 (missing_media_is_rejected quiet_world image_inline_only
                     eq_refl)
              (JStr "aGVsbG8=") "base64" eq_refl eq_refl eq_refl)
    as (Hrun & _ & Hnet).
  split; [exact Hrun|].
  apply Hnet. discriminate.
Defined.

(** C2 (as stated) fails: a request with the image given by URL and no
    audio is answered with the audio error only after the image has
    been downloaded; and when that download fails the handler raises
    instead of returning an error. *)
Lemma audio_checked_after_image_download :
  lacks "wav" image_url_only = true
  /\ process_infinitetalk image_url_only quiet_world =
     ([Uuid4; Uuid4; Log INFO "Received input: "; Log INFO "URL input: ";
       Makedirs "task_t1";
       Wget (JStr "http://host/face.jpg") "/app/task_t1/input_image.jpg";
       Log INFO "Downloaded file from URL: "],
      identified quiet_world,
      Ret (error "Audio input required (wav_path, wav_url, or wav_base64)"))
  /\ existsb is_network (trace_of (process_infinitetalk image_url_only
                                     quiet_world)) = true
  /\ outcome_of (process_infinitetalk image_url_only unreachable_host) =
     Raise (Exception_
              "Download error: URL download failed: Network failure").
Proof. repeat split. Qed.
End MissingMedia.

(* ================================================================== *)
(** ** Scenarios and boundary cases *)
(* ================================================================== *)

Section Scenarios.
Import Handler HandlerSpec.

(** A whole run: the image by path, the audio by URL, 1.5 seconds of
    audio.  The graph that is submitted carries the two files, the
    prompt, the default size, 118 frames and the offload flag; the
    video of node 131 comes back encoded. *)
Lemma whole_run :
  let request := [("image_path", JStr "/data/face.jpg");
                  ("wav_url", JStr "http://host/voice.wav");
                  ("prompt", JStr "hello")] in
  let run := process_infinitetalk request quiet_world in
  outcome_of run = Ret [("video", JStr "AAAA")]
  /\ In (HttpPost "http://127.0.0.1:8188/prompt"
           (JObj [("prompt",
                   JObj [("125", value_node "LoadAudio" "audio"
                                   (JStr "/app/task_t1/input_audio.wav"));
                         ("128", sampler_node [("steps", JInt 4);
                                               ("force_offload", JBool true)]);
                         ("241", value_node "TextEncode" "positive_prompt"
                                   (JStr "hello"));
                         ("245", value_node "INTConstant" "value" (JInt 512));
                         ("246", value_node "INTConstant" "value" (JInt 512));
                         ("270", value_node "INTConstant" "value" (JInt 118));
                         ("284", value_node "LoadImage" "image"
                                   (JStr "/data/face.jpg"))]);
                  ("client_id", JStr "c1")]))
        (trace_of run)
  /\ inbox (world_of run) = [progress JNull "job-1"].
Proof.
  cbv zeta. split; [reflexivity|]. split; [|reflexivity].
  vm_compute. do 20 right. left. reflexivity.
Qed.

(** The product [d * 25] is the rounded one: for the duration just
    below 1.64 seconds it is 41.0 exactly, so the count is 41 + 81,
    where the exact product has floor 40. *)
Lemma product_is_rounded :
  let d := S754_finite false 7385903388887613 (-52) in
  int_of_float (times_fps d) = inr 41
  /\ Qfloor (float_value d * 25) = 40.
Proof. split; reflexivity. Qed.

(** An inline payload that is not text makes the logging of the request
    raise, before anything is checked. *)
Lemma payload_that_is_not_text :
  outcome_of (process_infinitetalk
                [("input_type", JStr "video"); ("image_base64", JInt 7)]
                quiet_world)
  = Raise TypeError.
Proof. reflexivity. Qed.

(** A text frame that is not JSON ends the wait with an exception. *)
Lemma frame_that_is_not_json :
  outcome_of (recv_loop "job-1" [Text None; progress JNull "job-1"] quiet_world)
  = Raise JSONDecodeError.
Proof. reflexivity. Qed.

(** A sampler whose identifier is the empty string is found by the
    search and then taken for none: [if sampler_node_id:] is false. *)
Lemma sampler_with_empty_identifier :
  find_sampler [("", sampler_node [])] = inr (Some "")
  /\ inject_force_offload [] [("", sampler_node [])] quiet_world
     = not_injected [("", sampler_node [])] quiet_world.
Proof. split; reflexivity. Qed.
End Scenarios.

(* ================================================================== *)
(** ** The materialiser: downloads, inline payloads, paths *)
(* ================================================================== *)

Section Materialiser.
Import Handler HandlerSpec MoreSpec.

(** X1 - [download_file_from_url] makes one call of wget and returns
    the destination only when wget exits with 0.  Every failure comes
    out as an [Exception] with a "Download ..." message: a non-zero
    exit is wrapped twice ("Download error: URL download failed:
    <stderr>"), because the exception raised inside the [try] is caught
    by its own [except Exception]; a timeout gives "Download timeout". *)
Theorem download_wraps_every_failure
  (w : world) (url : json) (output_path : string) :
  let run := download_file_from_url url output_path w in
  outcome_of run = download_outcome (wget w url output_path) output_path
  /\ filter is_wget (trace_of run) = [Wget url output_path]
  /\ world_of run = w.
Proof.
  cbv zeta.
  unfold download_file_from_url, run_wget, try_except, try_catch, log, bind,
    emit, get_world, ret, raise, download_outcome, trace_of, outcome_of,
    world_of.
  destruct (wget w url output_path) as [rc err| |e]; cbn.
  - destruct (rc =? 0); cbn; repeat split.
  - repeat split.
  - destruct e; cbn; repeat split.
Qed.

(** X2 - [save_base64_to_file]: a payload that does not decode raises
    "Base64 decode failed: ..." before any directory or file is made;
    an error of another class (a payload that is not a string) passes
    through unwrapped; a payload that decodes is written once, to
    [abspath(temp_dir/output_filename)], and that path is returned. *)
Theorem save_base64_writes_after_decoding
  (w : world) (base64_data : json) (temp_dir output_filename : string) :
  let run := save_base64_to_file base64_data temp_dir output_filename w in
  let file_path := abspath w (temp_dir ++ "/" ++ output_filename)%string in
  (forall e,
      b64decode w base64_data = inl e ->
      run = if is_ValueError e
            then ([Log ERROR "Base64 decode failed: "], w,
                  Raise (Exception_
                           ("Base64 decode failed: " ++ exn_text e)%string))
            else ([], w, Raise e))
  /\
  (forall bytes,
      b64decode w base64_data = inr bytes ->
      makedirs w temp_dir = None ->
      write_file w file_path = None ->
      run = ([Makedirs temp_dir; WriteFile file_path;
              Log INFO "Saved base64 input to "], w, Ret (JStr file_path))).
Proof.
  cbv zeta.
  unfold save_base64_to_file, os_makedirs, write_bytes, abs_join, try_catch,
    log, bind, emit, get_world, lift, ret, raise.
  split.
  - intros e He. rewrite He. cbn. now destruct (is_ValueError e).
  - intros bytes Hb Hm Hw. rewrite Hb. cbn -[String.append].
    rewrite Hm. cbn -[String.append]. now rewrite Hw.
Qed.

(** An inline payload that is not base64, and one that is. *)
Lemma save_base64_writes_after_decoding_witness :
  save_base64_to_file (JStr "%%%") "task_t1" "input_image.jpg" bad_payload
  = ([Log ERROR "Base64 decode failed: "], bad_payload,
     Raise (Exception_ "Base64 decode failed: BinasciiError"))
  /\ save_base64_to_file (JStr "aGVsbG8=") "task_t1" "input_image.jpg"
       quiet_world
     = ([Makedirs "task_t1"; WriteFile "/app/task_t1/input_image.jpg";
         Log INFO "Saved base64 input to "], quiet_world,
        Ret (JStr "/app/task_t1/input_image.jpg")).
Proof.
  split.
  - exact (proj1 (save_base64_writes_after_decoding bad_payload (JStr "%%%")
                    "task_t1" "input_image.jpg") BinasciiError eq_refl).
  - exact (proj2 (save_base64_writes_after_decoding quiet_world
                    (JStr "aGVsbG8=") "task_t1" "input_image.jpg")
             "bytes" eq_refl eq_refl eq_refl).
Defined.

(** X3 - [process_input]: a path is handed back as it is, with no file
    or network effect; a url or an inline payload, when it is
    materialised, ends in the same place, the file
    [abspath(temp_dir/output_filename)] of the job's own directory,
    which has been created; any other form raises "Unsupported input
    type: ...". *)
Theorem process_input_destination
  (w : world) (input_data : json) (temp_dir output_filename : string) :
  process_input input_data temp_dir output_filename "path" w
  = ([Log INFO "Path input: "], w, Ret input_data)
  /\
  (forall form t w' p,
      form = "url" \/ form = "base64" ->
      process_input input_data temp_dir output_filename form w
      = (t, w', Ret p) ->
      p = JStr (abspath w (temp_dir ++ "/" ++ output_filename)%string)
      /\ In (Makedirs temp_dir) t
      /\ w' = w)
  /\
  (forall form,
      form <> "path" -> form <> "url" -> form <> "base64" ->
      process_input input_data temp_dir output_filename form w
      = ([], w, Raise (Exception_ ("Unsupported input type: " ++ form)%string))).
Proof.
  split; [reflexivity|]. split.
  - intros form t w' p [-> | ->]; cbn [process_input String.eqb Ascii.eqb
                                       Bool.eqb].
    + unfold download_file_from_url, run_wget, os_makedirs, abs_join,
        try_except, try_catch, log, bind, emit, get_world, ret, raise.
      destruct (makedirs w temp_dir); cbn; [discriminate|].
      destruct (wget w input_data _) as [rc err| |e]; cbn.
      * destruct (rc =? 0); cbn; [|discriminate].
        intros [= <- <- <-]. repeat split. cbn. auto.
      * discriminate.
      * destruct e; cbn; discriminate.
    + unfold save_base64_to_file, os_makedirs, write_bytes, abs_join,
        try_catch, log, bind, emit, get_world, lift, ret, raise.
      destruct (b64decode w input_data) as [e|bytes]; cbn.
      * destruct (is_ValueError e); cbn; discriminate.
      * destruct (makedirs w temp_dir) as [e|]; cbn.
        -- destruct (is_ValueError e); cbn; discriminate.
        -- destruct (write_file w _) as [e|]; cbn.
           ++ destruct (is_ValueError e); cbn; discriminate.
           ++ intros [= <- <- <-]. repeat split. cbn. auto.
  - intros form H1 H2 H3. unfold process_input.
    destruct (String.eqb_spec form "path"); [contradiction|].
    destruct (String.eqb_spec form "url"); [contradiction|].
    destruct (String.eqb_spec form "base64"); [contradiction|].
    reflexivity.
Qed.

(** A download into the job's directory. *)
Lemma process_input_destination_witness :
  JStr "/app/task_t1/input_audio.wav"
  = JStr (abspath quiet_world ("task_t1" ++ "/" ++ "input_audio.wav")%string)
  /\ In (Makedirs "task_t1")
        [Log INFO "URL input: "; Makedirs "task_t1";
         Wget (JStr "http://host/voice.wav") "/app/task_t1/input_audio.wav";
         Log INFO "Downloaded file from URL: "].
Proof.
  destruct (proj1 (proj2 (process_input_destination quiet_world
                            (JStr "http://host/voice.wav") "task_t1"
                            "input_audio.wav"))
              "url" _ _ _ (or_introl eq_refl) eq_refl) as (Hp & Hin & _).
  split; [exact Hp | exact Hin].
Defined.
End Materialiser.

(* ================================================================== *)
(** ** The monitor: failures of the submission and of the history *)
(* ================================================================== *)

Section MonitorFailures.
Import Handler HandlerSpec MoreSpec.

(** X4 - When the submission of the graph fails, [get_videos] logs the
    failure (two lines for an HTTP error, one otherwise) and raises the
    very exception of the request; the graph has been posted once, and
    nothing is read from the channel and no history is requested. *)
Theorem failed_submission_is_reraised
  (w : world) (prompt : dict) (client_id : string) (e : exn) :
  queue_reply w = inl e ->
  is_Exception e = true ->
  let run := get_videos prompt client_id w in
  outcome_of run = Raise e
  /\ world_of run = w
  /\ filter is_post (trace_of run)
     = [HttpPost ("http://" ++ SERVER_ADDRESS ++ ":8188/prompt")
          (JObj [("prompt", JObj prompt); ("client_id", JStr client_id)])]
  /\ existsb is_recv (trace_of run) = false
  /\ existsb is_get (trace_of run) = false
  /\ List.length (filter (fun ev => match ev with
                                    | Log ERROR _ => true
                                    | _ => false
                                    end) (trace_of run))
     = match e with HTTPError _ => 2%nat | _ => 1%nat end.
Proof.
  intros Hq He. cbv zeta.
  unfold get_videos, queue_prompt, try_except, try_catch, log, bind, emit,
    get_world, lift, ret, raise, trace_of, outcome_of, world_of.
  rewrite Hq. cbn. rewrite He.
  destruct e; cbn; repeat split.
Qed.

Lemma failed_submission_is_reraised_witness :
  outcome_of (get_videos template "c1" rejecting_server)
  = Raise (HTTPError 400)
  /\ existsb is_recv (trace_of (get_videos template "c1" rejecting_server))
     = false.
Proof.
  destruct (failed_submission_is_reraised rejecting_server template "c1"
              (HTTPError 400) eq_refl eq_refl) as (Ho & _ & _ & Hr & _).
  split; [exact Ho | exact Hr].
Defined.

(** X5 - [get_history(prompt_id)[prompt_id]]: when the reply of the
    server has no entry for the job, [KeyError] is raised; when the
    request itself fails, its exception is raised.  In both cases one
    GET has been made and no file has been looked up. *)
Theorem history_without_the_job (w : world) (prompt_id : string) :
  let run := collect_history prompt_id w in
  (forall histories,
      history_reply w prompt_id = inr histories ->
      ~ In prompt_id (map fst histories) ->
      run = ([HttpGet (history_url prompt_id)], w, Raise (KeyError prompt_id)))
  /\
  (forall e,
      history_reply w prompt_id = inl e ->
      run = ([HttpGet (history_url prompt_id)], w, Raise e)).
Proof.
  cbv zeta.
  unfold collect_history, get_history, bind, emit, get_world, lift, ret, raise.
  fold (history_url prompt_id). split.
  - intros histories Hh Hnot. rewrite Hh. cbn.
    destruct (find (fun kv => (prompt_id =? fst kv)%string) histories)
      as [[k v]|] eqn:Hfind; [|reflexivity].
    exfalso. apply Hnot. apply find_some in Hfind. destruct Hfind as [Hin Hk].
    cbn in Hk. apply String.eqb_eq in Hk. subst k.
    change prompt_id with (fst (prompt_id, v)). now apply in_map.
  - intros e Hh. now rewrite Hh.
Qed.

Lemma history_without_the_job_witness :
  collect_history "job-1" forgetful_server
  = ([HttpGet (history_url "job-1")], forgetful_server,
     Raise (KeyError "job-1")).
Proof.
  apply (proj1 (history_without_the_job forgetful_server "job-1")
           [("job-0", [])] eq_refl).
  cbn. intros [H|[]]. discriminate.
Defined.
End MonitorFailures.

(* ================================================================== *)
(** ** The injector: writing into the graph *)
(* ================================================================== *)

Section GraphWrites.
Import Handler HandlerSpec MoreSpec.

Lemma dict_get_set_same (k : string) (v : json) (d : dict) :
  dict_get k (dict_set k v d) = Some v.
Proof.
  induction d as [|[k0 v0] d IH]; cbn.
  - now rewrite String.eqb_refl.
  - destruct (String.eqb_spec k k0) as [->|Hne]; cbn.
    + now rewrite String.eqb_refl.
    + destruct (String.eqb_spec k k0); [contradiction|exact IH].
Qed.

Lemma keys_dict_set_present (k : string) (v x : json) (d : dict) :
  dict_get k d = Some x -> keys (dict_set k v d) = keys d.
Proof.
  induction d as [|[k0 v0] d IH]; cbn; [discriminate|].
  destruct (String.eqb_spec k k0) as [->|_]; cbn; [reflexivity|].
  intros H. unfold keys in IH. now rewrite IH.
Qed.

(** Writing [inputs'] as the "inputs" of the node [node_id]. *)
Lemma rewritten_inputs (prompt node : dict) (node_id field : string)
  (value : json) (old new : dict) :
  dict_get node_id prompt = Some (JObj node) ->
  (forall f', f' <> field -> dict_get f' new = dict_get f' old) ->
  dict_get field new = Some value ->
  (forall f', dict_get f' old
              = match dict_get "inputs" node with
                | Some (JObj i) => dict_get f' i
                | _ => None
                end) ->
  let prompt' :=
    dict_set node_id (JObj (dict_set "inputs" (JObj new) node)) prompt in
  input_of prompt' node_id field = Some value
  /\ (forall id' f',
         id' <> node_id \/ f' <> field ->
         input_of prompt' id' f' = input_of prompt id' f')
  /\ (forall id' key,
         key <> "inputs" -> field_of prompt' id' key = field_of prompt id' key)
  /\ keys prompt' = keys prompt.
Proof.
  intros Hnode Hother Hfield Hold prompt'. subst prompt'.
  unfold input_of, field_of. repeat split.
  - now rewrite !dict_get_set_same.
  - intros id' f' Hne.
    destruct (String.eqb_spec id' node_id) as [->|Hid].
    + destruct Hne as [Hne|Hne]; [contradiction|].
      rewrite !dict_get_set_same, Hnode, (Hother f' Hne). apply Hold.
    + now rewrite (dict_get_set_other id' node_id) by exact Hid.
  - intros id' key Hkey.
    destruct (String.eqb_spec id' node_id) as [->|Hid].
    + rewrite dict_get_set_same, Hnode. now apply dict_get_set_other.
    + now rewrite (dict_get_set_other id' node_id) by exact Hid.
  - now apply keys_dict_set_present with (x := JObj node).
Qed.

(** X6 - [prompt[node_id]["inputs"][field] = value]: afterwards the
    field reads back the value; every other input of every node, every
    other key of every node (its class among them) and the order of the
    identifiers are as before.  A graph without the node raises
    [KeyError] on its identifier, a node without "inputs" raises
    [KeyError] on "inputs". *)
Theorem set_input_writes_one_field
  (prompt : dict) (node_id field : string) (value : json) :
  (forall prompt',
      set_input prompt node_id field value = inr prompt' ->
      input_of prompt' node_id field = Some value
      /\ (forall id' f',
             id' <> node_id \/ f' <> field ->
             input_of prompt' id' f' = input_of prompt id' f')
      /\ (forall id' key,
             key <> "inputs" ->
             field_of prompt' id' key = field_of prompt id' key)
      /\ keys prompt' = keys prompt)
  /\ (dict_get node_id prompt = None ->
      set_input prompt node_id field value = inl (KeyError node_id))
  /\ (forall node,
         dict_get node_id prompt = Some (JObj node) ->
         dict_get "inputs" node = None ->
         set_input prompt node_id field value = inl (KeyError "inputs")).
Proof.
  unfold set_input, getitem. split; [|split].
  - intros prompt'.
    destruct (dict_get node_id prompt) as [[| | | | | |node]|] eqn:Hnode;
      try discriminate.
    destruct (dict_get "inputs" node) as [[| | | | | |i]|] eqn:Hin;
      try discriminate.
    intros [= <-].
    apply rewritten_inputs with (old := i).
    + exact Hnode.
    + intros f' Hne. now apply dict_get_set_other.
    + apply dict_get_set_same.
    + intros f'. now rewrite Hin.
  - intros H. now rewrite H.
  - intros node Hnode Hin. now rewrite Hnode, Hin.
Qed.

(** The frame count written into node 270 of the template. *)
Lemma set_input_writes_one_field_witness :
  input_of
    [("125", value_node "LoadAudio" "audio" (JStr "default.wav"));
     ("128", sampler_node [("steps", JInt 4)]);
     ("241", value_node "TextEncode" "positive_prompt" (JStr ""));
     ("245", value_node "INTConstant" "value" (JInt 0));
     ("246", value_node "INTConstant" "value" (JInt 0));
     ("270", value_node "INTConstant" "value" (JInt 118));
     ("284", value_node "LoadImage" "image" (JStr "default.jpg"))]
    "270" "value"
  = Some (JInt 118).
Proof.
  exact (proj1 (proj1 (set_input_writes_one_field template "270" "value"
                         (JInt 118)) _ eq_refl)).
Defined.

(** X7 - When a sampler with a non-empty identifier is found and the
    injection returns, the flag the request asked for ([True] when it
    asked for none) reads back from the "inputs" of that node, which
    are created when the node had none; every other input of every
    node, the classes and the order of the identifiers are as in the
    template. *)
Theorem offload_flag_is_written
  (w : world) (inputs prompt : dict) (node_id : string) :
  find_sampler prompt = inr (Some node_id) ->
  node_id <> "" ->
  forall prompt',
    outcome_of (inject_force_offload inputs prompt w) = Ret prompt' ->
    input_of prompt' node_id "force_offload"
    = Some (dict_get_default "force_offload" (JBool true) inputs)
    /\ (forall id' f',
           id' <> node_id \/ f' <> "force_offload" ->
           input_of prompt' id' f' = input_of prompt id' f')
    /\ (forall id' key,
           key <> "inputs" ->
           field_of prompt' id' key = field_of prompt id' key)
    /\ keys prompt' = keys prompt.
Proof.
  intros Hfind Hne prompt'.
  rewrite (inject_selected inputs prompt node_id w Hfind Hne).
  unfold injected_at, setdefault_input.
  destruct (dict_get node_id prompt) as [[| | | | | |node]|] eqn:Hnode;
    try discriminate.
  destruct (dict_get "inputs" node) as [[| | | | | |i]|] eqn:Hin;
    try discriminate.
  - intros [= <-].
    apply rewritten_inputs with (old := i).
    + exact Hnode.
    + intros f' Hf. now apply dict_get_set_other.
    + apply dict_get_set_same.
    + intros f'. now rewrite Hin.
  - intros [= <-].
    apply rewritten_inputs with (old := []).
    + exact Hnode.
    + intros f' Hf. cbn.
      destruct (String.eqb_spec f' "force_offload"); [contradiction|].
      reflexivity.
    + reflexivity.
    + intros f'. now rewrite Hin.
Qed.

(** A request that turns the offload off, on the template. *)
Lemma offload_flag_is_written_witness :
  input_of
    [("125", value_node "LoadAudio" "audio" (JStr "default.wav"));
     ("128", sampler_node [("steps", JInt 4);
                           ("force_offload", JBool false)]);
     ("241", value_node "TextEncode" "positive_prompt" (JStr ""));
     ("245", value_node "INTConstant" "value" (JInt 0));
     ("246", value_node "INTConstant" "value" (JInt 0));
     ("270", value_node "INTConstant" "value" (JInt 0));
     ("284", value_node "LoadImage" "image" (JStr "default.jpg"))]
    "128" "force_offload"
  = Some (dict_get_default "force_offload" (JBool true)
            [("force_offload", JBool false)]).
Proof.
  refine (proj1 (offload_flag_is_written quiet_world
                   [("force_offload", JBool false)] template "128"
                   eq_refl _ _ eq_refl)).
  discriminate.
Defined.

Lemma first_of_class_sound (prompt : dict) :
  (forall node_id,
      first_of_class "WanVideoSampler" prompt = inr (Some node_id) ->
      exists node, In (node_id, node) prompt /\ is_sampler node = true)
  /\ (first_of_class "WanVideoSampler" prompt = inr None ->
      Forall (fun kv => not_sampler (snd kv) = true) prompt).
Proof.
  induction prompt as [|[k v] prompt [IHsome IHnone]]; cbn [first_of_class].
  - split; [discriminate|]. constructor.
  - unfold is_sampler, not_sampler.
    destruct (class_is v "WanVideoSampler") as [e|[|]] eqn:Hc.
    + split; discriminate.
    + split; [|discriminate].
      intros node_id [= <-]. exists v. split; [now left|].
      unfold is_sampler. now rewrite Hc.
    + split.
      * intros node_id H. destruct (IHsome node_id H) as (node & Hin & Hs).
        exists node. split; [now right|exact Hs].
      * intros H. constructor; [cbn; now rewrite Hc|auto].
Qed.

(** X8 - The search is sound and complete: an identifier it returns is
    the identifier of a node of the graph whose class is
    "WanVideoSampler", and when it returns none, every node of the
    graph is an object of another class. *)
Theorem find_sampler_sound (prompt : dict) :
  (forall node_id,
      find_sampler prompt = inr (Some node_id) ->
      exists node, In (node_id, node) prompt /\ is_sampler node = true)
  /\ (find_sampler prompt = inr None ->
      Forall (fun kv => not_sampler (snd kv) = true) prompt).
Proof.
  destruct (first_of_class_sound prompt) as [Hsome Hnone].
  unfold find_sampler, dict_get_default. rewrite dict_mem_get.
  destruct (dict_get preferred_id prompt) as [n|] eqn:Hget;
    [|split; assumption].
  destruct (class_is n "WanVideoSampler") as [e|[|]] eqn:Hc.
  - split; discriminate.
  - split; [|discriminate].
    intros node_id [= <-]. exists n. split.
    + now apply dict_get_entry.
    + unfold is_sampler. now rewrite Hc.
  - split; assumption.
Qed.

Lemma find_sampler_sound_witness :
  exists node, In ("77", node) other_sampler /\ is_sampler node = true.
Proof.
  exact (proj1 (find_sampler_sound other_sampler) "77" eq_refl).
Defined.
End GraphWrites.

(* ================================================================== *)
(** ** The handler: which form of an input is materialised *)
(* ================================================================== *)

Section MediaForms.
Import Handler HandlerSpec MoreSpec.

Lemma dict_get_set (k k' : string) (v : json) (d : dict) :
  dict_get k (dict_set k' v d)
  = if String.eqb k k' then Some v else dict_get k d.
Proof.
  destruct (String.eqb_spec k k') as [->|Hne].
  - apply dict_get_set_same.
  - now apply dict_get_set_other.
Qed.

(** Logging the request raises, or not, by its lookups alone. *)
Lemma log_input_lookups (ks : list string) :
  forall a b : dict,
    (forall k, dict_get k a = dict_get k b) ->
    match log_input ks a, log_input ks b with
    | inl e, inl e' => e = e'
    | inr _, inr _ => True
    | _, _ => False
    end.
Proof.
  induction ks as [|key ks IH]; intros a b Hab; [exact I|].
  cbn [log_input]. rewrite !dict_mem_get. unfold dict_get_default.
  rewrite (Hab key).
  destruct (dict_get key b) as [v|]; [|now apply IH].
  destruct (truncate_base64_for_log v) as [e|v']; [reflexivity|].
  apply IH. intros k. now rewrite !dict_get_set, Hab.
Qed.

(** Requests with the same lookups are the same request to the
    handler. *)
Lemma materialise_lookups (a b : dict) (client_id task_id : string) :
  (forall k, dict_get k a = dict_get k b) ->
  materialise_and_run a client_id task_id
  = materialise_and_run b client_id task_id.
Proof.
  intros Hab.
  cbv beta zeta delta [materialise_and_run pick_form prepare_and_run
                       inject_and_run inject_force_offload dict_get_default].
  rewrite !dict_mem_get. rewrite !Hab. reflexivity.
Qed.
Lemma process_lookups (a b : dict) (w : world) :
  (forall k, dict_get k a = dict_get k b) ->
  process_infinitetalk a w = process_infinitetalk b w.
Proof.
  intros Hab.
  pose proof (log_input_lookups ["image_base64"; "wav_base64"] a b Hab)
    as Hlog.
  unfold process_infinitetalk, uuid4, log, bind, emit, get_world, put_world.
  cbn [ret].
  destruct (log_input _ a) as [e|d], (log_input _ b) as [e'|d'];
    try contradiction.
  - now subst e'.
  - cbn [lift ret]. unfold dict_get_default. rewrite (Hab "input_type").
    now rewrite (materialise_lookups a b _ _ Hab).
Qed.

Lemma designated_pick (kind : string) (inputs : dict) (v : json)
  (form : string) :
  designated kind inputs v form -> pick_form kind inputs = Some (v, form).
Proof.
  intros [v' H1|v' H1 H2|v' H1 H2 H3];
    unfold pick_form, dict_get_default; rewrite !dict_mem_get.
  - now rewrite H1.
  - now rewrite H1, H2.
  - now rewrite H1, H2, H3.
Qed.

Lemma designated_lookups (kind : string) (a b : dict) (v : json)
  (form : string) :
  (forall k, dict_get k a = dict_get k b) ->
  designated kind a v form -> designated kind b v form.
Proof.
  intros Hab [v' H1|v' H1 H2|v' H1 H2 H3]; rewrite Hab in *.
  - now apply designated_path.
  - now apply designated_url.
  - now apply designated_base64.
Qed.

(** C8 - Of the forms of one media kind that a request gives, the one
    that the handler materialises is the path if there is one, else
    the url, else the inline payload, for the image and for the audio
    alike: the handler hands exactly that value, with that form, to
    [process_input], once for the image and once for the audio; a
    request designates at most one form of a kind; and a request with
    the same entries in another order designates the same forms and
    makes the handler do the same. *)
Theorem pick_form_priority (inputs inputs' : dict) :
  NoDup (keys inputs) ->
  Permutation inputs inputs' ->
  (forall w, process_infinitetalk inputs' w = process_infinitetalk inputs w)
  /\ (forall client_id task_id,
         materialise_and_run inputs' client_id task_id
         = materialise_and_run inputs client_id task_id)
  /\ (forall image_data image_form wav_data wav_form,
         designated "image" inputs image_data image_form ->
         designated "wav" inputs wav_data wav_form ->
         (forall client_id task_id,
             materialise_and_run inputs client_id task_id
             = with_forms inputs client_id task_id image_data image_form
                 wav_data wav_form)
         /\ (inline_text inputs = true ->
             for_image inputs = true ->
             forall w,
               process_infinitetalk inputs w =
                 (let '(t, w', r) :=
                    with_forms inputs (client_id_of w) (task_id_of w)
                      image_data image_form wav_data wav_form (identified w)
                  in (prelude ++ t, w', r))
               /\ process_infinitetalk inputs' w
                  = process_infinitetalk inputs w))
  /\ (forall kind v form v' form',
         designated kind inputs v form ->
         designated kind inputs v' form' ->
         v = v' /\ form = form')
  /\ (forall kind v form,
         designated kind inputs v form <-> designated kind inputs' v form)
  /\ (forall kind,
         pick_form kind inputs' = pick_form kind inputs
         /\ (forall v, dict_get (kind ++ "_path") inputs = Some v ->
                       pick_form kind inputs = Some (v, "path"))
         /\ (forall v, dict_get (kind ++ "_path") inputs = None ->
                       dict_get (kind ++ "_url") inputs = Some v ->
                       pick_form kind inputs = Some (v, "url"))
         /\ (forall v, dict_get (kind ++ "_path") inputs = None ->
                       dict_get (kind ++ "_url") inputs = None ->
                       dict_get (kind ++ "_base64") inputs = Some v ->
                       pick_form kind inputs = Some (v, "base64"))
         /\ (dict_get (kind ++ "_path") inputs = None ->
             dict_get (kind ++ "_url") inputs = None ->
             dict_get (kind ++ "_base64") inputs = None ->
             pick_form kind inputs = None)).
Proof.
  intros Hnd Hp.
  pose proof (dict_get_perm inputs inputs' Hp Hnd) as Hsame.
  assert (Hsame' : forall k, dict_get k inputs' = dict_get k inputs)
    by (intros k; symmetry; apply Hsame).
  split; [|split; [|split; [|split; [|split]]]].
  - intros w. now apply process_lookups.
  - intros client_id task_id. now apply materialise_lookups.
  - intros image_data image_form wav_data wav_form Himage Hwav.
    assert (Hrun : forall client_id task_id,
               materialise_and_run inputs client_id task_id
               = with_forms inputs client_id task_id image_data image_form
                   wav_data wav_form).
    { intros client_id task_id. unfold materialise_and_run, with_forms.
      now rewrite (designated_pick _ _ _ _ Himage),
        (designated_pick _ _ _ _ Hwav). }
    split; [exact Hrun|].
    intros Htext Hfor w. split; [|now apply process_lookups].
    destruct (log_input_text inputs Htext) as [d Hd].
    unfold process_infinitetalk, uuid4, log, bind, emit, get_world, put_world.
    rewrite Hd. fold (for_image inputs). rewrite Hfor.
    cbn [negb ret lift fst snd app]. rewrite Hrun.
    change (set_drawn (S (drawn (set_drawn (S (drawn w)) w)))
              (set_drawn (S (drawn w)) w)) with (identified w).
    change (uuids (set_drawn (S (drawn w)) w)
              (drawn (set_drawn (S (drawn w)) w)))
      with (uuids w (S (drawn w))).
    fold (client_id_of w). fold (task_id_of w).
    now destruct (with_forms _ _ _ _ _ _ _ _) as [[t w'] r].
  - intros kind v form v' form' H H'.
    apply designated_pick in H, H'. rewrite H in H'.
    now injection H' as -> ->.
  - intros kind v form. split; now apply designated_lookups.
  - intros kind. unfold pick_form, dict_get_default.
    split; [|repeat split].
    + now rewrite !dict_mem_get, !Hsame'.
    + intros v H. now rewrite dict_mem_get, H.
    + intros v H1 H2. now rewrite !dict_mem_get, H1, H2.
    + intros v H1 H2 H3. now rewrite !dict_mem_get, H1, H2, H3.
    + intros H1 H2 H3. now rewrite !dict_mem_get, H1, H2, H3.
Qed.
Lemma both_media_NoDup : NoDup (keys both_media).
Proof.
  unfold both_media, keys. cbn.
  repeat constructor; cbn; intuition discriminate.
Defined.

Lemma both_media_perm : Permutation both_media both_media_reversed.
Proof. exact (Permutation_rev both_media). Defined.

(** A request with the three forms of the image and two of the audio,
    in both orders: the image is taken from its path and the audio is
    downloaded from its url, the inline payloads are left alone. *)
Lemma pick_form_priority_witness :
  process_infinitetalk both_media_reversed quiet_world
  = process_infinitetalk both_media quiet_world
  /\ process_infinitetalk both_media quiet_world =
       (let '(t, w', r) :=
          with_forms both_media "c1" "task_t1"
            (JStr "/data/face.jpg") "path"
            (JStr "http://host/voice.wav") "url" (identified quiet_world)
        in (prelude ++ t, w', r))
  /\ firstn 8 (trace_of (process_infinitetalk both_media_reversed quiet_world))
     = prelude
       ++ [Log INFO "Path input: ";
           Log INFO "URL input: "; Makedirs "task_t1";
           Wget (JStr "http://host/voice.wav") "/app/task_t1/input_audio.wav";
           Log INFO "Downloaded file from URL: "]
  /\ pick_form "image" both_media_reversed = Some (JStr "/data/face.jpg", "path")
  /\ pick_form "wav" both_media_reversed
     = Some (JStr "http://host/voice.wav", "url").
Proof.
  destruct (pick_form_priority both_media both_media_reversed
              both_media_NoDup both_media_perm)
    as (Horder & _ & Hforms & _ & _ & Hpick).
  destruct (Hforms (JStr "/data/face.jpg") "path"
              (JStr "http://host/voice.wav") "url"
              (designated_path "image" both_media _ eq_refl)
              (designated_url "wav" both_media _ eq_refl eq_refl))
    as (_ & Hrun).
  destruct (Hrun eq_refl eq_refl quiet_world) as (Hrun1 & _).
  split; [apply Horder|].
  split; [exact Hrun1|].
  split; [vm_compute; reflexivity|].
  destruct (Hpick "image") as (Himage & Hpath & _).
  destruct (Hpick "wav") as (Hwav & _ & Hurl & _).
  split.
  - rewrite Himage. apply Hpath. reflexivity.
  - rewrite Hwav. apply Hurl; reflexivity.
Defined.
End MediaForms.

(* ================================================================== *)
(** ** The handler: files that are missing, results that are returned *)
(* ================================================================== *)

Section ReturnedErrors.
Import Handler HandlerSpec MoreSpec.

(** The injection leaves the world as it is and only logs. *)
Lemma inject_force_offload_local (inputs prompt : dict) (w : world) :
  world_of (inject_force_offload inputs prompt w) = w
  /\ existsb contacts_server (trace_of (inject_force_offload inputs prompt w))
     = false.
Proof.
  unfold inject_force_offload, log, bind, emit, lift, ret, raise, trace_of,
    world_of.
  destruct (find_sampler prompt) as [e|[id|]]; cbn; [auto| |auto].
  destruct (negb (id =? "")%string); cbn; [|auto].
  destruct (setdefault_input prompt id "force_offload" _); cbn; auto.
Qed.

Lemma bind_out_of_fuel {W A B} (m : M W A) (k : A -> M W B) (w w' : W)
  (t : trace) :
  m w = (t, w', OutOfFuel) ->
  bind m k w = (t, w', OutOfFuel).
Proof. intros H. unfold bind. now rewrite H. Qed.

(** [inject_and_run] is the load of the template, the injection, and
    what follows. *)
Lemma inject_and_run_steps (inputs : dict) (client_id : string)
  (image_path wav_path max_frame : json) :
  inject_and_run inputs client_id image_path wav_path max_frame
  = (log INFO "Settings: prompt=" ;;;
     prompt <- load_workflow "/mnt/code/I2V_single.json" ;;
     prompt <- inject_force_offload inputs prompt ;;
     files_then_run inputs client_id image_path wav_path max_frame prompt).
Proof. reflexivity. Qed.

Lemma image_not_found (inputs : dict) (client_id image : string)
  (wav_path max_frame : json) (prompt : dict) (w : world) :
  exists_at w (clock w) image = false ->
  files_then_run inputs client_id (JStr image) wav_path max_frame prompt w
  = ([PathExists image], set_clock (S (clock w)) w,
     Ret (error ("Image file not found: " ++ image)%string)).
Proof.
  intros H.
  unfold files_then_run, os_path_exists, bind, emit, get_world, put_world.
  cbn [ret fst snd app]. rewrite H. reflexivity.
Qed.

Lemma audio_not_found (inputs : dict) (client_id image wav : string)
  (max_frame : json) (prompt : dict) (w : world) :
  exists_at w (clock w) image = true ->
  exists_at w (S (clock w)) wav = false ->
  files_then_run inputs client_id (JStr image) (JStr wav) max_frame prompt w
  = ([PathExists image; PathExists wav], set_clock (S (S (clock w))) w,
     Ret (error ("Audio file not found: " ++ wav)%string)).
Proof.
  intros Hi Hw.
  unfold files_then_run, os_path_exists, bind, emit, get_world, put_world.
  cbn [ret fst snd app]. rewrite Hi.
  cbn [negb ret fst snd app set_clock clock exists_at]. rewrite Hw.
  reflexivity.
Qed.

(** When the lookup of the files ends in the error [msg], so does the
    handler if it gets that far, and the server is not contacted. *)
Lemma reported_before_connecting (inputs : dict) (client_id : string)
  (image_path wav_path max_frame : json) (w : world) (msg : string) :
  (forall prompt, exists t w',
      files_then_run inputs client_id image_path wav_path max_frame prompt w
      = (t, w', Ret (error msg))
      /\ existsb contacts_server t = false) ->
  let run := inject_and_run inputs client_id image_path wav_path max_frame w in
  existsb contacts_server (trace_of run) = false
  /\ (forall d, outcome_of run = Ret d -> d = error msg)
  /\ (forall prompt prompt',
         workflow w = inr prompt ->
         outcome_of (inject_force_offload inputs prompt w) = Ret prompt' ->
         outcome_of run = Ret (error msg)).
Proof.
  intros Hfiles run.
  assert (Hload : forall prompt, workflow w = inr prompt ->
            load_workflow "/mnt/code/I2V_single.json" w
            = ([LoadWorkflow "/mnt/code/I2V_single.json"], w, Ret prompt)).
  { intros prompt H. unfold load_workflow, bind, emit, get_world, lift.
    now rewrite H. }
  assert (Hfail : forall e, workflow w = inl e ->
            load_workflow "/mnt/code/I2V_single.json" w
            = ([LoadWorkflow "/mnt/code/I2V_single.json"], w, Raise e)).
  { intros e H. unfold load_workflow, bind, emit, get_world, lift.
    now rewrite H. }
  assert (Hlog : log INFO "Settings: prompt=" w
                 = ([Log INFO "Settings: prompt="], w, Ret tt))
    by reflexivity.
  destruct (workflow w) as [e|prompt] eqn:Hwf.
  - assert (Hrun : run = ([Log INFO "Settings: prompt=";
                           LoadWorkflow "/mnt/code/I2V_single.json"],
                          w, Raise e)).
    { unfold run. rewrite inject_and_run_steps.
      rewrite (bind_run _ _ _ _ _ _ Hlog).
      now rewrite (bind_raise _ _ _ _ _ _ (Hfail e eq_refl)). }
    clearbody run. subst run.
    split; [reflexivity|]. split; [discriminate|].
    intros p p' [= <-].
  - destruct (inject_force_offload_local inputs prompt w) as [Hw Hlocal].
    destruct (inject_force_offload inputs prompt w) as [[t w0] r] eqn:Hinj.
    unfold trace_of, world_of in Hw, Hlocal. cbn [fst snd] in Hw, Hlocal.
    subst w0.
    destruct r as [prompt'|e|].
    + destruct (Hfiles prompt') as (t2 & w' & Hf & Hquiet).
      assert (Hrun : run = ([Log INFO "Settings: prompt="]
                            ++ [LoadWorkflow "/mnt/code/I2V_single.json"]
                            ++ t ++ t2, w', Ret (error msg))).
      { unfold run. rewrite inject_and_run_steps.
        rewrite (bind_run _ _ _ _ _ _ Hlog).
        rewrite (bind_run _ _ _ _ _ _ (Hload prompt eq_refl)).
        rewrite (bind_run _ _ _ _ _ _ Hinj), Hf. reflexivity. }
      clearbody run. subst run.
      unfold trace_of, outcome_of. cbn [fst snd].
      split; [|split].
      * cbn [app existsb contacts_server orb].
        now rewrite existsb_app, Hlocal, Hquiet.
      * now intros d [= <-].
      * intros; reflexivity.
    + assert (Hrun : run = ([Log INFO "Settings: prompt="]
                            ++ [LoadWorkflow "/mnt/code/I2V_single.json"]
                            ++ t, w, Raise e)).
      { unfold run. rewrite inject_and_run_steps.
        rewrite (bind_run _ _ _ _ _ _ Hlog).
        rewrite (bind_run _ _ _ _ _ _ (Hload prompt eq_refl)).
        now rewrite (bind_raise _ _ _ _ _ _ Hinj). }
      clearbody run. subst run.
      unfold trace_of, outcome_of. cbn [fst snd].
      split; [exact Hlocal|]. split; [discriminate|].
      intros p p' [= <-]. rewrite Hinj. discriminate.
    + assert (Hrun : run = ([Log INFO "Settings: prompt="]
                            ++ [LoadWorkflow "/mnt/code/I2V_single.json"]
                            ++ t, w, OutOfFuel)).
      { unfold run. rewrite inject_and_run_steps.
        rewrite (bind_run _ _ _ _ _ _ Hlog).
        rewrite (bind_run _ _ _ _ _ _ (Hload prompt eq_refl)).
        now rewrite (bind_out_of_fuel _ _ _ _ _ Hinj). }
      clearbody run. subst run.
      unfold trace_of, outcome_of. cbn [fst snd].
      split; [exact Hlocal|]. split; [discriminate|].
      intros p p' [= <-]. rewrite Hinj. discriminate.
Qed.

(** X9 - The two input files are looked up after the template has been
    loaded and the flag injected.  When the image file does not exist
    the handler returns "Image file not found: <path>"; when the image
    exists and the audio file does not, "Audio file not found:
    <path>".  In both cases it has not connected to the inference
    server nor posted anything, and it returns no other result. *)
Theorem missing_file_is_reported
  (w : world) (inputs : dict) (client_id image wav : string)
  (max_frame : json) :
  let run :=
    inject_and_run inputs client_id (JStr image) (JStr wav) max_frame w in
  (exists_at w (clock w) image = false ->
   existsb contacts_server (trace_of run) = false
   /\ (forall d, outcome_of run = Ret d ->
                 d = error ("Image file not found: " ++ image)%string)
   /\ (forall prompt prompt',
          workflow w = inr prompt ->
          outcome_of (inject_force_offload inputs prompt w) = Ret prompt' ->
          outcome_of run = Ret (error ("Image file not found: " ++ image)%string)))
  /\
  (exists_at w (clock w) image = true ->
   exists_at w (S (clock w)) wav = false ->
   existsb contacts_server (trace_of run) = false
   /\ (forall d, outcome_of run = Ret d ->
                 d = error ("Audio file not found: " ++ wav)%string)
   /\ (forall prompt prompt',
          workflow w = inr prompt ->
          outcome_of (inject_force_offload inputs prompt w) = Ret prompt' ->
          outcome_of run = Ret (error ("Audio file not found: " ++ wav)%string))).
Proof.
  intros run. split.
  - intros Himage. apply reported_before_connecting.
    intros prompt. eexists _, _. split.
    + now apply image_not_found.
    + reflexivity.
  - intros Himage Hwav. apply reported_before_connecting.
    intros prompt. eexists _, _. split.
    + now apply audio_not_found.
    + reflexivity.
Qed.

Lemma missing_file_is_reported_witness :
  outcome_of (inject_and_run [] "c1" (JStr "/data/face.jpg")
                (JStr "/data/voice.wav") (JInt 81) empty_disk)
  = Ret (error "Image file not found: /data/face.jpg")
  /\ outcome_of (inject_and_run [] "c1" (JStr "/data/face.jpg")
                   (JStr "/data/voice.wav") (JInt 81) audio_gone)
     = Ret (error "Audio file not found: /data/voice.wav").
Proof.
  split.
  - exact (proj2 (proj2 (proj1 (missing_file_is_reported empty_disk [] "c1"
                                  "/data/face.jpg" "/data/voice.wav"
                                  (JInt 81)) eq_refl))
             template _ eq_refl eq_refl).
  - exact (proj2 (proj2 (proj2 (missing_file_is_reported audio_gone [] "c1"
                                  "/data/face.jpg" "/data/voice.wav"
                                  (JInt 81)) eq_refl eq_refl))
             template _ eq_refl eq_refl).
Defined.

(** X10 - Once the videos are collected [run_workflow] does not raise:
    it closes the channel and returns the encoded video, or one of
    three errors - no video, a video whose file has gone since it was
    collected ("Output video file not found"), a video that cannot be
    read ("Base64 encoding failed"). *)
Theorem collected_videos_give_a_result
  (prompt : dict) (client_id : string) (w w' : world) (t : trace)
  (videos : list (string * list string)) :
  get_videos prompt client_id w = (t, w', Ret videos) ->
  (forall path e, read_base64 w' path = inl e -> is_Exception e = true) ->
  outcome_of (run_workflow prompt client_id w) = Ret (verdict w' videos)
  /\ In WsClose (trace_of (run_workflow prompt client_id w)).
Proof.
  intros Hget Hread. unfold run_workflow, verdict.
  rewrite (bind_run _ _ _ _ _ _ Hget).
  unfold bind at 1 2, emit, log. cbn [fst snd app].
  destruct (first_video videos) as [path|].
  - destruct (String.eqb path "").
    + split; [reflexivity|]. cbn. apply in_or_app. right. cbn. auto.
    + unfold os_path_exists, try_except, try_catch, bind, emit, get_world,
        put_world, lift, log, ret, raise.
      cbn [fst snd app set_clock clock exists_at read_base64].
      destruct (exists_at w' (clock w') path); cbn.
      * destruct (read_base64 w' path) as [e|data] eqn:Hr; cbn.
        -- rewrite (Hread path e Hr). cbn.
           split; [reflexivity|]. apply in_or_app. right. cbn. auto.
        -- split; [reflexivity|]. apply in_or_app. right. cbn. auto.
      * split; [reflexivity|]. apply in_or_app. right. cbn. auto.
  - split; [reflexivity|]. cbn. apply in_or_app. right. cbn. auto.
Qed.
End ReturnedErrors.

Section ReturnedErrorsWitness.
Import Handler HandlerSpec MoreSpec.

(** The video is there when it is collected and gone when it is read. *)
Lemma collected_videos_give_a_result_witness :
  outcome_of (run_workflow template "c1" video_vanishes)
  = Ret (error "Output video file not found: /out/v.mp4").
Proof.
  refine (proj1 (collected_videos_give_a_result template "c1" video_vanishes
                   _ _ _ eq_refl _)).
  intros path e H. cbn in H. discriminate.
Defined.
End ReturnedErrorsWitness.

(* ================================================================== *)
(** ** The injector: bounds on the frame count *)
(* ================================================================== *)

Section FrameBounds.
Import Handler HandlerSpec MoreSpec.

Lemma shr_1_nonneg (mrs : shr_record) :
  0 <= shr_m mrs -> 0 <= shr_m (shr_1 mrs).
Proof.
  destruct mrs as [m r s]. cbn [shr_m].
  destruct m as [|[p|p|]|p]; cbn; lia.
Qed.

Lemma iter_pos_nonneg (p : positive) :
  forall mrs, 0 <= shr_m mrs -> 0 <= shr_m (iter_pos shr_1 p mrs).
Proof.
  induction p as [p IH|p IH|]; intros mrs H; cbn [iter_pos].
  - apply IH, IH, shr_1_nonneg, H.
  - apply IH, IH, H.
  - apply shr_1_nonneg, H.
Qed.

Lemma shr_fexp_nonneg (m e : Z) (l : location) :
  0 <= m -> 0 <= shr_m (fst (shr_fexp prec emax m e l)).
Proof.
  intros H. unfold shr_fexp, shr.
  assert (H0 : 0 <= shr_m (shr_record_of_loc m l))
    by (destruct l as [|[]]; exact H).
  destruct (fexp prec emax (Zdigits2 m + e) - e); cbn [fst]; auto.
  now apply iter_pos_nonneg.
Qed.

Lemma round_nearest_even_nonneg (m : Z) (l : location) :
  0 <= m -> 0 <= round_nearest_even m l.
Proof.
  intros H. destruct l as [|[]]; cbn; try destruct (Z.even m); lia.
Qed.

(** Rounding a mantissa that is not negative, with the sign of a
    positive number, gives zero, a positive number or [+inf]. *)
Lemma binary_round_aux_nonneg (m e : Z) (l : location) :
  0 <= m ->
  nonneg_or_overflow (binary_round_aux prec emax false m e l) = true.
Proof.
  intros H. unfold binary_round_aux.
  pose proof (shr_fexp_nonneg m e l H) as H1.
  destruct (shr_fexp prec emax m e l) as [mrs' e']. cbn [fst] in H1.
  pose proof (shr_fexp_nonneg _ e' loc_Exact
                (round_nearest_even_nonneg _ (loc_of_shr_record mrs') H1))
    as H2.
  destruct (shr_fexp prec emax _ e' loc_Exact) as [mrs'' e''].
  cbn [fst] in H2.
  destruct (shr_m mrs'') as [|p|p]; [reflexivity| |lia].
  now destruct (e'' <=? emax - prec).
Qed.

Lemma times_fps_nonneg (d : float) :
  finite_nonneg d = true -> nonneg_or_overflow (times_fps d) = true.
Proof.
  destruct d as [s|s| |[|] m e]; try discriminate; intros _.
  - reflexivity.
  - unfold times_fps, fps_default, SFmul. cbn [xorb].
    apply binary_round_aux_nonneg. lia.
Qed.

(** X11 - For a duration that is zero or positive, the frame count
    derived from the audio is never below the default of 81.  The only
    other way out is a product [duration * 25] that overflows to
    infinity: then [int] raises [OverflowError], which nothing
    catches - the default of 81 is not used. *)
Theorem frame_count_at_least_default
  (w : world) (wav_path : json) (d : float) :
  get_duration w wav_path = inr d ->
  finite_nonneg d = true ->
  match outcome_of (calculate_max_frames_from_audio wav_path fps_default w) with
  | Ret n => 81 <= n
  | Raise e => e = OverflowError /\ times_fps d = S754_infinity false
  | OutOfFuel => False
  end.
Proof.
  intros Hd Hfin. pose proof (times_fps_nonneg d Hfin) as Hprod.
  unfold calculate_max_frames_from_audio, get_audio_duration, try_except,
    try_catch, bind, emit, get_world, lift, log, outcome_of.
  rewrite Hd. cbn [ret raise fst snd app]. fold (times_fps d).
  destruct (times_fps d) as [s|[|]| |[|] m e]; try discriminate;
    cbn -[Z.shiftl]; try lia; try (split; reflexivity).
  assert (0 <= Z.shiftl (Zpos m) e) by (apply Z.shiftl_nonneg; lia).
  lia.
Qed.

(** 1.5 seconds give 118 frames; the longest audio a float can
    describe makes the handler raise. *)
Lemma frame_count_at_least_default_witness :
  81 <= 118
  /\ OverflowError = OverflowError /\ times_fps huge = S754_infinity false.
Proof.
  split.
  - exact (frame_count_at_least_default quiet_world (JStr "/a.wav")
             one_and_a_half eq_refl eq_refl).
  - exact (frame_count_at_least_default endless_audio (JStr "/a.wav")
             huge eq_refl eq_refl).
Defined.
End FrameBounds.

(* ================================================================== *)
(** ** The client: submission, payload, waiting, download *)
(* ================================================================== *)

Section Submission.
Import Client ClientSpec MoreClientSpec.

(** X12 - The submission is made once and never retried.  When the
    request itself raises, the exception goes up as it is; when a
    response arrives but its status, its body or its missing "task_id"
    raises, the client prints the error and the response and leaves
    with exit status 1; otherwise the task identifier is returned. *)
Theorem submit_task_fails_fast (w : world) (queue_url : string) (payload : dict) :
  (forall e,
      network w (requests w) = inl e ->
      submit_task queue_url payload w
      = ([HttpPost queue_url (JObj payload)], next_request w, Raise e))
  /\
  (forall resp task_id,
      network w (requests w) = inr resp ->
      reply_task_id resp = inr task_id ->
      submit_task queue_url payload w
      = ([HttpPost queue_url (JObj payload)], next_request w, Ret task_id))
  /\
  (forall resp e,
      network w (requests w) = inr resp ->
      reply_task_id resp = inl e ->
      is_Exception e = true ->
      submit_task queue_url payload w
      = ([HttpPost queue_url (JObj payload);
          Print "Error submitting task: "; Print "Response: "],
         next_request w, Raise (SystemExit 1))).
Proof.
  unfold submit_task, requests_post, raise_for_status, reply_task_id,
    try_except, try_catch, sys_exit, print, bind, emit, get_world, put_world,
    lift, ret, raise.
  split; [|split].
  - intros e H. now rewrite H.
  - intros resp task_id H. rewrite H. cbn.
    destruct (status_error resp); [discriminate|]. cbn.
    destruct (json_body resp) as [e|body]; [discriminate|]. cbn.
    intros ->. reflexivity.
  - intros resp e H. rewrite H. cbn.
    destruct (status_error resp) as [e0|]; cbn.
    + intros [= ->] ->. reflexivity.
    + destruct (json_body resp) as [e0|body]; cbn.
      * intros [= ->] ->. reflexivity.
      * intros -> ->. reflexivity.
Qed.

Lemma submit_task_fails_fast_witness :
  submit_task "https://queue.example/tasks" [("prompt", JStr "hello")]
    busy_queue
  = ([HttpPost "https://queue.example/tasks" (JObj [("prompt", JStr "hello")]);
      Print "Error submitting task: "; Print "Response: "],
     next_request busy_queue, Raise (SystemExit 1)).
Proof.
  exact (proj2 (proj2 (submit_task_fails_fast busy_queue
                         "https://queue.example/tasks"
                         [("prompt", JStr "hello")]))
           server_error (HTTPError 503) eq_refl eq_refl eq_refl).
Defined.
End Submission.

Section Payload.
Import Client ClientSpec MoreClientSpec.

Lemma distinct_NoDup (l : list string) : distinct l = true -> NoDup l.
Proof.
  induction l as [|x l IH]; cbn; [constructor|].
  intros H. apply andb_prop in H. destruct H as [Hx Hl].
  constructor; [|auto].
  intros Hin. apply negb_true_iff in Hx.
  assert (existsb (String.eqb x) l = true).
  { apply existsb_exists. exists x. split; [exact Hin|apply String.eqb_refl]. }
  congruence.
Qed.

Ltac read_files :=
  repeat match goal with
         | |- context [file_base64 ?w ?p] => destruct (file_base64 w p); cbn
         end.

Lemma build_payload_well_formed (a : args) (w w' : world) (t : trace)
  (payload : dict) :
  build_payload a w = (t, w', Ret payload) ->
  well_formed_payload a payload = true
  /\ dict_get "width" payload
     = Some (JInt (or_default (width a) (default_size (arg_mode a))))
  /\ dict_get "height" payload
     = Some (JInt (or_default (height a) (default_size (arg_mode a))))
  /\ dict_get "force_offload" payload = option_map JBool (force_offload a).
Proof.
  unfold build_payload, well_formed_payload.
  unfold parser_error, sys_exit, print, file_to_base64, bind, emit, get_world,
    lift, ret, raise.
  destruct (arg_mode a);
    [destruct (image a) as [med|] | destruct (video a) as [med|]];
    cbn [missing]; try discriminate;
    (destruct (String.eqb med ""); [discriminate|]);
    destruct (force_offload a) as [b|];
    destruct (String.prefix "http" med);
    destruct (String.prefix "http" (audio a));
    cbn; read_files; try discriminate;
    intros [= <- <- <-]; cbn;
    rewrite ?String.eqb_refl; repeat split.
Qed.
End Payload.

Section PayloadAndHandler.
Import Client ClientSpec MoreClientSpec.

Lemma eq_str_get (k s : string) (d : dict) :
  eq_str (dict_get_default k JNull d) s = true ->
  dict_get k d = Some (JStr s).
Proof.
  unfold dict_get_default.
  destruct (dict_get k d) as [[| | | |s'| |]|]; try discriminate.
  cbn. intros H. apply String.eqb_eq in H. now subst.
Qed.

(** X13 - Whatever the command line, the payload the client builds has
    one entry per key; carries the input type of the mode ("image" or
    "video"), the prompt, a width and a height (the mode's default, 384
    or 640, when the option is absent or 0) and the offload flag only
    when an option set it; gives the audio in exactly one form, url or
    inline, and the media of the mode in exactly one form; and never
    gives a path. *)
Theorem payload_has_one_source_per_kind
  (a : args) (w w' : world) (t : trace) (payload : dict) :
  build_payload a w = (t, w', Ret payload) ->
  NoDup (keys payload)
  /\ dict_get "input_type" payload = Some (JStr (type_of_mode (arg_mode a)))
  /\ dict_get "prompt" payload = Some (JStr (prompt a))
  /\ dict_get "width" payload
     = Some (JInt (or_default (width a) (default_size (arg_mode a))))
  /\ dict_get "height" payload
     = Some (JInt (or_default (height a) (default_size (arg_mode a))))
  /\ dict_get "force_offload" payload = option_map JBool (force_offload a)
  /\ xorb (dict_mem "wav_url" payload) (dict_mem "wav_base64" payload) = true
  /\ dict_mem "wav_path" payload = false
  /\ dict_mem "image_path" payload = false
  /\ match arg_mode a with
     | i2v =>
         xorb (dict_mem "image_url" payload) (dict_mem "image_base64" payload)
         = true
         /\ dict_mem "video_url" payload = false
         /\ dict_mem "video_base64" payload = false
     | v2v =>
         xorb (dict_mem "video_url" payload) (dict_mem "video_base64" payload)
         = true
         /\ dict_mem "image_url" payload = false
         /\ dict_mem "image_base64" payload = false
     end.
Proof.
  intros Hbuild.
  destruct (build_payload_well_formed a w w' t payload Hbuild)
    as (Hwf & Hwidth & Hheight & Hforce).
  unfold well_formed_payload in Hwf.
  repeat (apply andb_prop in Hwf; destruct Hwf as [Hwf ?]).
  repeat match goal with
         | H : negb _ = true |- _ => apply negb_true_iff in H
         end.
  split; [now apply distinct_NoDup|].
  split; [now apply eq_str_get|].
  split; [now apply eq_str_get|].
  do 6 (split; [assumption|]).
  destruct (arg_mode a);
    repeat match goal with
           | H : _ && _ = true |- _ => apply andb_prop in H; destruct H
           | H : negb _ = true |- _ => apply negb_true_iff in H
           end; auto.
Qed.

(** The video mode with local files and a height of 0. *)
Lemma payload_has_one_source_per_kind_witness :
  dict_get "input_type"
    [("input_type", JStr "video"); ("prompt", JStr "hello");
     ("width", JInt 640); ("height", JInt 640);
     ("force_offload", JBool false); ("video_base64", JStr "QUJD");
     ("wav_base64", JStr "QUJD")]
  = Some (JStr "video")
  /\ dict_get "height"
       [("input_type", JStr "video"); ("prompt", JStr "hello");
        ("width", JInt 640); ("height", JInt 640);
        ("force_offload", JBool false); ("video_base64", JStr "QUJD");
        ("wav_base64", JStr "QUJD")]
     = Some (JInt 640).
Proof.
  destruct (payload_has_one_source_per_kind video_args busy_queue _ _ _ eq_refl)
    as (_ & Htype & _ & _ & Hheight & _).
  split; [exact Htype | exact Hheight].
Defined.

Lemma build_payload_for_handler (a : args) (w w' : world) (t : trace)
  (payload : dict) :
  build_payload a w = (t, w', Ret payload) ->
  HandlerSpec.inline_text payload = true
  /\ materialisable "wav" payload = true
  /\ match arg_mode a with
     | i2v => HandlerSpec.for_image payload = true
              /\ materialisable "image" payload = true
     | v2v => HandlerSpec.for_image payload = false
     end.
Proof.
  unfold build_payload.
  unfold parser_error, sys_exit, print, file_to_base64, bind, emit, get_world,
    lift, ret, raise.
  destruct (arg_mode a);
    [destruct (image a) as [med|] | destruct (video a) as [med|]];
    cbn [missing]; try discriminate;
    (destruct (String.eqb med ""); [discriminate|]);
    destruct (force_offload a) as [b|];
    destruct (String.prefix "http" med);
    destruct (String.prefix "http" (audio a));
    cbn;
    repeat match goal with
           | |- context [file_base64 ?w ?p] =>
               destruct (file_base64 w p); cbn
           end;
    try discriminate;
    intros [= <- <- <-]; repeat split.
Qed.

(** X14 - The client and the handler together.  A payload built for
    the image mode passes every check the handler makes on a request:
    its input type is accepted, an image and an audio are found, each
    as a url or an inline string, and logging it does not raise.  A
    payload built for the video mode is refused by the handler in
    every world, before anything is materialised: the video mode of
    the client cannot succeed against this handler. *)
Theorem client_payload_at_the_handler
  (a : args) (w w' : world) (t : trace) (payload : dict) :
  build_payload a w = (t, w', Ret payload) ->
  match arg_mode a with
  | i2v =>
      HandlerSpec.inline_text payload = true
      /\ HandlerSpec.for_image payload = true
      /\ materialisable "image" payload = true
      /\ materialisable "wav" payload = true
  | v2v =>
      forall hw,
        Handler.process_infinitetalk payload hw
        = (HandlerSpec.prelude, HandlerSpec.identified hw,
           Ret (Handler.error
                  "Only input_type='image' is supported (I2V_single)"))
  end.
Proof.
  intros Hbuild.
  destruct (build_payload_for_handler a w w' t payload Hbuild)
    as (Htext & Hwav & Hmode).
  destruct (arg_mode a).
  - destruct Hmode as [Himage Hmedia]. auto.
  - intros hw. rewrite (process_enters payload hw Htext), Hmode.
    reflexivity.
Qed.

Lemma client_payload_at_the_handler_witness :
  Handler.process_infinitetalk
    [("input_type", JStr "video"); ("prompt", JStr "hello");
     ("width", JInt 640); ("height", JInt 640);
     ("force_offload", JBool false); ("video_base64", JStr "QUJD");
     ("wav_base64", JStr "QUJD")]
    HandlerSpec.quiet_world
  = (HandlerSpec.prelude, HandlerSpec.identified HandlerSpec.quiet_world,
     Ret (Handler.error "Only input_type='image' is supported (I2V_single)")).
Proof.
  exact (client_payload_at_the_handler video_args busy_queue _ _ _ eq_refl
           HandlerSpec.quiet_world).
Defined.
End PayloadAndHandler.

Section Waiting.
Import Client ClientSpec MoreClientSpec.

Lemma bind_ret_inv {W A B} (m : M W A) (k : A -> M W B) (w w' : W)
  (t : trace) (b : B) :
  bind m k w = (t, w', Ret b) ->
  exists t1 w1 a t2,
    m w = (t1, w1, Ret a) /\ k a w1 = (t2, w', Ret b) /\ t = t1 ++ t2.
Proof.
  unfold bind.
  destruct (m w) as [[t1 w1] [a|e|]]; try discriminate.
  destruct (k a w1) as [[t2 w2] r] eqn:Hk.
  intros [= <- <- ->]. exists t1, w1, a, t2. auto.
Qed.

(** X15 - Whenever the poll loop returns, the status it returns is one
    of the four terminal ones and is the "status" of the record it
    returns with it: [main] never goes on with a job that is still
    pending or running, and never with a stale record. *)
Theorem poll_loop_ends_on_terminal_status (fuel : nat) :
  forall (task_id status0 info0 : json) (w w' : world) (t : trace)
         (status info : json),
    status_in status0 TERMINAL = false ->
    poll_loop fuel task_id status0 info0 w = (t, w', Ret (status, info)) ->
    status_in status TERMINAL = true
    /\ getitem info "status" = inr status.
Proof.
  induction fuel as [|fuel IH];
    intros task_id status0 info0 w w' t status info H0 Hrun;
    cbn [poll_loop] in Hrun; rewrite H0 in Hrun; cbn [negb] in Hrun.
  - discriminate.
  - apply bind_ret_inv in Hrun.
    destruct Hrun as (t1 & w1 & info1 & t2 & _ & Hrest & _).
    apply bind_ret_inv in Hrest.
    destruct Hrest as (t3 & w3 & status1 & t4 & Hstatus & Hrest & _).
    assert (Hget : getitem info1 "status" = inr status1).
    { unfold lift in Hstatus.
      destruct (getitem info1 "status"); [discriminate|].
      now injection Hstatus as _ _ ->. }
    destruct (status_in status1 TERMINAL) eqn:Hterm.
    + injection Hrest as _ _ <- <-. auto.
    + apply bind_ret_inv in Hrest.
      destruct Hrest as (t5 & w5 & [] & t6 & _ & Hloop & _).
      exact (IH _ _ _ _ _ _ _ _ Hterm Hloop).
Qed.

Lemma poll_loop_ends_on_terminal_status_witness :
  status_in (JStr "COMPLETED") TERMINAL = true
  /\ getitem (status_record "COMPLETED") "status" = inr (JStr "COMPLETED").
Proof.
  exact (poll_loop_ends_on_terminal_status 3 (JStr "t-1") (JStr "PENDING")
           JNull slow_server _ _ _ _ eq_refl eq_refl).
Defined.



End Waiting.

Section Completion.
Import Client ClientSpec MoreClientSpec.

(** X17 - A job that is COMPLETED (or COMPLETE) but whose record has no
    outputs (the key is absent, or its list is empty), or whose first
    output has no url, makes the client print what is missing and leave
    with exit status 1; it requests and writes nothing. *)
Theorem completed_without_output_exits_one
  (a : args) (status : json) (record : dict) (w : world) :
  status_in status ["COMPLETED"; "COMPLETE"] = true ->
  (truthy (dict_get_default "outputs" (JArr []) record) = false ->
   finish a status (JObj record) w
   = ([Print "Task Completed!"; Print "No output files found in task info.";
       Print "<json.dumps(info)>"], w, Raise (SystemExit 1)))
  /\
  (forall first rest,
      dict_get "outputs" record = Some (JArr (JObj first :: rest)) ->
      truthy (dict_get_default "url" JNull first) = false ->
      finish a status (JObj record) w
      = ([Print "Task Completed!"; Print "Output URL not found.";
          Print "Outputs:"], w, Raise (SystemExit 1))).
Proof.
  intros Hdone. unfold finish. rewrite Hdone.
  unfold sys_exit, print, bind, emit, lift, ret, raise. split.
  - intros Hnone. cbn. now rewrite Hnone.
  - intros first rest Hout Hurl.
    assert (Hdef : dict_get_default "outputs" (JArr []) record
                   = JArr (JObj first :: rest))
      by (unfold dict_get_default; now rewrite Hout).
    rewrite Hdef. cbn -[dict_get_default]. now rewrite Hurl.
Qed.

Lemma completed_without_output_exits_one_witness :
  finish url_args (JStr "COMPLETED") (status_record "COMPLETED") slow_server
  = ([Print "Task Completed!"; Print "No output files found in task info.";
      Print "<json.dumps(info)>"], slow_server, Raise (SystemExit 1))
  /\ exit_code (Raise (SystemExit 1)) = Some 1.
Proof.
  split; [|reflexivity].
  exact (proj1 (completed_without_output_exits_one url_args (JStr "COMPLETED")
                  [("status", JStr "COMPLETED")] slow_server eq_refl)
           eq_refl).
Defined.

Lemma write_chunks_all (path : string) (cs : list string) (w : world) :
  write_chunks path cs w
  = (repeat (WriteFile path) (List.length cs), w, Ret tt).
Proof.
  induction cs as [|c cs IH]; [reflexivity|].
  cbn [write_chunks List.length repeat]. unfold bind, emit.
  now rewrite IH.
Qed.

(** X18 - The download makes one GET and then writes the output file
    once for every chunk of the response.  When the response has a
    failing status the exception is raised before the output file is
    opened: nothing is written. *)
Theorem download_writes_every_chunk
  (w : world) (video_url out : string) (r : response) :
  network w (requests w) = inr r ->
  (forall size,
      status_error r = None ->
      content_length r = inr size ->
      open_write w out = None ->
      download (JStr video_url) out w
      = (HttpGet video_url :: repeat (WriteFile out) (List.length (chunks r)),
         next_request w, Ret tt))
  /\
  (forall e,
      status_error r = Some e ->
      download (JStr video_url) out w
      = ([HttpGet video_url], next_request w, Raise e)).
Proof.
  intros Hnet.
  unfold download, requests_get, raise_for_status, bind, emit, get_world,
    put_world, lift, ret, raise.
  rewrite Hnet. split.
  - intros size Hok Hsize Hopen. rewrite Hok, Hsize.
    cbn [open_write next_request]. rewrite Hopen.
    now rewrite write_chunks_all.
  - intros e Herr. now rewrite Herr.
Qed.

Lemma download_writes_every_chunk_witness :
  download (JStr "http://out/v.mp4") "output.mp4" video_server
  = ([HttpGet "http://out/v.mp4"; WriteFile "output.mp4";
      WriteFile "output.mp4"; WriteFile "output.mp4"],
     next_request video_server, Ret tt).
Proof.
  exact (proj1 (download_writes_every_chunk video_server "http://out/v.mp4"
                  "output.mp4" _ eq_refl) 20000 eq_refl eq_refl eq_refl).
Defined.
End Completion.

(* ================================================================== *)
(** ** The rescue script *)
(* ================================================================== *)

Section Rescue.
Import Client ClientSpec MoreClientSpec Retrieve RetrieveSpec.

Lemma check_task_run (w : world) :
  check_task w
  = match attempt w 0 with
    | inr info => ([HttpGet task_url], next_request w, Ret info)
    | inl e =>
        if is_Exception e
        then ([HttpGet task_url; Print "Error checking status: "],
              next_request w, Ret JNull)
        else ([HttpGet task_url], next_request w, Raise e)
    end.
Proof.
  unfold check_task, try_except, try_catch, requests_get, raise_for_status,
    attempt, bind, emit, get_world, put_world, lift, ret, raise, print.
  cbn [Nat.add].
  destruct (network w (requests w)) as [e|r]; cbn.
  - now destruct (is_Exception e).
  - destruct (status_error r) as [e|]; cbn.
    + now destruct (is_Exception e).
    + destruct (json_body r) as [e|info]; cbn; [|reflexivity].
      now destruct (is_Exception e).
Qed.

Lemma status_in_split (status : json) :
  status_in status ["FAILED"; "CANCELED"] = true ->
  status_in status ["COMPLETED"; "COMPLETE"] = false.
Proof.
  unfold status_in. cbn [existsb]. rewrite !orb_false_r.
  destruct status; cbn [eq_str]; try discriminate.
  intros H. apply orb_true_iff in H.
  destruct H as [H|H]; apply String.eqb_eq in H; subst; reflexivity.
Qed.

(** A turn after which the script waits leaves the rest of the loop to
    run one request later. *)
Lemma watch_turn (fuel : nat) (w : world) :
  waits (attempt w 0) = true ->
  watch (S fuel) w
  = (let '(t, w', r) := watch fuel (next_request w) in
     (turn (attempt w 0) ++ t, w', r)).
Proof.
  intros Hwait. cbn [watch]. unfold bind at 1. rewrite check_task_run.
  unfold waits, turn in *.
  destruct (attempt w 0) as [e|info].
  - rewrite Hwait. cbn [truthy negb]. unfold bind, sleep, emit.
    now destruct (watch fuel (next_request w)) as [[t w'] r].
  - destruct (truthy info) eqn:Htruthy; cbn [negb orb] in *.
    + destruct info as [| | | | | |o]; try discriminate.
      apply andb_true_iff in Hwait. destruct Hwait as [Hc Hf].
      apply negb_true_iff in Hc, Hf.
      unfold bind at 1, lift, get. cbn [ret].
      unfold bind at 1, print, emit.
      rewrite Hc, Hf. unfold bind, sleep, emit.
      now destruct (watch fuel (next_request w)) as [[t w'] r].
    + unfold bind, sleep, emit.
      now destruct (watch fuel (next_request w)) as [[t w'] r].
Qed.

Lemma waited_S (w : world) (k : nat) :
  waited w (S k) = turn (attempt w 0) ++ waited (next_request w) k.
Proof.
  unfold waited. cbn [seq map List.concat].
  rewrite <- seq_shift, map_map. f_equal. f_equal.
  apply map_ext. intros i. now rewrite attempt_next.
Qed.

Lemma watch_turns (k : nat) :
  forall (fuel : nat) (w : world),
    (forall i, (i < k)%nat -> waits (attempt w i) = true) ->
    watch (k + fuel) w
    = (let '(t, w', r) := watch fuel (after_requests k w) in
       (waited w k ++ t, w', r)).
Proof.
  induction k as [|k IH]; intros fuel w Hwait.
  - cbn. now destruct (watch fuel w) as [[t w'] r].
  - cbn [Nat.add]. rewrite watch_turn by (apply Hwait; lia).
    rewrite IH.
    + unfold after_requests. rewrite <- Nat.iter_succ_r.
      destruct (watch fuel (Nat.iter (S k) next_request w)) as [[t w'] r].
      now rewrite waited_S, <- app_assoc.
    + intros i Hi. rewrite attempt_next. apply Hwait. lia.
Qed.

Lemma attempt_after (k : nat) (w : world) (i : nat) :
  attempt (after_requests k w) i = attempt w (i + k).
Proof.
  revert w i. induction k as [|k IH]; intros w i.
  - now rewrite Nat.add_0_r.
  - unfold after_requests. rewrite Nat.iter_succ_r.
    fold (after_requests k (next_request w)).
    rewrite IH, attempt_next. f_equal. lia.
Qed.

Lemma next_after (k : nat) (w : world) :
  next_request (after_requests k w) = after_requests (S k) w.
Proof. reflexivity. Qed.

(** X19 - The rescue script has no bound on its retries: however many
    checks fail or report a task that is still going on, it pauses (5
    seconds after a failed or empty check, 10 after a status) and asks
    again.  When the task is then reported FAILED or CANCELED it prints
    so and ends normally, having made no request but the checks. *)
Theorem rescue_waits_for_the_task (k : nat) :
  forall (fuel : nat) (w : world) (o : dict),
    (k < fuel)%nat ->
    (forall i, (i < k)%nat -> waits (attempt w i) = true) ->
    attempt w k = inr (JObj o) ->
    status_in (dict_get_default "status" JNull o) ["FAILED"; "CANCELED"]
    = true ->
    watch fuel w
    = (waited w k
       ++ [HttpGet task_url; Print "Status: "; Print "Task failed!"],
       after_requests (S k) w, Ret tt).
Proof.
  intros fuel w o Hfuel Hwait Hlast Hstatus.
  replace fuel with (k + S (fuel - S k))%nat by lia.
  rewrite watch_turns by exact Hwait.
  cbn [watch]. unfold bind at 1. rewrite check_task_run.
  rewrite attempt_after. cbn [Nat.add]. rewrite Hlast.
  assert (Htruthy : truthy (JObj o) = true).
  { destruct o; [discriminate|reflexivity]. }
  rewrite Htruthy. cbn [negb].
  unfold bind at 1, lift, get. cbn [ret].
  unfold bind at 1, print, emit.
  rewrite (status_in_split _ Hstatus), Hstatus.
  now rewrite next_after.
Qed.

(** Two failed checks and a running task, then FAILED. *)
Lemma rescue_waits_for_the_task_witness :
  watch 4 (recovering_service (ok_response (status_record "FAILED")))
  = ([HttpGet task_url; Print "Error checking status: "; Sleep 5;
      HttpGet task_url; Print "Error checking status: "; Sleep 5;
      HttpGet task_url; Print "Status: "; Sleep 10;
      HttpGet task_url; Print "Status: "; Print "Task failed!"],
     after_requests 4
       (recovering_service (ok_response (status_record "FAILED"))),
     Ret tt).
Proof.
  refine (rescue_waits_for_the_task 3 4
            (recovering_service (ok_response (status_record "FAILED")))
            [("status", JStr "FAILED")] _ _ eq_refl eq_refl).
  - lia.
  - intros i Hi. destruct i as [|[|[|i]]]; [reflexivity..|lia].
Defined.

(** X20 - When the task is reported COMPLETED (or COMPLETE) without
    outputs, the rescue script downloads nothing: it writes the record
    to task_debug.json and ends normally. *)
Theorem rescue_without_outputs_saves_the_record (k : nat) :
  forall (fuel : nat) (w : world) (o : dict),
    (k < fuel)%nat ->
    (forall i, (i < k)%nat -> waits (attempt w i) = true) ->
    attempt w k = inr (JObj o) ->
    status_in (dict_get_default "status" JNull o) ["COMPLETED"; "COMPLETE"]
    = true ->
    truthy (dict_get_default "outputs" (JArr []) o) = false ->
    open_write w "task_debug.json" = None ->
    watch fuel w
    = (waited w k
       ++ [HttpGet task_url; Print "Status: ";
           Print "No outputs found (as expected if handler returned dict).";
           Print "Inspecting full response for base64 data...";
           WriteFile "task_debug.json";
           Print "Saved full response to task_debug.json"],
       after_requests (S k) w, Ret tt).
Proof.
  intros fuel w o Hfuel Hwait Hlast Hstatus Hout Hopen.
  replace fuel with (k + S (fuel - S k))%nat by lia.
  rewrite watch_turns by exact Hwait.
  cbn [watch]. unfold bind at 1. rewrite check_task_run.
  rewrite attempt_after. cbn [Nat.add]. rewrite Hlast.
  assert (Htruthy : truthy (JObj o) = true).
  { destruct o; [discriminate|reflexivity]. }
  rewrite Htruthy. cbn [negb].
  unfold bind at 1, lift, get. cbn [ret].
  unfold bind at 1, print, emit.
  rewrite Hstatus.
  unfold bind at 1, lift, get_or. cbn [ret]. rewrite Hout.
  unfold save_debug, bind, print, emit, get_world.
  assert (Hsame : open_write (next_request (after_requests k w))
                    "task_debug.json" = None).
  { clear - Hopen. induction k as [|k IH]; [exact Hopen|exact IH]. }
  rewrite Hsame. now rewrite next_after.
Qed.

Lemma rescue_without_outputs_saves_the_record_witness :
  watch 4 (recovering_service (ok_response (status_record "COMPLETED")))
  = ([HttpGet task_url; Print "Error checking status: "; Sleep 5;
      HttpGet task_url; Print "Error checking status: "; Sleep 5;
      HttpGet task_url; Print "Status: "; Sleep 10;
      HttpGet task_url; Print "Status: ";
      Print "No outputs found (as expected if handler returned dict).";
      Print "Inspecting full response for base64 data...";
      WriteFile "task_debug.json";
      Print "Saved full response to task_debug.json"],
     after_requests 4
       (recovering_service (ok_response (status_record "COMPLETED"))),
     Ret tt).
Proof.
  refine (rescue_without_outputs_saves_the_record 3 4
            (recovering_service (ok_response (status_record "COMPLETED")))
            [("status", JStr "COMPLETED")] _ _ eq_refl eq_refl eq_refl
            eq_refl).
  - lia.
  - intros i Hi. destruct i as [|[|[|i]]]; [reflexivity..|lia].
Defined.

Lemma network_after (k : nat) (w : world) :
  network (after_requests k w) = network w
  /\ requests (after_requests k w) = (k + requests w)%nat
  /\ open_write (after_requests k w) = open_write w.
Proof.
  induction k as [|k IH]; [auto|].
  destruct IH as (Hn & Hr & Ho).
  change (after_requests (S k) w) with (next_request (after_requests k w)).
  cbn [network requests open_write next_request].
  rewrite Hn, Hr, Ho. auto.
Qed.

(** X21 - When the task is reported COMPLETED (or COMPLETE) with
    outputs, the rescue script fetches the url of the first output and
    writes every chunk of the response, in order, to
    rescued_video_queue.mp4.  A failing status of that one request ends
    the script with its exception, before the file is opened: the
    download is not retried. *)
Theorem rescue_downloads_first_output (k : nat) :
  forall (fuel : nat) (w : world) (o first : dict) (others : list json)
         (u : string),
    (k < fuel)%nat ->
    (forall i, (i < k)%nat -> waits (attempt w i) = true) ->
    attempt w k = inr (JObj o) ->
    status_in (dict_get_default "status" JNull o) ["COMPLETED"; "COMPLETE"]
    = true ->
    dict_get_default "outputs" (JArr []) o = JArr (JObj first :: others) ->
    dict_get "url" first = Some (JStr u) ->
    (forall r,
        network w (S k + requests w) = inr r ->
        status_error r = None ->
        open_write w OUTPUT_FILE = None ->
        watch fuel w
        = (waited w k
           ++ [HttpGet task_url; Print "Status: ";
               Print "Downloading video from: "; HttpGet u]
           ++ repeat (WriteFile OUTPUT_FILE) (List.length (chunks r))
           ++ [Print "Video saved to "],
           after_requests (S (S k)) w, Ret tt))
    /\ (forall r e,
           network w (S k + requests w) = inr r ->
           status_error r = Some e ->
           watch fuel w
           = (waited w k
              ++ [HttpGet task_url; Print "Status: ";
                  Print "Downloading video from: "; HttpGet u],
              after_requests (S (S k)) w, Raise e)).
Proof.
  intros fuel w o first others u Hfuel Hwait Hlast Hstatus Hout Hurl.
  assert (Hrun :
             watch fuel w
             = (let '(t, w', r) :=
                  bind (rescue (JStr u)) (fun _ => print "Video saved to ")
                       (after_requests (S k) w) in
                (waited w k
                 ++ [HttpGet task_url; Print "Status: ";
                     Print "Downloading video from: "] ++ t, w', r))).
  { replace fuel with (k + S (fuel - S k))%nat by lia.
    rewrite watch_turns by exact Hwait.
    cbn [watch]. unfold bind at 1. rewrite check_task_run.
    rewrite attempt_after. cbn [Nat.add]. rewrite Hlast.
    assert (Htruthy : truthy (JObj o) = true).
    { destruct o; [discriminate|reflexivity]. }
    rewrite Htruthy. cbn [negb].
    unfold bind at 1, lift, get. cbn [ret].
    unfold bind at 1, print, emit.
    rewrite Hstatus.
    unfold bind at 1, lift, get_or. cbn [ret]. rewrite Hout.
    cbn [truthy first_item].
    unfold bind at 1. cbn [ret].
    unfold bind at 1, get, dict_get_default. rewrite Hurl. cbn [ret].
    unfold bind at 1, emit. rewrite next_after.
    destruct (bind (rescue (JStr u)) _ (after_requests (S k) w))
      as [[t w'] r].
    reflexivity. }
  destruct (network_after (S k) w) as (Hn & Hr & Ho).
  split.
  - intros r Hnet Hok Hopen. rewrite Hrun.
    unfold rescue, requests_get, raise_for_status, bind, emit, get_world,
      put_world, lift, ret, raise, print.
    rewrite Hn, Hr, Hnet, Hok. cbn [open_write next_request].
    rewrite Ho, Hopen, write_chunks_all.
    unfold emit. cbn [app]. reflexivity.
  - intros r e Hnet Herr. rewrite Hrun.
    unfold rescue, requests_get, raise_for_status, bind, emit, get_world,
      put_world, lift, ret, raise, print.
    rewrite Hn, Hr, Hnet, Herr. reflexivity.
Qed.

Lemma rescue_downloads_first_output_witness :
  watch 4 (recovering_service video_record)
  = ([HttpGet task_url; Print "Error checking status: "; Sleep 5;
      HttpGet task_url; Print "Error checking status: "; Sleep 5;
      HttpGet task_url; Print "Status: "; Sleep 10;
      HttpGet task_url; Print "Status: ";
      Print "Downloading video from: ";
      HttpGet "https://files.example/output.mp4";
      WriteFile OUTPUT_FILE; WriteFile OUTPUT_FILE;
      Print "Video saved to "],
     after_requests 5 (recovering_service video_record), Ret tt).
Proof.
  refine (proj1 (rescue_downloads_first_output 3 4
                   (recovering_service video_record)
                   [("status", JStr "COMPLETE");
                    ("outputs",
                     JArr [JObj [("name", JStr "output.mp4");
                                 ("url",
                                  JStr "https://files.example/output.mp4")]])]
                   [("name", JStr "output.mp4");
                    ("url", JStr "https://files.example/output.mp4")]
                   [] "https://files.example/output.mp4"
                   _ _ eq_refl eq_refl eq_refl eq_refl)
            video_record eq_refl eq_refl eq_refl).
  - lia.
  - intros i Hi. destruct i as [|[|[|i]]]; [reflexivity..|lia].
Defined.

End Rescue.

(* ================================================================== *)
(** ** The application: start-up *)
(* ================================================================== *)

Section Startup.
Import App AppSpec.

Lemma set_journal_same (w : world) : set_journal (journal w) w = w.
Proof. now destruct w. Qed.

Lemma perform_run (o : op) (w : world) (j : list op) :
  perform o (set_journal j w)
  = match fault w o with
    | Some e => ([], set_journal j w, Raise e)
    | None => ([], set_journal (j ++ [o]) w, Ret tt)
    end.
Proof.
  unfold perform, bind, get_world, put_world, raise.
  cbn [fault set_journal journal].
  now destruct (fault w o).
Qed.

(** On a machine where no operation raises, the loop links the models
    that are there and collects the others. *)
Lemma link_models_run (w : world) :
  faultless w ->
  forall (pairs : list (string * string)) (missing : list string)
         (j : list op),
    link_models pairs missing (set_journal j w)
    = (map (link_log w) pairs,
       set_journal (j ++ links w pairs) w,
       Ret (missing ++ map fst (filter (absent w) pairs))).
Proof.
  intros Hok. induction pairs as [|[v c] pairs IH]; intros missing j.
  - cbn. unfold links. cbn. now rewrite !app_nil_r.
  - cbn [link_models]. unfold bind at 1, get_world.
    cbn [on_disk is_link set_journal].
    unfold links, link_log, present, absent in *.
    cbn [filter map fst snd].
    destruct (on_disk w v) eqn:Hv; cbn [negb].
    + unfold bind at 1. rewrite perform_run, Hok.
      unfold bind at 1.
      assert (Hrm :
        (if on_disk w c || is_link w c
         then perform (Remove c) else ret tt)
          (set_journal (j ++ [MakeDirs (dirname c)]) w)
        = ([], set_journal
                 ((j ++ [MakeDirs (dirname c)])
                  ++ (if on_disk w c || is_link w c then [Remove c] else []))
                 w, Ret tt)).
      { destruct (on_disk w c || is_link w c).
        - now rewrite perform_run, Hok.
        - unfold ret. now rewrite app_nil_r. }
      rewrite Hrm. unfold bind at 1. rewrite perform_run, Hok.
      unfold bind at 1, log, emit. rewrite IH.
      cbn [List.concat map]. unfold link_ops. cbn [fst snd].
      now rewrite <- !app_assoc.
    + unfold bind at 1, log, emit. rewrite IH.
      cbn [app]. now rewrite <- app_assoc.
Qed.

Lemma setup_with_run (w : world) (pairs : list (string * string)) :
  faultless w ->
  setup_with pairs w
  = (map (link_log w) pairs,
     set_journal (journal w ++ links w pairs) w,
     match map fst (filter (absent w) pairs) with
     | [] => Ret tt
     | missing =>
         Raise (Exception_
                  ("Missing models in Volume. Run preload_models.py first! Missing: "
                   ++ repr_list missing)%string)
     end).
Proof.
  intros Hok. unfold setup_with, bind.
  rewrite <- (set_journal_same w) at 1.
  rewrite (link_models_run w Hok). cbn [app].
  destruct (map fst (filter (absent w) pairs)); cbn;
    now rewrite app_nil_r.
Qed.

(** X22 - [setup_model_symlinks] links every model of its table that
    is on the volume (creating the directory, removing what is in the
    way, then linking), in the order of the table, and only then fails
    when some were missing, naming all of them: a missing model does
    not stop the others from being linked. *)
Theorem setup_links_what_is_there (w : world) :
  faultless w ->
  setup_model_symlinks w
  = (map (link_log w) MODEL_SYMLINKS,
     set_journal (journal w ++ links w MODEL_SYMLINKS) w,
     match map fst (filter (absent w) MODEL_SYMLINKS) with
     | [] => Ret tt
     | missing =>
         Raise (Exception_
                  ("Missing models in Volume. Run preload_models.py first! Missing: "
                   ++ repr_list missing)%string)
     end).
Proof. exact (setup_with_run w MODEL_SYMLINKS). Qed.

Lemma setup_links_what_is_there_witness :
  let w := machine HandlerSpec.quiet_world partial_volume 0 in
  journal (world_of (setup_model_symlinks w))
  = [MakeDirs "/ComfyUI/models/diffusion_models";
     Symlink "/models/diffusion_models/Wan2_1-InfiniteTalk_Single_Q8.gguf"
       "/ComfyUI/models/diffusion_models/Wan2_1-InfiniteTalk_Single_Q8.gguf";
     MakeDirs "/ComfyUI/models/diffusion_models";
     Symlink "/models/diffusion_models/wan2.1-i2v-14b-480p-Q8_0.gguf"
       "/ComfyUI/models/diffusion_models/wan2.1-i2v-14b-480p-Q8_0.gguf";
     MakeDirs "/ComfyUI/models/diffusion_models";
     Symlink "/models/diffusion_models/Wan2_1-InfiniteTalk-Single_fp8_e4m3fn_scaled_KJ.safetensors"
       "/ComfyUI/models/diffusion_models/Wan2_1-InfiniteTalk-Single_fp8_e4m3fn_scaled_KJ.safetensors";
     MakeDirs "/ComfyUI/models/diffusion_models";
     Symlink "/models/diffusion_models/Wan2_1-InfiniteTalk-Multi_fp8_e4m3fn_scaled_KJ.safetensors"
       "/ComfyUI/models/diffusion_models/Wan2_1-InfiniteTalk-Multi_fp8_e4m3fn_scaled_KJ.safetensors";
     MakeDirs "/ComfyUI/models/diffusion_models";
     Symlink "/models/diffusion_models/Wan2_1-I2V-14B-480P_fp8_e4m3fn.safetensors"
       "/ComfyUI/models/diffusion_models/Wan2_1-I2V-14B-480P_fp8_e4m3fn.safetensors";
     MakeDirs "/ComfyUI/models/loras";
     Symlink "/models/loras/lightx2v_I2V_14B_480p_cfg_step_distill_rank64_bf16.safetensors"
       "/ComfyUI/models/loras/lightx2v_I2V_14B_480p_cfg_step_distill_rank64_bf16.safetensors";
     MakeDirs "/ComfyUI/models/text_encoders";
     Remove "/ComfyUI/models/text_encoders/umt5-xxl-enc-bf16.safetensors";
     Symlink "/models/text_encoders/umt5-xxl-enc-bf16.safetensors"
       "/ComfyUI/models/text_encoders/umt5-xxl-enc-bf16.safetensors";
     MakeDirs "/ComfyUI/models/diffusion_models";
     Symlink "/models/diffusion_models/MelBandRoformer_fp16.safetensors"
       "/ComfyUI/models/diffusion_models/MelBandRoformer_fp16.safetensors"]
  /\ outcome_of (setup_model_symlinks w)
     = Raise (Exception_
                "Missing models in Volume. Run preload_models.py first! Missing: ['/models/vae/Wan2_1_VAE_bf16.safetensors', '/models/clip_vision/clip_vision_h.safetensors']").
Proof.
  intros w.
  rewrite (setup_links_what_is_there w (fun _ => eq_refl)).
  split; reflexivity.
Defined.

Lemma wait_attempt_fails (w : world) (i : nat) :
  probe w i <> None ->
  wait_attempt i w
  = ([HttpGet "http://127.0.0.1:8188/"; Sleep 1], w, Ret None).
Proof.
  intros H.
  unfold wait_attempt, try_catch, bind, emit, get_world, raise, sleep, ret.
  destruct (probe w i) as [e|]; [reflexivity|congruence].
Qed.

Lemma wait_attempt_ready (w : world) (i : nat) :
  probe w i = None ->
  wait_attempt i w
  = ([HttpGet "http://127.0.0.1:8188/"; Log INFO "ComfyUI ready after "],
     w, Ret (Some (ready i))).
Proof.
  intros H.
  unfold wait_attempt, try_catch, bind, emit, get_world, log, ret.
  now rewrite H.
Qed.

Lemma wait_loop_ready (w : world) (k : nat) :
  forall count start,
    (k < count)%nat ->
    (forall i, (i < k)%nat -> probe w (start + i) <> None) ->
    probe w (start + k) = None ->
    for_range wait_attempt start count w
    = (probed k
       ++ [HttpGet "http://127.0.0.1:8188/"; Log INFO "ComfyUI ready after "],
       w, Ret (Some (ready (start + k)))).
Proof.
  induction k as [|k IH]; intros count start Hk Hfail Hok;
    (destruct count as [|count]; [lia|]); rewrite for_range_step.
  - rewrite Nat.add_0_r in *. unfold bind.
    now rewrite (wait_attempt_ready w start Hok).
  - unfold bind at 1. rewrite wait_attempt_fails.
    2:{ specialize (Hfail 0%nat). rewrite Nat.add_0_r in Hfail.
        apply Hfail. lia. }
    rewrite (IH count (S start)).
    + now rewrite Nat.add_succ_comm.
    + lia.
    + intros i Hi. rewrite Nat.add_succ_comm. apply Hfail. lia.
    + now rewrite Nat.add_succ_comm.
Qed.

Lemma wait_loop_gives_up (w : world) (count : nat) :
  forall start,
    (forall i, (i < count)%nat -> probe w (start + i) <> None) ->
    for_range wait_attempt start count w = (probed count, w, Ret None).
Proof.
  induction count as [|count IH]; intros start Hfail; [reflexivity|].
  rewrite for_range_step. unfold bind at 1. rewrite wait_attempt_fails.
  2:{ specialize (Hfail 0%nat). rewrite Nat.add_0_r in Hfail.
      apply Hfail. lia. }
  rewrite (IH (S start)); [reflexivity|].
  intros i Hi. rewrite Nat.add_succ_comm. apply Hfail. lia.
Qed.

(** With every model on the volume, [on_start] links them, launches
    ComfyUI and goes on to wait for it. *)
Lemma on_start_launches (w : world) :
  faultless w ->
  filter (absent w) MODEL_SYMLINKS = [] ->
  on_start w
  = (let '(t, w', r) :=
       wait_for_comfyui
         (set_journal (journal w ++ links w MODEL_SYMLINKS ++ [comfyui]) w) in
     (started w ++ t, w', r)).
Proof.
  intros Hok Hall. unfold on_start, on_start_with.
  unfold bind at 1, log, emit. unfold bind at 1.
  unfold bind at 1. rewrite (setup_with_run w MODEL_SYMLINKS Hok), Hall.
  cbn [map]. unfold bind at 1. unfold bind at 1.
  rewrite perform_run, Hok. fold comfyui.
  rewrite <- app_assoc.
  destruct (wait_for_comfyui _) as [[t w'] r].
  unfold started. cbn [app]. now rewrite <- !app_assoc.
Qed.

(** X23 - With every model on the volume and no failing file
    operation, [on_start] links the models, launches ComfyUI and probes
    it once a second; when the first [k] probes fail (for whatever
    reason) and the next one answers, it returns
    [{"comfyui_ready": True, "startup_time": k}]: the start-up time
    counts failed probes. *)
Theorem on_start_ready_after (w : world) (k : nat) :
  faultless w ->
  filter (absent w) MODEL_SYMLINKS = [] ->
  (k < max_wait)%nat ->
  (forall i, (i < k)%nat -> probe w i <> None) ->
  probe w k = None ->
  on_start w
  = (started w ++ probed k
     ++ [HttpGet "http://127.0.0.1:8188/"; Log INFO "ComfyUI ready after "],
     set_journal (journal w ++ links w MODEL_SYMLINKS ++ [comfyui]) w,
     Ret (ready k)).
Proof.
  intros Hok Hall Hk Hfail Hready.
  rewrite (on_start_launches w Hok Hall).
  unfold wait_for_comfyui, bind.
  rewrite (wait_loop_ready (set_journal _ w) k max_wait 0 Hk);
    [|exact Hfail|exact Hready].
  cbn [Nat.add ret]. now rewrite app_nil_r.
Qed.

(** ComfyUI answers the third probe. *)
Lemma on_start_ready_after_witness :
  outcome_of (on_start (machine HandlerSpec.quiet_world full_volume 2))
  = Ret [("comfyui_ready", JBool true); ("startup_time", JInt 2)]
  /\ filter is_io
       (trace_of (on_start (machine HandlerSpec.quiet_world full_volume 2)))
     = [HttpGet "http://127.0.0.1:8188/"; Sleep 1;
        HttpGet "http://127.0.0.1:8188/"; Sleep 1;
        HttpGet "http://127.0.0.1:8188/"].
Proof.
  rewrite (on_start_ready_after
             (machine HandlerSpec.quiet_world full_volume 2) 2
             (fun _ => eq_refl) eq_refl).
  - split; reflexivity.
  - unfold max_wait. lia.
  - intros i Hi. destruct i as [|[|i]]; [discriminate|discriminate|lia].
  - reflexivity.
Defined.

(** X24 - When none of the 180 probes is answered, [on_start] raises
    "ComfyUI failed to start within 3 minutes" after 180 pauses of one
    second.  The ComfyUI process it launched is the last operation of
    the journal: it is left running. *)
Theorem on_start_gives_up (w : world) :
  faultless w ->
  filter (absent w) MODEL_SYMLINKS = [] ->
  (forall i, (i < max_wait)%nat -> probe w i <> None) ->
  on_start w
  = (started w ++ probed max_wait,
     set_journal (journal w ++ links w MODEL_SYMLINKS ++ [comfyui]) w,
     Raise (Exception_ "ComfyUI failed to start within 3 minutes")).
Proof.
  intros Hok Hall Hfail.
  rewrite (on_start_launches w Hok Hall).
  unfold wait_for_comfyui, bind.
  rewrite (wait_loop_gives_up (set_journal _ w) max_wait 0 Hfail).
  cbn [raise]. now rewrite app_nil_r.
Qed.

Lemma on_start_gives_up_witness :
  outcome_of (on_start (machine HandlerSpec.quiet_world full_volume 180))
  = Raise (Exception_ "ComfyUI failed to start within 3 minutes")
  /\ HandlerSpec.paused
       (trace_of (on_start (machine HandlerSpec.quiet_world full_volume 180)))
     = 180.
Proof.
  rewrite (on_start_gives_up
             (machine HandlerSpec.quiet_world full_volume 180)
             (fun _ => eq_refl) eq_refl).
  - split; reflexivity.
  - intros i Hi. cbn [probe machine].
    destruct (i <? 180)%nat eqn:Hlt; [discriminate|].
    apply Nat.ltb_ge in Hlt. unfold max_wait in Hi. lia.
Defined.

Lemma perform_any (o : op) (w : world) :
  perform o w
  = match fault w o with
    | Some e => ([], w, Raise e)
    | None => ([], set_journal (journal w ++ [o]) w, Ret tt)
    end.
Proof.
  unfold perform, bind, get_world, put_world, raise.
  now destruct (fault w o).
Qed.

Lemma popen_after (j : list op) (o : op) :
  is_popen o = false ->
  filter is_popen (j ++ [o]) = filter is_popen j.
Proof.
  intros H. rewrite filter_app. cbn [filter]. rewrite H.
  apply app_nil_r.
Qed.

(** Whatever the file operations do, the loop launches nothing, reaches
    no network, and either raises or returns the models it missed. *)
Lemma link_models_safe (w : world) :
  forall (pairs : list (string * string)) (missing : list string)
         (j : list op),
  exists t j' r,
    link_models pairs missing (set_journal j w) = (t, set_journal j' w, r)
    /\ filter is_popen j' = filter is_popen j
    /\ filter is_network t = []
    /\ (r = Ret (missing ++ map fst (filter (absent w) pairs))
        \/ exists e, r = Raise e).
Proof.
  induction pairs as [|[v c] pairs IH]; intros missing j.
  - exists [], j, (Ret missing). cbn. rewrite app_nil_r. auto.
  - cbn [link_models]. unfold bind at 1, get_world.
    cbn [on_disk is_link set_journal].
    unfold absent in *. cbn [filter fst].
    destruct (on_disk w v) eqn:Hv; cbn [negb].
    + unfold bind at 1. rewrite perform_run.
      destruct (fault w (MakeDirs (dirname c))) as [e|].
      { exists [], j, (Raise e). eauto 6. }
      unfold bind at 1.
      assert (Hrm : exists j1 r1,
        (if on_disk w c || is_link w c
         then perform (Remove c) else ret tt)
          (set_journal (j ++ [MakeDirs (dirname c)]) w)
        = ([], set_journal j1 w, r1)
        /\ filter is_popen j1 = filter is_popen j
        /\ (r1 = Ret tt \/ exists e, r1 = Raise e)).
      { destruct (on_disk w c || is_link w c).
        - rewrite perform_run.
          destruct (fault w (Remove c)) as [e|].
          + exists (j ++ [MakeDirs (dirname c)]), (Raise e).
            rewrite popen_after by reflexivity. eauto.
          + exists ((j ++ [MakeDirs (dirname c)]) ++ [Remove c]), (Ret tt).
            rewrite !popen_after by reflexivity. auto.
        - exists (j ++ [MakeDirs (dirname c)]), (Ret tt).
          rewrite popen_after by reflexivity. auto. }
      destruct Hrm as (j1 & r1 & -> & Hj1 & [->|[e ->]]).
      2:{ exists [], j1, (Raise e). eauto 6. }
      unfold bind at 1. rewrite perform_run.
      destruct (fault w (Symlink v c)) as [e|].
      { exists [], j1, (Raise e). eauto 6. }
      unfold bind at 1, log, emit.
      destruct (IH missing (j1 ++ [Symlink v c]))
        as (t & j' & r & -> & Hj' & Ht & Hr).
      exists ([] ++ [] ++ [] ++ [Log INFO "Symlink: "] ++ t), j', r.
      rewrite popen_after in Hj' by reflexivity.
      repeat split; [congruence|exact Ht|exact Hr].
    + unfold bind at 1, log, emit.
      destruct (IH (missing ++ [v]) j) as (t & j' & r & -> & Hj' & Ht & Hr).
      exists ([Log WARNING "Model not found in Volume: "] ++ t), j', r.
      repeat split; [exact Hj'|exact Ht|].
      destruct Hr as [->|He]; [left|right; exact He].
      now rewrite <- app_assoc.
Qed.

(** X25 - When a model of the table is not on the volume, [on_start]
    fails whatever else happens: it raises, ComfyUI is never launched
    and never probed. *)
Theorem on_start_needs_every_model (w : world) :
  filter (absent w) MODEL_SYMLINKS <> [] ->
  (exists e, outcome_of (on_start w) = Raise e)
  /\ filter is_popen (journal (world_of (on_start w)))
     = filter is_popen (journal w)
  /\ filter is_network (trace_of (on_start w)) = [].
Proof.
  intros Hmissing.
  assert (Hrun : exists t j e,
             on_start w = (t, set_journal j w, Raise e)
             /\ filter is_popen j = filter is_popen (journal w)
             /\ filter is_network t = []).
  { destruct (link_models_safe w MODEL_SYMLINKS [] (journal w))
      as (t & j' & r & Hrun & Hj' & Ht & Hr).
    rewrite set_journal_same in Hrun.
    unfold on_start, on_start_with.
    unfold bind at 1, log, emit. unfold bind at 1.
    unfold bind at 1. unfold setup_with. unfold bind at 1.
    rewrite Hrun.
    destruct Hr as [->|[e ->]].
    - cbn [app].
      destruct (map fst (filter (absent w) MODEL_SYMLINKS)) as [|m ms] eqn:Hm.
      { apply map_eq_nil in Hm. contradiction. }
      unfold raise. eexists _, j', _. split; [reflexivity|].
      split; [exact Hj'|]. cbn [app filter is_network].
      now rewrite app_nil_r.
    - eexists _, j', e. split; [reflexivity|].
      split; [exact Hj'|exact Ht]. }
  destruct Hrun as (t & j & e & -> & Hj & Ht).
  unfold outcome_of, world_of, trace_of. cbn [fst snd journal set_journal].
  eauto.
Qed.

Lemma on_start_needs_every_model_witness :
  (exists e,
      outcome_of (on_start (machine HandlerSpec.quiet_world partial_volume 0))
      = Raise e)
  /\ filter is_popen
       (journal
          (world_of
             (on_start (machine HandlerSpec.quiet_world partial_volume 0))))
     = filter is_popen
         (journal (machine HandlerSpec.quiet_world partial_volume 0))
  /\ filter is_network
       (trace_of (on_start (machine HandlerSpec.quiet_world partial_volume 0)))
     = [].
Proof.
  apply (on_start_needs_every_model
           (machine HandlerSpec.quiet_world partial_volume 0)).
  discriminate.
Defined.

Lemma filter_none {A} (f : A -> bool) (l : list A) :
  (forall x, In x l -> f x = false) -> filter f l = [].
Proof.
  induction l as [|x l IH]; intros H; [reflexivity|].
  cbn [filter]. rewrite (H x (or_introl eq_refl)).
  apply IH. intros y Hy. apply H. now right.
Qed.

(** X26 - The two tables agree: the models that [setup_model_symlinks]
    looks for are the destinations of [preload_models], in the same
    order.  On a volume that holds every file of the preload table the
    set-up misses no model. *)
Theorem preloaded_volume_is_complete (w : world) :
  faultless w ->
  (forall url relative_path,
      In (url, relative_path) Preload.MODEL_DOWNLOADS ->
      on_disk w ("/models/" ++ relative_path)%string = true) ->
  map fst MODEL_SYMLINKS
  = map (fun p => ("/models/" ++ snd p)%string) Preload.MODEL_DOWNLOADS
  /\ outcome_of (setup_model_symlinks w) = Ret tt.
Proof.
  intros Hok Hfull.
  assert (Htables : map fst MODEL_SYMLINKS
                    = map (fun p => ("/models/" ++ snd p)%string)
                        Preload.MODEL_DOWNLOADS) by reflexivity.
  split; [exact Htables|].
  assert (Hall : filter (absent w) MODEL_SYMLINKS = []).
  { apply filter_none. intros pair Hpair. unfold absent.
    assert (Hsrc : In (fst pair) (map fst MODEL_SYMLINKS))
      by (apply in_map; exact Hpair).
    rewrite Htables in Hsrc. apply in_map_iff in Hsrc.
    destruct Hsrc as ([url rel] & Heq & Hdl). cbn [snd] in Heq.
    rewrite <- Heq, (Hfull url rel Hdl). reflexivity. }
  unfold setup_model_symlinks.
  rewrite (setup_with_run w _ Hok), Hall. reflexivity.
Qed.

Lemma preloaded_volume_is_complete_witness :
  outcome_of
    (setup_model_symlinks (machine HandlerSpec.quiet_world full_volume 0))
  = Ret tt.
Proof.
  refine (proj2 (preloaded_volume_is_complete
                   (machine HandlerSpec.quiet_world full_volume 0)
                   (fun _ => eq_refl) _)).
  intros url relative_path Hin. cbn [on_disk machine].
  repeat (destruct Hin as [Hin|Hin];
          [injection Hin as <- <-; reflexivity|]).
  contradiction.
Defined.

End Startup.

(* ================================================================== *)
(** ** The application: the two endpoints *)
(* ================================================================== *)

Section Endpoints.
Import Handler App AppSpec.

Lemma try_catch_ret_inv {W A} (catches : exn -> bool) (m : M W A)
  (h : exn -> M W A) (w w' : W) (t : trace) (a : A) :
  try_catch catches m h w = (t, w', Ret a) ->
  m w = (t, w', Ret a)
  \/ exists t1 w1 e t2,
       m w = (t1, w1, Raise e) /\ catches e = true
       /\ h e w1 = (t2, w', Ret a).
Proof.
  unfold try_catch.
  destruct (m w) as [[t1 w1] [a1|e|]]; intros H.
  - now left.
  - destruct (catches e) eqn:He; [|discriminate].
    destruct (h e w1) as [[t2 w2] r] eqn:Hh.
    injection H as _ <- ->. right. exists t1, w1, e, t2. auto.
  - discriminate.
Qed.

Lemma run_workflow_result (prompt : dict) (client_id : string)
  (w w' : Handler.world) (t : trace) (result : dict) :
  run_workflow prompt client_id w = (t, w', Ret result) ->
  is_result result.
Proof.
  unfold run_workflow. intros H.
  apply bind_ret_inv in H. destruct H as (? & ? & videos & ? & _ & H & _).
  apply bind_ret_inv in H. destruct H as (? & ? & ? & ? & _ & H & _).
  apply bind_ret_inv in H. destruct H as (? & ? & ? & ? & _ & H & _).
  destruct (first_video videos) as [path|].
  2:{ injection H as _ _ <-. left. eauto. }
  destruct (String.eqb path "").
  { injection H as _ _ <-. left. eauto. }
  apply bind_ret_inv in H. destruct H as (? & ? & present & ? & _ & H & _).
  destruct present; cbn [negb] in H.
  2:{ injection H as _ _ <-. left. eauto. }
  apply try_catch_ret_inv in H.
  destruct H as [H|(? & ? & e & ? & _ & _ & H)].
  - apply bind_ret_inv in H. destruct H as (? & ? & ? & ? & _ & H & _).
    apply bind_ret_inv in H. destruct H as (? & ? & ? & ? & _ & H & _).
    apply bind_ret_inv in H. destruct H as (? & ? & data & ? & _ & H & _).
    apply bind_ret_inv in H. destruct H as (? & ? & ? & ? & _ & H & _).
    injection H as _ _ <-. right. eauto.
  - apply bind_ret_inv in H. destruct H as (? & ? & ? & ? & _ & H & _).
    injection H as _ _ <-. left. eauto.
Qed.

Lemma connect_attempt_result (ws_url : string) (a : nat)
  (w w' : Handler.world) (t : trace) (d : dict) :
  connect_attempt ws_url a w = (t, w', Ret (Some (Some d))) ->
  d = error "WebSocket connection timeout (3 minutes)".
Proof.
  unfold connect_attempt, try_except, try_catch, bind, emit, get_world, log,
    sleep, raise, ret.
  destruct (connect w a) as [e|]; cbn [fst snd]; [|discriminate].
  destruct (is_Exception e); [|discriminate].
  destruct (a =? max_attempts - 1)%nat; [|discriminate].
  now intros [= _ _ <-].
Qed.

Lemma connect_loop_result (ws_url : string) (count : nat) :
  forall (start : nat) (w w' : Handler.world) (t : trace) (d : dict),
    for_range (connect_attempt ws_url) start count w
    = (t, w', Ret (Some (Some d))) ->
    d = error "WebSocket connection timeout (3 minutes)".
Proof.
  induction count as [|count IH]; intros start w w' t d H.
  - discriminate.
  - rewrite for_range_step in H.
    apply bind_ret_inv in H. destruct H as (? & ? & r & ? & Hbody & H & _).
    destruct r as [[d'|]|].
    + injection H as _ _ <-. exact (connect_attempt_result _ _ _ _ _ _ Hbody).
    + discriminate.
    + exact (IH _ _ _ _ _ H).
Qed.

Lemma connect_and_run_result (prompt : dict) (client_id : string)
  (w w' : Handler.world) (t : trace) (result : dict) :
  connect_and_run prompt client_id w = (t, w', Ret result) ->
  is_result result.
Proof.
  unfold connect_and_run. intros H.
  apply bind_ret_inv in H. destruct H as (? & ? & ? & ? & _ & H & _).
  apply bind_ret_inv in H. destruct H as (? & ? & timeout & ? & Hc & H & _).
  destruct timeout as [d|].
  - injection H as _ _ <-. left.
    unfold connect_websocket in Hc.
    apply bind_ret_inv in Hc. destruct Hc as (? & ? & r & ? & Hloop & Hc & _).
    destruct r as [[d'|]|]; try discriminate.
    injection Hc as _ _ <-.
    rewrite (connect_loop_result _ _ _ _ _ _ _ Hloop). eauto.
  - exact (run_workflow_result _ _ _ _ _ _ H).
Qed.

Lemma inject_and_run_result (inputs : dict) (client_id : string)
  (image_path wav_path max_frame : json)
  (w w' : Handler.world) (t : trace) (result : dict) :
  inject_and_run inputs client_id image_path wav_path max_frame w
  = (t, w', Ret result) ->
  is_result result.
Proof.
  unfold inject_and_run. intros H.
  apply bind_ret_inv in H. destruct H as (? & ? & ? & ? & _ & H & _).
  apply bind_ret_inv in H. destruct H as (? & ? & ? & ? & _ & H & _).
  apply bind_ret_inv in H. destruct H as (? & ? & ? & ? & _ & H & _).
  apply bind_ret_inv in H. destruct H as (? & ? & found & ? & _ & H & _).
  destruct found; cbn [negb] in H.
  2:{ injection H as _ _ <-. left. eauto. }
  apply bind_ret_inv in H. destruct H as (? & ? & found & ? & _ & H & _).
  destruct found; cbn [negb] in H.
  2:{ injection H as _ _ <-. left. eauto. }
  do 6 (apply bind_ret_inv in H; destruct H as (? & ? & ? & ? & _ & H & _)).
  exact (connect_and_run_result _ _ _ _ _ _ H).
Qed.

(** Whatever [process_infinitetalk] returns is an error report or a
    video. *)
Lemma process_result (inputs : dict) (w w' : Handler.world) (t : trace)
  (result : dict) :
  process_infinitetalk inputs w = (t, w', Ret result) ->
  is_result result.
Proof.
  unfold process_infinitetalk. intros H.
  do 4 (apply bind_ret_inv in H; destruct H as (? & ? & ? & ? & _ & H & _)).
  destruct (negb _).
  { injection H as _ _ <-. left. eauto. }
  unfold materialise_and_run in H.
  destruct (pick_form "image" inputs) as [[image_data image_form]|].
  2:{ injection H as _ _ <-. left. eauto. }
  apply bind_ret_inv in H. destruct H as (? & ? & ? & ? & _ & H & _).
  destruct (pick_form "wav" inputs) as [[wav_data wav_form]|].
  2:{ injection H as _ _ <-. left. eauto. }
  apply bind_ret_inv in H. destruct H as (? & ? & ? & ? & _ & H & _).
  unfold prepare_and_run in H.
  apply bind_ret_inv in H. destruct H as (? & ? & ? & ? & _ & H & _).
  exact (inject_and_run_result _ _ _ _ _ _ _ _ _ H).
Qed.

(** X27 - Whenever [process_infinitetalk] returns, its result has one
    of two shapes: [{"error": message}] or [{"video": data}], never
    both keys and never anything else. *)
Theorem result_is_video_or_error (inputs : dict) (w w' : Handler.world)
  (t : trace) (result : dict) :
  process_infinitetalk inputs w = (t, w', Ret result) ->
  (exists msg, result = [("error", JStr msg)])
  \/ (exists data, result = [("video", JStr data)]).
Proof. exact (process_result inputs w w' t result). Qed.

Lemma result_is_video_or_error_witness :
  (exists msg,
      Handler.error "Only input_type='image' is supported (I2V_single)"
      = [("error", JStr msg)])
  \/ (exists data,
         Handler.error "Only input_type='image' is supported (I2V_single)"
         = [("video", JStr data)]).
Proof.
  exact (result_is_video_or_error
           [("input_type", JStr "video"); ("wav_url", JStr "http://h/a.wav")]
           HandlerSpec.quiet_world _ _ _ eq_refl).
Defined.

Lemma in_handler_run {A} (m : M Handler.world A) (w : world)
  (t : trace) (h' : Handler.world) (r : outcome A) :
  m (hw w) = (t, h', r) ->
  in_handler m w = (t, set_hw h' w, r).
Proof. intros H. unfold in_handler. now rewrite H. Qed.

(** X28 - The two endpoints on a request that [process_infinitetalk]
    answers with an error: the synchronous endpoint returns the error
    report as its result, the queue raises an exception with the same
    message; neither adds a file operation of its own. *)
Theorem queue_raises_what_the_endpoint_returns
  (inputs : dict) (w : world) (t : trace) (h' : Handler.world)
  (msg : string) :
  process_infinitetalk inputs (hw w) = (t, h', Ret (Handler.error msg)) ->
  handler inputs w
  = (Log INFO "Received request with " :: t ++ [Log ERROR "Error: "],
     set_hw h' w, Ret (Handler.error msg))
  /\ queue_handler inputs w
     = (Log INFO "Received ASYNC task with " :: t ++ [Log ERROR "Error: "],
        set_hw h' w, Raise (Exception_ msg)).
Proof.
  intros H. apply (in_handler_run _ w) in H. split.
  - unfold handler, bind, log, emit. rewrite H. reflexivity.
  - unfold queue_handler, bind, log, emit. rewrite H. reflexivity.
Qed.

(** The video mode of the client, at both endpoints. *)
Lemma queue_raises_what_the_endpoint_returns_witness :
  let inputs := [("input_type", JStr "video");
                 ("video_url", JStr "http://h/v.mp4");
                 ("wav_url", JStr "http://h/a.wav")] in
  let w := machine HandlerSpec.quiet_world full_volume 0 in
  outcome_of (handler inputs w)
  = Ret [("error",
          JStr "Only input_type='image' is supported (I2V_single)")]
  /\ outcome_of (queue_handler inputs w)
     = Raise (Exception_ "Only input_type='image' is supported (I2V_single)").
Proof.
  intros inputs w.
  destruct (queue_raises_what_the_endpoint_returns inputs w _ _
              "Only input_type='image' is supported (I2V_single)" eq_refl)
    as [-> ->].
  split; reflexivity.
Defined.

Lemma perform_ret_inv (o : op) (w w' : world) (t : trace) :
  perform o w = (t, w', Ret tt) ->
  w' = set_journal (journal w ++ [o]) w.
Proof.
  rewrite perform_any. destruct (fault w o); [discriminate|].
  now intros [= _ <-].
Qed.

(** X29 - The queue reports success only after the video has been
    written to output.mp4 and handed to the platform: whenever it
    returns, either it returns the success report and these three
    operations are what it did, or [process_infinitetalk] produced an
    empty video, which is returned as it is with nothing saved. *)
Theorem queue_success_means_saved
  (inputs : dict) (w w' : world) (t : trace) (result : dict) :
  queue_handler inputs w = (t, w', Ret result) ->
  (result = uploaded /\ journal w' = journal w ++ saved)
  \/ (result = [("video", JStr "")] /\ journal w' = journal w).
Proof.
  unfold queue_handler. intros H.
  apply bind_ret_inv in H. destruct H as (? & w1 & ? & ? & Hlog & H & _).
  injection Hlog as _ <- _.
  apply bind_ret_inv in H. destruct H as (? & w2 & r & ? & Hrun & H & _).
  unfold in_handler in Hrun.
  destruct (process_infinitetalk inputs (hw w)) as [[t0 h'] r0] eqn:Hp.
  injection Hrun as _ <- ->.
  destruct (process_result _ _ _ _ _ Hp) as [[msg ->]|[data ->]].
  { cbn in H. discriminate. }
  cbn [dict_mem dict_get_default dict_get existsb fst snd String.eqb
       Ascii.eqb Bool.eqb orb] in H.
  change (dict_mem "error" [("video", JStr data)]) with false in H.
  change (dict_get_default "video" JNull [("video", JStr data)])
    with (JStr data) in H.
  destruct data as [|c data].
  { cbn [truthy] in H. injection H as _ <- <-. right. auto. }
  change (truthy (JStr (String c data))) with true in H.
  apply bind_ret_inv in H. destruct H as (? & w3 & [] & ? & H1 & H & _).
  apply perform_ret_inv in H1.
  apply bind_ret_inv in H. destruct H as (? & w4 & ? & ? & Hw & H & _).
  injection Hw as _ <- _.
  apply bind_ret_inv in H. destruct H as (? & w5 & ? & ? & Hd & H & _).
  assert (w5 = w3).
  { unfold lift in Hd. destruct (b64decode _ _); [discriminate|].
    now injection Hd as _ <- _. }
  subst w5.
  apply bind_ret_inv in H. destruct H as (? & w6 & [] & ? & H2 & H & _).
  apply perform_ret_inv in H2.
  apply bind_ret_inv in H. destruct H as (? & w7 & ? & ? & Hl & H & _).
  injection Hl as _ <- _.
  apply bind_ret_inv in H. destruct H as (? & w8 & [] & ? & H3 & H & _).
  apply perform_ret_inv in H3.
  injection H as _ <- <-. left. split; [reflexivity|].
  subst. cbn [journal set_journal set_hw saved].
  now rewrite <- !app_assoc.
Qed.

(** A whole task: the video of the run is saved and reported. *)
Lemma queue_success_means_saved_witness :
  let w := machine HandlerSpec.quiet_world full_volume 0 in
  let run := queue_handler [("image_path", JStr "/data/face.jpg");
                            ("wav_url", JStr "http://host/voice.wav");
                            ("prompt", JStr "hello")] w in
  (uploaded = uploaded /\ journal (world_of run) = journal w ++ saved)
  \/ (uploaded = [("video", JStr "")]
      /\ journal (world_of run) = journal w).
Proof.
  intros w run.
  refine (queue_success_means_saved
            [("image_path", JStr "/data/face.jpg");
             ("wav_url", JStr "http://host/voice.wav");
             ("prompt", JStr "hello")] w (world_of run) (trace_of run)
            uploaded _).
  vm_compute. reflexivity.
Defined.

End Endpoints.

(* ================================================================== *)
(** ** The preload *)
(* ================================================================== *)

Section Preloading.
Import Handler Preload PreloadSpec.

Variable w : world.
Hypothesis Hdirs : forall dir, makedirs w dir = None.
Hypothesis Hsizes : measurable w.
Hypothesis Hwget :
  forall url output_path e,
    wget w url output_path = WgetError e -> is_Exception e = true.

Lemma preload_one_run (url relative_path : string) :
  exists t entry,
    preload_one url relative_path w = (t, w, Ret entry)
    /\ file_of entry = JStr relative_path
    /\ reported_present entry = on_disk w (dest (url, relative_path))
    /\ filter MoreSpec.is_wget t
       = if on_disk w (dest (url, relative_path)) then []
         else [Wget (JStr url) (dest (url, relative_path))].
Proof.
  unfold dest. cbn [snd].
  destruct (Hsizes ("/models/" ++ relative_path)%string)
    as (size & size_mb & Hsize & Hmb).
  unfold preload_one, os_path_exists, size_mb_of, os_makedirs, run_wget, log,
    try_except, try_catch, bind, emit, get_world, lift, ret, raise.
  destruct (on_disk w ("/models/" ++ relative_path)%string) eqn:Hthere.
  - rewrite Hsize, Hmb. eexists _, _. repeat split.
  - rewrite Hdirs.
    destruct (wget w url ("/models/" ++ relative_path)%string)
      as [rc err| |e] eqn:Hw; cbn [fst snd].
    + destruct (rc =? 0).
      * rewrite Hsize, Hmb. eexists _, _. repeat split.
      * eexists _, _. repeat split.
    + cbn [is_Exception]. eexists _, _. repeat split.
    + rewrite (Hwget _ _ _ Hw). eexists _, _. repeat split.
Qed.

Lemma preload_all_run (pairs : list (string * string)) :
  forall results0,
  exists t results,
    preload_all pairs results0 w = (t, w, Ret (results0 ++ results))
    /\ map file_of results = map (fun pair => JStr (snd pair)) pairs
    /\ map reported_present results
       = map (fun pair => on_disk w (dest pair)) pairs
    /\ filter MoreSpec.is_wget t = downloads w pairs.
Proof.
  induction pairs as [|[url relative_path] pairs IH]; intros results0.
  - exists [], []. cbn. now rewrite app_nil_r.
  - destruct (preload_one_run url relative_path)
      as (t1 & entry & Hone & Hfile & Hstatus & Hget).
    destruct (IH (results0 ++ [entry])) as (t2 & results & Hall & Hf & Hs & Hg).
    exists (t1 ++ t2), (entry :: results).
    cbn [preload_all]. unfold bind. rewrite Hone, Hall.
    rewrite <- app_assoc. split; [reflexivity|].
    cbn [map]. rewrite Hfile, Hf, Hstatus, Hs.
    repeat split.
    rewrite filter_app, Hget, Hg. unfold downloads. cbn [filter].
    now destruct (on_disk w (dest (url, relative_path))).
Qed.

Lemma walk_sizes_run (files : list string) :
  forall total,
    walk_sizes files total w
    = ([], w,
       Ret (fold_left
              (fun total path =>
                 total + match getsize w path with
                         | inr size => size
                         | inl _ => 0
                         end) files total)).
Proof.
  induction files as [|path files IH]; intros total; [reflexivity|].
  cbn [walk_sizes fold_left]. unfold bind at 1, get_world.
  unfold bind at 1, lift.
  destruct (Hsizes path) as (size & _ & -> & _).
  cbn [ret]. now rewrite IH.
Qed.

(** X30 - When the directories can be made and the sizes read,
    [preload_models] returns a report with one entry for every model of
    its table, in the order of the table, whatever the downloads do: a
    wget that fails, times out or cannot be run becomes an entry, not an
    exception.  A model that is on the volume is reported as existing
    and is not downloaded again; wget runs once for each of the
    others. *)
Theorem preload_reports_every_model (total_size_gb : float) :
  true_div_pow2 (volume_total w) 30 = inr total_size_gb ->
  exists t results,
    preload_models w
    = (t, w, Ret [("results", JArr results);
                  ("total_size_gb", JFloat total_size_gb)])
    /\ map file_of results = map (fun pair => JStr (snd pair)) MODEL_DOWNLOADS
    /\ map reported_present results
       = map (fun pair => on_disk w (dest pair)) MODEL_DOWNLOADS
    /\ filter MoreSpec.is_wget t = downloads w MODEL_DOWNLOADS.
Proof.
  intros Htotal.
  destruct (preload_all_run MODEL_DOWNLOADS [])
    as (t & results & Hall & Hf & Hs & Hg).
  exists t, results. split; [|auto].
  unfold preload_models, preload_with, bind, get_world, lift.
  rewrite Hall, walk_sizes_run. fold (volume_total w). rewrite Htotal.
  cbn [app ret]. now rewrite !app_nil_r.
Qed.

End Preloading.

Section PreloadingWitness.
Import Handler Preload PreloadSpec.

Lemma preload_reports_every_model_witness :
  exists t results,
    preload_models sample_volume
    = (t, sample_volume,
       Ret [("results", JArr results);
            ("total_size_gb", JFloat (S754_finite false 6755399441055744 (-60)))])
    /\ map file_of results
       = map (fun pair => JStr (snd pair)) MODEL_DOWNLOADS
    /\ map reported_present results
       = map (fun pair => on_disk sample_volume (dest pair)) MODEL_DOWNLOADS
    /\ filter MoreSpec.is_wget t = downloads sample_volume MODEL_DOWNLOADS.
Proof.
  apply (preload_reports_every_model sample_volume).
  - intros dir. reflexivity.
  - intros path. eexists _, _. split; reflexivity.
  - intros url output_path e. cbn [wget sample_volume].
    repeat match goal with
           | |- context [String.eqb ?a ?b] => destruct (String.eqb a b)
           end; try discriminate.
    now intros [= <-].
  - reflexivity.
Defined.

End PreloadingWitness.
